(** * Strategy decision engine: rule engine, strike selection,
      parameter generation and risk management

    A shallow embedding of [scripts/utils/strategy_selector.py] and
    [scripts/utils/parameter_generator.py], with the risk validation of
    [agents/recommendation_agent.py] and the candidate parameters of
    [scripts/3_create_labels.py].

    Numbers.  Python floats and ints that take part in float arithmetic
    are modelled as exact rationals [Q]; Python's [==] on numbers is
    [Qeq] (written [==]).  Integer columns and contract counts are [Z].
    Rounding error and NaN of IEEE arithmetic are outside the model.
    So are infinities, except where the code converts a float to an
    integer: [int] raises [OverflowError] on an infinity, and the
    quotient it is applied to is an infinity once its exact value
    reaches the overflow threshold of float division.

    Effects.  A pandas [DataFrame] is a mutable object reached through a
    reference; the code filters, copies and adds columns to frames.  The
    store holds the frames and the [RiskManager] instance, and every
    method is a computation in a state-and-exception monad [Py]. *)

From Stdlib Require Import QArith Qround Qabs Lqa ZArith Lia Sorted.
From stdpp Require Import base gmap strings list.

Open Scope Q_scope.

(* ================================================================== *)
(** ** Numbers *)
(* ================================================================== *)

Module Num.

(** Python comparison operators on numbers, as booleans. *)
Definition leb (x y : Q) : bool := Qle_bool x y.
Definition ltb (x y : Q) : bool := negb (Qle_bool y x).
Definition eqb (x y : Q) : bool := Qeq_bool x y.
Definition neb (x y : Q) : bool := negb (Qeq_bool x y).

(** [int(x)] on a finite float: truncation towards zero. *)
Definition py_int (x : Q) : Z :=
  if Qle_bool 0 x then Qfloor x else Qceiling x.

(** The overflow threshold of float arithmetic, [2^1024 - 2^970]: half
    a unit in the last place above the largest float.  A result whose
    exact value has this magnitude or more is rounded to an infinity. *)
Definition float_overflow : Q := inject_Z (2 ^ 1024 - 2 ^ 970).

(** The float result of an operation with exact value [x] is infinite. *)
Definition overflows (x : Q) : bool := Qle_bool float_overflow (Qabs x).


End Num.

Declare Scope py_scope.
Delimit Scope py_scope with py.
Infix "<?" := Num.ltb (at level 70, no associativity) : py_scope.
Infix "<=?" := Num.leb (at level 70, no associativity) : py_scope.
Notation "x >? y" := (Num.ltb y x) (at level 70, no associativity, only parsing) : py_scope.
Notation "x >=? y" := (Num.leb y x) (at level 70, no associativity, only parsing) : py_scope.
Infix "=?" := Num.eqb (at level 70, no associativity) : py_scope.
Infix "!=?" := Num.neb (at level 70, no associativity) : py_scope.

(* ================================================================== *)
(** ** Option chain rows, frames and the store *)
(* ================================================================== *)

Inductive OptionType := call | put.

#[global] Instance OptionType_eq_dec : EqDecision OptionType.
Proof. solve_decision. Defined.

(** The columns of the option chain that the generator reads, named as
    in [option_chain['strike']] etc.  [extra] holds columns added at run
    time ([delta_diff], [price_diff]). *)
Module Col.
Record Row := mkRow {
  strike : Q;
  type   : OptionType;
  dte    : Z;
  bid    : Q;
  ask    : Q;
  delta  : Q;
  extra  : gmap string Q
}.
End Col.
Abbreviation Row := Col.Row.

Definition DataFrame := list Row.

(** A reference to a frame: its position in the store. *)
Definition ref := nat.

Record RiskManager := mkRiskManager {
  account_size    : Q;
  risk_per_trade  : Q;
  max_contracts   : Z;
  max_risk_amount : Q
}.

Record Store := mkStore {
  risk_manager : RiskManager;      (* the generator's [self.risk_manager] *)
  frames       : list DataFrame    (* every DataFrame object alive *)
}.

(* ================================================================== *)
(** ** Exceptions and the [Py] monad *)
(* ================================================================== *)

(** The messages of the [ValueError]s the code raises. *)
Inductive ValueMsg :=
  | NoOptionsAvailable (t : OptionType)             (* "No {type} options available" *)
  | OptionNotFound (t : OptionType) (k : Q) (d : Z) (* "Option not found: {type} ${strike} {dte}DTE" *)
  | UnknownStrategy (s : string)                    (* "Unknown strategy: {strategy}" *)
  | MinEmptySequence.                               (* [min] of an empty sequence *)

Inductive Exn :=
  | ZeroDivisionError
  | TypeError
  | IndexError
  | KeyError (k : string)
  | ValueError (m : ValueMsg)
  | OverflowError                (* "cannot convert float infinity to integer" *)
  | DanglingRef.                 (* a reference outside the store; never built by the code *)

Inductive Result (A : Type) :=
  | Ok (a : A)
  | Raise (e : Exn).
Arguments Ok {A} a.
Arguments Raise {A} e.

Definition Py (A : Type) : Type := Store -> Result A * Store.

#[global] Instance Py_ret : MRet Py := fun A a s => (Ok a, s).
#[global] Instance Py_bind : MBind Py := fun A B k m s =>
  match m s with
  | (Ok a, s') => k a s'
  | (Raise e, s') => (Raise e, s')
  end.

Definition raise {A} (e : Exn) : Py A := fun s => (Raise e, s).
Definition get_store : Py Store := fun s => (Ok s, s).
Definition put_frames (fs : list DataFrame) : Py unit :=
  fun s => (Ok tt, mkStore (risk_manager s) fs).

(** [a / b] on floats. *)
Definition truediv (a b : Q) : Py Q :=
  if (b =? 0)%py then raise ZeroDivisionError else mret (a / b).

(** [int(x)] on the float result of an operation with exact value [x]:
    an infinity cannot be converted. *)
Definition int_of_float (x : Q) : Py Z :=
  if Num.overflows x then raise OverflowError else mret (Num.py_int x).

(** Values stored in result dictionaries and passed where Python is
    untyped: floats, ints and strings. *)
Inductive PyVal :=
  | VNum (q : Q)
  | VInt (z : Z)
  | VStr (s : string).

Definition as_number (v : PyVal) : Py Q :=
  match v with
  | VNum q => mret q
  | VInt z => mret (inject_Z z)
  | VStr _ => raise TypeError
  end.

(** A [dict] literal, in insertion order. *)
Definition PyDict := list (string * PyVal).

Fixpoint dict_get (d : PyDict) (k : string) : option PyVal :=
  match d with
  | [] => None
  | (k', v) :: d' => if String.eqb k k' then Some v else dict_get d' k
  end.

(* ================================================================== *)
(** ** RiskManager *)
(* ================================================================== *)

Module RiskManagerM.

(** [RiskManager.__init__] *)
Definition init (account_size risk_per_trade : Q) (max_contracts : Z)
  : RiskManager :=
  {| account_size := account_size;
     risk_per_trade := risk_per_trade;
     max_contracts := max_contracts;
     max_risk_amount := account_size * risk_per_trade |}.

(** The default instance [RiskManager()]. *)
Definition default : RiskManager := init 10000 0.02 10.

(** [RiskManager.calculate_position_size].  The quotient
    [self.max_risk_amount / max_loss_per_contract] is an infinity for a
    loss small enough, and [int] then raises. *)
Definition calculate_position_size (max_loss_per_contract : Q) : Py Z :=
  s ← get_store;
  let self := risk_manager s in
  if (max_loss_per_contract <=? 0)%py then mret 1%Z
  else
    q ← truediv (max_risk_amount self) max_loss_per_contract;
    contracts ← int_of_float q;
    mret (Z.max 1 (Z.min contracts (max_contracts self))).

(** The dictionary returned by [validate_trade]. *)
Record Validation := mkValidation {
  approved          : bool;
  risk_reward_ratio : Q;
  risk_percentage   : Q;
  v_max_risk_amount : Q;
  warnings          : list string
}.

(** [RiskManager.validate_trade].  [max_profit] is whatever the caller
    passes; a string only fails when it is divided. *)
Definition validate_trade (max_loss : Q) (max_profit : PyVal)
  : Py Validation :=
  s ← get_store;
  let self := risk_manager s in
  risk_reward_ratio ←
    (if (max_loss !=? 0)%py
     then (p ← as_number max_profit; truediv p (Qabs max_loss))
     else mret 0);
  risk_pct ← truediv (Qabs max_loss) (account_size self);
  mret {| approved := (risk_pct <=? risk_per_trade self)%py
                      && (risk_reward_ratio >? 0.5)%py;
          risk_reward_ratio := risk_reward_ratio;
          risk_percentage := risk_pct;
          v_max_risk_amount := max_risk_amount self;
          warnings := [] |}.

End RiskManagerM.

(* ================================================================== *)
(** ** Feature snapshots *)
(* ================================================================== *)

(** A feature snapshot is a [dict] from feature name to number. *)
Abbreviation Features := (gmap string Q).

(** [features.get(key, default)] *)
Definition features_get (features : Features) (key : string) (dflt : Q) : Q :=
  default dflt (features !! key).

(* ================================================================== *)
(** ** Strategy selection ([strategy_selector.py]) *)
(* ================================================================== *)

Module StrategySelector.

Local Open Scope string_scope.
Local Open Scope Q_scope.
Local Open Scope py_scope.

(** Each rule block of [select_strategy_from_features] either returns
    a label ([Some]) or falls through to the next block ([None]). *)

(* RULE 1: Diagonal Spread *)
Definition rule_1 (iv_rank adx trend_regime price_vs_sma : Q) : option string :=
  if (45 <? iv_rank) && (iv_rank <? 60) && (trend_regime =? 2)
     && ((0.005 <? Qabs price_vs_sma) && (Qabs price_vs_sma <? 0.012))
     && (adx <? 15)
  then Some "DIAGONAL_SPREAD" else None.

(* RULE 2: Iron Condor *)
Definition rule_2 (iv_rank adx rsi : Q) : option string :=
  if (52 <? iv_rank) && (iv_rank <? 75) && (adx <? 25)
     && ((45 <? rsi) && (rsi <? 55))
  then Some "IRON_CONDOR" else None.

(* RULE 3: Iron Butterfly *)
Definition rule_3 (iv_rank adx : Q) : option string :=
  if (iv_rank >? 68) && (adx <? 20) then Some "IRON_BUTTERFLY" else None.

(* RULE 4: Long Call *)
Definition rule_4 (iv_rank adx trend_regime rsi : Q) : option string :=
  if (iv_rank <? 46) && (adx >? 21) then
    if (trend_regime >=? 3) && (rsi >? 54) then Some "LONG_CALL" else None
  else None.

(* RULE 5: Long Put, three paths *)
Definition rule_5 (iv_rank adx trend_regime rsi price_vs_sma : Q) : option string :=
  if iv_rank <? 48 then
    if (adx >? 20) && ((trend_regime <=? 1) || (rsi <? 42) || (price_vs_sma <? -0.025))
    then Some "LONG_PUT"
    else if (adx >=? 15) && ((rsi <? 38) || (price_vs_sma <? -0.035))
    then Some "LONG_PUT"
    else if rsi <? 33
    then Some "LONG_PUT"
    else None
  else None.

(* RULE 6: Bull Call Spread *)
Definition rule_6 (iv_rank adx trend_regime rsi : Q) : option string :=
  if (56 <=? iv_rank) && (iv_rank <=? 63) && (trend_regime >=? 3)
     && (adx >? 26) && (rsi >? 62)
  then Some "BULL_CALL_SPREAD" else None.

(* RULE 7: Bear Put Spread *)
Definition rule_7 (iv_rank adx trend_regime rsi : Q) : option string :=
  if (54 <=? iv_rank) && (iv_rank <=? 65) && (trend_regime <=? 1)
     && (adx >? 22) && (rsi <? 45)
  then Some "BEAR_PUT_SPREAD" else None.

(* RULE 8: Long Straddle *)
Definition rule_8 (iv_rank adx rsi : Q) : option string :=
  if (iv_rank <? 35) && ((45 <? rsi) && (rsi <? 58)) then
    if adx <? 17 then Some "LONG_STRADDLE" else None
  else None.

(* RULE 9: Long Strangle *)
Definition rule_9 (iv_rank adx rsi : Q) : option string :=
  if (iv_rank <? 36) && ((44 <? rsi) && (rsi <? 59)) then
    if adx <? 25 then Some "LONG_STRANGLE" else None
  else None.

(* RULE 10: Calendar Spread *)
Definition rule_10 (iv_rank adx rsi price_vs_sma : Q) : option string :=
  if (iv_rank <? 42) && (adx <? 20) && ((42 <? rsi) && (rsi <? 58))
     && (Qabs price_vs_sma <? 0.022)
  then Some "CALENDAR_SPREAD" else None.

(* FINAL FALLBACK *)
Definition fallback (iv_rank adx rsi : Q) : string :=
  if iv_rank >? 55 then "IRON_CONDOR"
  else if iv_rank <? 35 then
    if rsi >=? 50 then "LONG_CALL" else "LONG_PUT"
  else
    if (rsi >? 58) && (adx >? 18) then "BULL_CALL_SPREAD"
    else if (rsi <? 42) && (adx >? 18) then "BEAR_PUT_SPREAD"
    else "IRON_CONDOR".

(** A rule block that does not return hands over to the code below it. *)
Definition or_else (block : option string) (rest : string) : string :=
  match block with
  | Some label => label
  | None => rest
  end.

(** [select_strategy_from_features] *)
Definition select_strategy_from_features (features : Features) : string :=
  let iv_rank := features_get features "iv_rank" 50 in
  let adx := features_get features "adx_14" 20 in
  let trend_regime := features_get features "trend_regime" 2 in
  let rsi := features_get features "rsi_14" 50 in
  let price_vs_sma := features_get features "price_vs_sma_20" 0 in
  or_else (rule_1 iv_rank adx trend_regime price_vs_sma) (
  or_else (rule_2 iv_rank adx rsi) (
  or_else (rule_3 iv_rank adx) (
  or_else (rule_4 iv_rank adx trend_regime rsi) (
  or_else (rule_5 iv_rank adx trend_regime rsi price_vs_sma) (
  or_else (rule_6 iv_rank adx trend_regime rsi) (
  or_else (rule_7 iv_rank adx trend_regime rsi) (
  or_else (rule_8 iv_rank adx rsi) (
  or_else (rule_9 iv_rank adx rsi) (
  or_else (rule_10 iv_rank adx rsi price_vs_sma) (
  fallback iv_rank adx rsi)))))))))).

(** The outcome of the ten rule blocks on a snapshot, in source order. *)
Definition rule_table (features : Features) : list (option string) :=
  let iv_rank := features_get features "iv_rank" 50 in
  let adx := features_get features "adx_14" 20 in
  let trend_regime := features_get features "trend_regime" 2 in
  let rsi := features_get features "rsi_14" 50 in
  let price_vs_sma := features_get features "price_vs_sma_20" 0 in
  [ rule_1 iv_rank adx trend_regime price_vs_sma;
    rule_2 iv_rank adx rsi;
    rule_3 iv_rank adx;
    rule_4 iv_rank adx trend_regime rsi;
    rule_5 iv_rank adx trend_regime rsi price_vs_sma;
    rule_6 iv_rank adx trend_regime rsi;
    rule_7 iv_rank adx trend_regime rsi;
    rule_8 iv_rank adx rsi;
    rule_9 iv_rank adx rsi;
    rule_10 iv_rank adx rsi price_vs_sma ].

(** The closed set of strategy labels. *)
Definition strategy_labels : list string :=
  [ "IRON_CONDOR"; "IRON_BUTTERFLY"; "LONG_CALL"; "LONG_PUT";
    "BULL_CALL_SPREAD"; "BEAR_PUT_SPREAD"; "LONG_STRADDLE";
    "LONG_STRANGLE"; "CALENDAR_SPREAD"; "DIAGONAL_SPREAD" ].

(** The keys the rule engine reads, each with the default that
    [features.get] supplies when the key is absent. *)
Definition required_features : list (string * Q) :=
  [ ("iv_rank", 50); ("adx_14", 20); ("trend_regime", 2);
    ("rsi_14", 50); ("price_vs_sma_20", 0) ].

(** The snapshot with every absent required key set to its default. *)
Definition fill_defaults (features : Features) : Features :=
  foldr (fun kd f =>
           match f !! kd.1 with
           | Some _ => f
           | None => <[kd.1 := kd.2]> f
           end) features required_features.

End StrategySelector.

(* ================================================================== *)
(** ** Built-ins: [min], [sorted], [unique] *)
(* ================================================================== *)

Module Builtins.

(** The first element with the least key, scanning left to right from
    a current best: what [min(seq, key=...)] and
    [DataFrame.nsmallest(1, col)] (keep='first') return. *)
Fixpoint first_min {A K : Type} (lt : K -> K -> bool) (key : A -> K)
    (best : A) (l : list A) : A :=
  match l with
  | [] => best
  | x :: l' => first_min lt key (if lt (key x) (key best) then x else best) l'
  end.

(** [min(seq, key=key)] over integers keys. *)
Definition py_min {A : Type} (key : A -> Z) (seq : list A) : Py A :=
  match seq with
  | [] => raise (ValueError MinEmptySequence)
  | x :: l => mret (first_min Z.ltb key x l)
  end.

(** [min(seq, key=key, default=dflt)] *)
Definition py_min_default {A : Type} (key : A -> Z) (seq : list A) (dflt : A) : A :=
  match seq with
  | [] => dflt
  | x :: l => first_min Z.ltb key x l
  end.

(** [max(a, b)] on floats. *)
Definition py_max (a b : Q) : Q := if (a <? b)%py then b else a.

(** [Series.unique()]: distinct values in order of first appearance. *)
Fixpoint unique (l : list Z) : list Z :=
  match l with
  | [] => []
  | x :: l' => x :: List.filter (fun y => negb (y =? x)%Z) (unique l')
  end.

Fixpoint insert_sorted (x : Z) (l : list Z) : list Z :=
  match l with
  | [] => [x]
  | y :: l' => if (x <=? y)%Z then x :: l else y :: insert_sorted x l'
  end.

(** [sorted(seq)] *)
Definition sorted (l : list Z) : list Z := foldr insert_sorted [] l.

End Builtins.

(* ================================================================== *)
(** ** DataFrame operations on the store *)
(* ================================================================== *)

Module DF.

Import Builtins.

Definition alloc (f : DataFrame) : Py ref :=
  s ← get_store;
  _ ← put_frames (frames s ++ [f]);
  mret (length (frames s)).

Definition load (r : ref) : Py DataFrame :=
  s ← get_store;
  match frames s !! r with
  | Some f => mret f
  | None => raise DanglingRef
  end.

Definition store_frame (r : ref) (f : DataFrame) : Py unit :=
  s ← get_store;
  put_frames (<[r := f]> (frames s)).

(** [df[mask]]: a new frame with the rows selected by the mask, in
    their original order. *)
Definition select_rows (r : ref) (mask : Row -> bool) : Py ref :=
  f ← load r;
  alloc (List.filter mask f).

(** [df.copy()] *)
Definition copy (r : ref) : Py ref :=
  f ← load r;
  alloc f.

(** [len(df)] *)
Definition len (r : ref) : Py nat :=
  f ← load r;
  mret (length f).

Definition with_extra (name : string) (v : Q) (row : Row) : Row :=
  Col.mkRow (Col.strike row) (Col.type row) (Col.dte row) (Col.bid row)
            (Col.ask row) (Col.delta row) (<[name := v]> (Col.extra row)).

(** [df[name] = series], the series given row by row; mutates [df]. *)
Definition set_column (r : ref) (name : string) (series : Row -> Q) : Py unit :=
  f ← load r;
  store_frame r (map (fun row => with_extra name (series row) row) f).

Definition has_column (name : string) (row : Row) : bool :=
  bool_decide (is_Some (Col.extra row !! name)).

Definition column (name : string) (row : Row) : Q :=
  default 0 (Col.extra row !! name).

(** [df.nsmallest(1, name)] *)
Definition nsmallest_1 (r : ref) (name : string) : Py ref :=
  f ← load r;
  if forallb (has_column name) f then
    match f with
    | [] => alloc []
    | row :: rest => alloc [first_min Num.ltb (column name) row rest]
    end
  else raise (KeyError name).

(** [float(df[col].iloc[0])] *)
Definition iloc_0 (r : ref) (col : Row -> Q) : Py Q :=
  f ← load r;
  match f with
  | [] => raise IndexError
  | row :: _ => mret (col row)
  end.

(** [df['dte'].unique()] *)
Definition unique_dte (r : ref) : Py (list Z) :=
  f ← load r;
  mret (unique (map Col.dte f)).

End DF.

(* ================================================================== *)
(** ** ParameterGenerator ([parameter_generator.py]) *)
(* ================================================================== *)

Module ParameterGenerator.

Import Builtins DF RiskManagerM.
Local Open Scope string_scope.
Local Open Scope Q_scope.
Local Open Scope py_scope.

(** [ParameterGenerator.__init__]: the generator keeps the risk manager
    it is given, or a default one. *)
Definition init (risk_manager : option RiskManager) (frames : list DataFrame)
  : Store :=
  mkStore (from_option id RiskManagerM.default risk_manager) frames.

Definition type_is (option_type : OptionType) (row : Row) : bool :=
  bool_decide (Col.type row = option_type).
Definition dte_is (dte : Z) (row : Row) : bool := (Col.dte row =? dte)%Z.
Definition strike_is (strike : Q) (row : Row) : bool := (Col.strike row =? strike).

(** The series [(filtered['delta'].abs() - abs(target_delta)).abs()]. *)
Definition delta_diff (target_delta : Q) (row : Row) : Q :=
  Qabs (Qabs (Col.delta row) - Qabs target_delta).

(** The series [(filtered['strike'] - target_price).abs()]. *)
Definition price_diff (target_price : Q) (row : Row) : Q :=
  Qabs (Col.strike row - target_price).

(** [option_type.upper()] *)
Definition upper (option_type : OptionType) : string :=
  match option_type with call => "CALL" | put => "PUT" end.

(** The strategy-specific DTE preference of [_select_optimal_dte]. *)
Definition target_dte (strategy : string) (iv_rank : Q) (trend_strength : string) : Z :=
  if bool_decide (strategy ∈ ["IRON_CONDOR"; "IRON_BUTTERFLY"]) then
    if iv_rank >? 70 then 7%Z
    else if iv_rank >? 50 then 14%Z
    else 21%Z
  else if bool_decide (strategy ∈ ["LONG_CALL"; "LONG_PUT"]) then
    if (iv_rank <? 30) && bool_decide (trend_strength = "VERY_STRONG") then 45%Z
    else if iv_rank <? 40 then 30%Z
    else 21%Z
  else if bool_decide (strategy ∈ ["BULL_CALL_SPREAD"; "BEAR_PUT_SPREAD"]) then
    if bool_decide (trend_strength = "VERY_STRONG") then 30%Z
    else 21%Z
  else 30%Z.

(** [_select_optimal_dte] *)
Definition _select_optimal_dte (option_chain : ref) (strategy : string)
    (iv_rank : Q) (trend_strength : string) : Py Z :=
  dtes ← unique_dte option_chain;
  let available_dtes := sorted dtes in
  let target := target_dte strategy iv_rank trend_strength in
  (* Find closest available DTE *)
  py_min (fun x => Z.abs (x - target)) available_dtes.

(** [_classify_trend_strength] *)
Definition _classify_trend_strength (features : Features) : string :=
  let rsi := features_get features "rsi_14" 50 in
  let adx := features_get features "adx_14" 20 in
  let trend_regime := features_get features "trend_regime" 2 in
  if (adx >? 30) && (((rsi >? 65) && (trend_regime >=? 4))
                     || ((rsi <? 35) && (trend_regime <=? 0)))
  then "VERY_STRONG"
  else if (adx >? 25) && (((rsi >? 60) && (trend_regime >=? 3))
                          || ((rsi <? 40) && (trend_regime <=? 1)))
  then "STRONG"
  else if adx >? 20 then "MODERATE"
  else "WEAK".

(** [_find_strike_by_delta] *)
Definition _find_strike_by_delta (option_chain : ref) (target_delta : Q)
    (option_type : OptionType) (dte : Z) : Py Q :=
  (* Filter by type and DTE *)
  masked ← select_rows option_chain
             (fun row => type_is option_type row && dte_is dte row);
  filtered ← copy masked;
  n ← len filtered;
  filtered ← (if (n =? 0)%nat then
                (* Fallback to any DTE *)
                masked ← select_rows option_chain (type_is option_type);
                copy masked
              else mret filtered);
  n ← len filtered;
  if (n =? 0)%nat then raise (ValueError (NoOptionsAvailable option_type))
  else
    (* Find closest delta *)
    _ ← set_column filtered "delta_diff" (delta_diff target_delta);
    best ← nsmallest_1 filtered "delta_diff";
    iloc_0 best Col.strike.

(** [_find_strike_by_price] *)
Definition _find_strike_by_price (option_chain : ref) (target_price : Q)
    (option_type : OptionType) (dte : Z) : Py Q :=
  masked ← select_rows option_chain
             (fun row => type_is option_type row && dte_is dte row);
  filtered ← copy masked;
  n ← len filtered;
  filtered ← (if (n =? 0)%nat then
                masked ← select_rows option_chain (type_is option_type);
                copy masked
              else mret filtered);
  n ← len filtered;
  if (n =? 0)%nat then raise (ValueError (NoOptionsAvailable option_type))
  else
    (* Find closest strike *)
    _ ← set_column filtered "price_diff" (price_diff target_price);
    best ← nsmallest_1 filtered "price_diff";
    iloc_0 best Col.strike.

(** [_get_option_cost] *)
Definition _get_option_cost (option_chain : ref) (strike : Q)
    (option_type : OptionType) (dte : Z) : Py Q :=
  option ← select_rows option_chain
             (fun row => strike_is strike row && type_is option_type row
                         && dte_is dte row);
  n ← len option;
  if (n =? 0)%nat then raise (ValueError (OptionNotFound option_type strike dte))
  else iloc_0 option Col.ask.

(** [_get_option_bid] *)
Definition _get_option_bid (option_chain : ref) (strike : Q)
    (option_type : OptionType) (dte : Z) : Py Q :=
  option ← select_rows option_chain
             (fun row => strike_is strike row && type_is option_type row
                         && dte_is dte row);
  n ← len option;
  if (n =? 0)%nat then raise (ValueError (OptionNotFound option_type strike dte))
  else iloc_0 option Col.bid.

(* ---------------------------------------------------------------- *)
(** *** Strategy-specific generators *)
(* ---------------------------------------------------------------- *)

(** [_generate_long_call] *)
Definition _generate_long_call (option_chain : ref) (features : Features)
    (current_price : Q) : Py PyDict :=
  let iv_rank := features_get features "iv_rank" 50 in
  let trend_strength := _classify_trend_strength features in
  dte ← _select_optimal_dte option_chain "LONG_CALL" iv_rank trend_strength;
  let target_delta :=
    if iv_rank <? 30 then 0.50
    else if iv_rank <? 40 then 0.40
    else 0.30 in
  strike ← _find_strike_by_delta option_chain target_delta call dte;
  cost ← _get_option_cost option_chain strike call dte;
  let max_loss_per_contract := cost * 100 in
  contracts ← calculate_position_size max_loss_per_contract;
  let total_cost := cost * 100 * inject_Z contracts in
  mret [ ("strategy", VStr "LONG_CALL");
         ("action", VStr "BUY");
         ("option_type", VStr "CALL");
         ("strike", VNum strike);
         ("dte", VInt dte);
         ("contracts", VInt contracts);
         ("cost_per_contract", VNum (cost * 100));
         ("total_cost", VNum total_cost);
         ("max_loss", VNum total_cost);
         ("max_profit", VStr "Unlimited");
         ("breakeven", VNum (strike + cost));
         ("target_delta", VNum target_delta);
         ("iv_rank", VNum iv_rank);
         ("trend_strength", VStr trend_strength) ].

(** [_generate_long_put] *)
Definition _generate_long_put (option_chain : ref) (features : Features)
    (current_price : Q) : Py PyDict :=
  let iv_rank := features_get features "iv_rank" 50 in
  let trend_strength := _classify_trend_strength features in
  dte ← _select_optimal_dte option_chain "LONG_PUT" iv_rank trend_strength;
  let target_delta :=
    if iv_rank <? 30 then -0.50
    else if iv_rank <? 40 then -0.40
    else -0.30 in
  strike ← _find_strike_by_delta option_chain target_delta put dte;
  cost ← _get_option_cost option_chain strike put dte;
  let max_loss_per_contract := cost * 100 in
  contracts ← calculate_position_size max_loss_per_contract;
  let total_cost := cost * 100 * inject_Z contracts in
  mret [ ("strategy", VStr "LONG_PUT");
         ("action", VStr "BUY");
         ("option_type", VStr "PUT");
         ("strike", VNum strike);
         ("dte", VInt dte);
         ("contracts", VInt contracts);
         ("cost_per_contract", VNum (cost * 100));
         ("total_cost", VNum total_cost);
         ("max_loss", VNum total_cost);
         ("max_profit", VStr "Unlimited");
         ("breakeven", VNum (strike - cost));
         ("target_delta", VNum target_delta);
         ("iv_rank", VNum iv_rank);
         ("trend_strength", VStr trend_strength) ].

(** [_generate_bull_call_spread] *)
Definition _generate_bull_call_spread (option_chain : ref) (features : Features)
    (current_price : Q) : Py PyDict :=
  let iv_rank := features_get features "iv_rank" 50 in
  let trend_strength := _classify_trend_strength features in
  dte ← _select_optimal_dte option_chain "BULL_CALL_SPREAD" iv_rank trend_strength;
  let '(long_delta, short_delta) :=
    if iv_rank <? 50 then (0.50, 0.30) else (0.60, 0.25) in
  long_strike ← _find_strike_by_delta option_chain long_delta call dte;
  short_strike ← _find_strike_by_delta option_chain short_delta call dte;
  long_cost ← _get_option_cost option_chain long_strike call dte;
  short_credit ← _get_option_bid option_chain short_strike call dte;
  let net_debit := (long_cost - short_credit) * 100 in
  let spread_width := (short_strike - long_strike) * 100 in
  let max_profit := spread_width - net_debit in
  contracts ← calculate_position_size net_debit;
  let total_debit := net_debit * inject_Z contracts in
  let total_max_profit := max_profit * inject_Z contracts in
  risk_reward ← (if net_debit >? 0 then truediv max_profit net_debit else mret 0);
  mret [ ("strategy", VStr "BULL_CALL_SPREAD");
         ("long_strike", VNum long_strike);
         ("short_strike", VNum short_strike);
         ("dte", VInt dte);
         ("contracts", VInt contracts);
         ("net_debit", VNum net_debit);
         ("total_debit", VNum total_debit);
         ("max_profit", VNum max_profit);
         ("total_max_profit", VNum total_max_profit);
         ("max_loss", VNum net_debit);
         ("total_max_loss", VNum total_debit);
         ("breakeven", VNum (long_strike + (net_debit / 100)));
         ("spread_width", VNum (spread_width / 100));
         ("risk_reward_ratio", VNum risk_reward);
         ("iv_rank", VNum iv_rank) ].

(** [_generate_bear_put_spread] *)
Definition _generate_bear_put_spread (option_chain : ref) (features : Features)
    (current_price : Q) : Py PyDict :=
  let iv_rank := features_get features "iv_rank" 50 in
  let trend_strength := _classify_trend_strength features in
  dte ← _select_optimal_dte option_chain "BEAR_PUT_SPREAD" iv_rank trend_strength;
  let '(long_delta, short_delta) :=
    if iv_rank <? 50 then (-0.50, -0.30) else (-0.60, -0.25) in
  long_strike ← _find_strike_by_delta option_chain long_delta put dte;
  short_strike ← _find_strike_by_delta option_chain short_delta put dte;
  long_cost ← _get_option_cost option_chain long_strike put dte;
  short_credit ← _get_option_bid option_chain short_strike put dte;
  let net_debit := (long_cost - short_credit) * 100 in
  let spread_width := (long_strike - short_strike) * 100 in
  let max_profit := spread_width - net_debit in
  contracts ← calculate_position_size net_debit;
  let total_debit := net_debit * inject_Z contracts in
  let total_max_profit := max_profit * inject_Z contracts in
  risk_reward ← (if net_debit >? 0 then truediv max_profit net_debit else mret 0);
  mret [ ("strategy", VStr "BEAR_PUT_SPREAD");
         ("long_strike", VNum long_strike);
         ("short_strike", VNum short_strike);
         ("dte", VInt dte);
         ("contracts", VInt contracts);
         ("net_debit", VNum net_debit);
         ("total_debit", VNum total_debit);
         ("max_profit", VNum max_profit);
         ("total_max_profit", VNum total_max_profit);
         ("max_loss", VNum net_debit);
         ("total_max_loss", VNum total_debit);
         ("breakeven", VNum (long_strike - (net_debit / 100)));
         ("spread_width", VNum (spread_width / 100));
         ("risk_reward_ratio", VNum risk_reward);
         ("iv_rank", VNum iv_rank) ].

(** [_generate_long_straddle] *)
Definition _generate_long_straddle (option_chain : ref) (features : Features)
    (current_price : Q) : Py PyDict :=
  let iv_rank := features_get features "iv_rank" 50 in
  dte ← _select_optimal_dte option_chain "LONG_STRADDLE" iv_rank "MODERATE";
  call_strike ← _find_strike_by_delta option_chain 0.50 call dte;
  put_strike ← _find_strike_by_delta option_chain (-0.50) put dte;
  let atm_strike := (call_strike + put_strike) / 2 in
  atm_strike ← _find_strike_by_price option_chain atm_strike call dte;
  call_cost ← _get_option_cost option_chain atm_strike call dte;
  put_cost ← _get_option_cost option_chain atm_strike put dte;
  let total_cost_per_contract := (call_cost + put_cost) * 100 in
  contracts ← calculate_position_size total_cost_per_contract;
  let total_cost := total_cost_per_contract * inject_Z contracts in
  let breakeven_up := atm_strike + (call_cost + put_cost) in
  let breakeven_down := atm_strike - (call_cost + put_cost) in
  mret [ ("strategy", VStr "LONG_STRADDLE");
         ("strike", VNum atm_strike);
         ("dte", VInt dte);
         ("contracts", VInt contracts);
         ("call_cost", VNum (call_cost * 100));
         ("put_cost", VNum (put_cost * 100));
         ("cost_per_contract", VNum total_cost_per_contract);
         ("total_cost", VNum total_cost);
         ("max_loss", VNum total_cost);
         ("max_profit", VStr "Unlimited");
         ("breakeven_up", VNum breakeven_up);
         ("breakeven_down", VNum breakeven_down);
         ("breakeven_range", VNum (breakeven_up - breakeven_down));
         ("iv_rank", VNum iv_rank) ].

(** [_generate_long_strangle] *)
Definition _generate_long_strangle (option_chain : ref) (features : Features)
    (current_price : Q) : Py PyDict :=
  let iv_rank := features_get features "iv_rank" 50 in
  dte ← _select_optimal_dte option_chain "LONG_STRANGLE" iv_rank "MODERATE";
  let '(call_delta, put_delta) :=
    if iv_rank <? 30 then (0.35, -0.35) else (0.25, -0.25) in
  call_strike ← _find_strike_by_delta option_chain call_delta call dte;
  put_strike ← _find_strike_by_delta option_chain put_delta put dte;
  call_cost ← _get_option_cost option_chain call_strike call dte;
  put_cost ← _get_option_cost option_chain put_strike put dte;
  let total_cost_per_contract := (call_cost + put_cost) * 100 in
  contracts ← calculate_position_size total_cost_per_contract;
  let total_cost := total_cost_per_contract * inject_Z contracts in
  let breakeven_up := call_strike + (call_cost + put_cost) in
  let breakeven_down := put_strike - (call_cost + put_cost) in
  mret [ ("strategy", VStr "LONG_STRANGLE");
         ("call_strike", VNum call_strike);
         ("put_strike", VNum put_strike);
         ("dte", VInt dte);
         ("contracts", VInt contracts);
         ("call_cost", VNum (call_cost * 100));
         ("put_cost", VNum (put_cost * 100));
         ("cost_per_contract", VNum total_cost_per_contract);
         ("total_cost", VNum total_cost);
         ("max_loss", VNum total_cost);
         ("max_profit", VStr "Unlimited");
         ("breakeven_up", VNum breakeven_up);
         ("breakeven_down", VNum breakeven_down);
         ("breakeven_range", VNum (breakeven_up - breakeven_down));
         ("strike_width", VNum (call_strike - put_strike));
         ("iv_rank", VNum iv_rank) ].

(** [_generate_iron_condor] *)
Definition _generate_iron_condor (option_chain : ref) (features : Features)
    (current_price : Q) : Py PyDict :=
  let iv_rank := features_get features "iv_rank" 50 in
  dte ← _select_optimal_dte option_chain "IRON_CONDOR" iv_rank "WEAK";
  let '(put_short_delta, put_long_delta, call_short_delta, call_long_delta) :=
    if iv_rank >? 70 then (-0.20, -0.10, 0.20, 0.10)
    else (-0.25, -0.15, 0.25, 0.15) in
  put_short_strike ← _find_strike_by_delta option_chain put_short_delta put dte;
  put_long_strike ← _find_strike_by_delta option_chain put_long_delta put dte;
  call_short_strike ← _find_strike_by_delta option_chain call_short_delta call dte;
  call_long_strike ← _find_strike_by_delta option_chain call_long_delta call dte;
  put_short_credit ← _get_option_bid option_chain put_short_strike put dte;
  put_long_cost ← _get_option_cost option_chain put_long_strike put dte;
  call_short_credit ← _get_option_bid option_chain call_short_strike call dte;
  call_long_cost ← _get_option_cost option_chain call_long_strike call dte;
  let net_credit :=
    (put_short_credit + call_short_credit - put_long_cost - call_long_cost) * 100 in
  let put_spread_width := (put_short_strike - put_long_strike) * 100 in
  let call_spread_width := (call_long_strike - call_short_strike) * 100 in
  let max_loss := py_max put_spread_width call_spread_width - net_credit in
  contracts ← calculate_position_size max_loss;
  let total_credit := net_credit * inject_Z contracts in
  let total_max_loss := max_loss * inject_Z contracts in
  risk_reward ← (if max_loss >? 0 then truediv net_credit max_loss else mret 0);
  mret [ ("strategy", VStr "IRON_CONDOR");
         ("put_short_strike", VNum put_short_strike);
         ("put_long_strike", VNum put_long_strike);
         ("call_short_strike", VNum call_short_strike);
         ("call_long_strike", VNum call_long_strike);
         ("dte", VInt dte);
         ("contracts", VInt contracts);
         ("net_credit", VNum net_credit);
         ("total_credit", VNum total_credit);
         ("max_profit", VNum net_credit);
         ("total_max_profit", VNum total_credit);
         ("max_loss", VNum max_loss);
         ("total_max_loss", VNum total_max_loss);
         ("breakeven_down", VNum (put_short_strike - (net_credit / 100)));
         ("breakeven_up", VNum (call_short_strike + (net_credit / 100)));
         ("profit_zone_width", VNum (call_short_strike - put_short_strike));
         ("risk_reward_ratio", VNum risk_reward);
         ("iv_rank", VNum iv_rank) ].

(** [_generate_iron_butterfly] *)
Definition _generate_iron_butterfly (option_chain : ref) (features : Features)
    (current_price : Q) : Py PyDict :=
  let iv_rank := features_get features "iv_rank" 50 in
  dte ← _select_optimal_dte option_chain "IRON_BUTTERFLY" iv_rank "WEAK";
  atm_strike ← _find_strike_by_delta option_chain 0.50 call dte;
  let wing_pct := if iv_rank >? 75 then 0.07 else 0.05 in
  long_put_strike ←
    _find_strike_by_price option_chain (atm_strike * (1 - wing_pct)) put dte;
  long_call_strike ←
    _find_strike_by_price option_chain (atm_strike * (1 + wing_pct)) call dte;
  atm_put_credit ← _get_option_bid option_chain atm_strike put dte;
  atm_call_credit ← _get_option_bid option_chain atm_strike call dte;
  long_put_cost ← _get_option_cost option_chain long_put_strike put dte;
  long_call_cost ← _get_option_cost option_chain long_call_strike call dte;
  let net_credit :=
    (atm_put_credit + atm_call_credit - long_put_cost - long_call_cost) * 100 in
  let wing_width :=
    py_max ((atm_strike - long_put_strike) * 100)
           ((long_call_strike - atm_strike) * 100) in
  let max_loss := wing_width - net_credit in
  contracts ← calculate_position_size max_loss;
  let total_credit := net_credit * inject_Z contracts in
  let total_max_loss := max_loss * inject_Z contracts in
  risk_reward ← (if max_loss >? 0 then truediv net_credit max_loss else mret 0);
  mret [ ("strategy", VStr "IRON_BUTTERFLY");
         ("center_strike", VNum atm_strike);
         ("long_put_strike", VNum long_put_strike);
         ("long_call_strike", VNum long_call_strike);
         ("dte", VInt dte);
         ("contracts", VInt contracts);
         ("net_credit", VNum net_credit);
         ("total_credit", VNum total_credit);
         ("max_profit", VNum net_credit);
         ("total_max_profit", VNum total_credit);
         ("max_loss", VNum max_loss);
         ("total_max_loss", VNum total_max_loss);
         ("breakeven_down", VNum (atm_strike - (net_credit / 100)));
         ("breakeven_up", VNum (atm_strike + (net_credit / 100)));
         ("profit_zone_width", VNum ((net_credit / 100) * 2));
         ("wing_width", VNum (wing_width / 100));
         ("risk_reward_ratio", VNum risk_reward);
         ("iv_rank", VNum iv_rank) ].

(** The expiration pair of the calendar and diagonal builders:
    [near_dte] is the available DTE nearest 21, [far_dte] the one
    nearest 45 among those beyond [near_dte + 14], or [near_dte + 30]
    when there is none. *)
Definition select_far_dte (available_dtes : list Z) (near_dte : Z) : Z :=
  py_min_default (fun x => Z.abs (x - 45))
    (List.filter (fun d => (d >? near_dte + 14)%Z) available_dtes)
    (near_dte + 30)%Z.

(** [_generate_calendar_spread] *)
Definition _generate_calendar_spread (option_chain : ref) (features : Features)
    (current_price : Q) : Py PyDict :=
  let iv_rank := features_get features "iv_rank" 50 in
  dtes ← unique_dte option_chain;
  let available_dtes := sorted dtes in
  near_dte ← py_min (fun x => Z.abs (x - 21)) available_dtes;
  let far_dte := select_far_dte available_dtes near_dte in
  atm_strike ← _find_strike_by_delta option_chain 0.50 call near_dte;
  let rsi := features_get features "rsi_14" 50 in
  let option_type := if rsi >? 50 then call else put in
  near_credit ← _get_option_bid option_chain atm_strike option_type near_dte;
  far_cost ← _get_option_cost option_chain atm_strike option_type far_dte;
  let net_debit := (far_cost - near_credit) * 100 in
  contracts ← calculate_position_size net_debit;
  let total_debit := net_debit * inject_Z contracts in
  mret [ ("strategy", VStr "CALENDAR_SPREAD");
         ("strike", VNum atm_strike);
         ("option_type", VStr (upper option_type));
         ("near_dte", VInt near_dte);
         ("far_dte", VInt far_dte);
         ("contracts", VInt contracts);
         ("net_debit", VNum net_debit);
         ("total_debit", VNum total_debit);
         ("max_loss", VNum net_debit);
         ("total_max_loss", VNum total_debit);
         ("max_profit", VStr "Variable (depends on IV expansion)");
         ("note", VStr "Profit maximized if price stays near strike at near expiration");
         ("iv_rank", VNum iv_rank) ].

(** [_generate_diagonal_spread] *)
Definition _generate_diagonal_spread (option_chain : ref) (features : Features)
    (current_price : Q) : Py PyDict :=
  let iv_rank := features_get features "iv_rank" 50 in
  let rsi := features_get features "rsi_14" 50 in
  dtes ← unique_dte option_chain;
  let available_dtes := sorted dtes in
  near_dte ← py_min (fun x => Z.abs (x - 21)) available_dtes;
  let far_dte := select_far_dte available_dtes near_dte in
  let '(option_type, long_delta, short_delta) :=
    if rsi >? 55 then (call, 0.50, 0.30) else (put, -0.50, -0.30) in
  long_strike ← _find_strike_by_delta option_chain long_delta option_type far_dte;
  short_strike ← _find_strike_by_delta option_chain short_delta option_type near_dte;
  long_cost ← _get_option_cost option_chain long_strike option_type far_dte;
  short_credit ← _get_option_bid option_chain short_strike option_type near_dte;
  let net_debit := (long_cost - short_credit) * 100 in
  contracts ← calculate_position_size net_debit;
  let total_debit := net_debit * inject_Z contracts in
  mret [ ("strategy", VStr "DIAGONAL_SPREAD");
         ("option_type", VStr (upper option_type));
         ("long_strike", VNum long_strike);
         ("short_strike", VNum short_strike);
         ("near_dte", VInt near_dte);
         ("far_dte", VInt far_dte);
         ("contracts", VInt contracts);
         ("net_debit", VNum net_debit);
         ("total_debit", VNum total_debit);
         ("max_loss", VNum net_debit);
         ("total_max_loss", VNum total_debit);
         ("max_profit", VStr "Variable (depends on price movement and IV)");
         ("bias", VStr (if bool_decide (option_type = call) then "Bullish" else "Bearish"));
         ("note", VStr "Roll short option at expiration to continue position");
         ("iv_rank", VNum iv_rank) ].

(** The routing table of [generate]. *)
Definition generators
  : list (string * (ref -> Features -> Q -> Py PyDict)) :=
  [ ("LONG_CALL", _generate_long_call);
    ("LONG_PUT", _generate_long_put);
    ("BULL_CALL_SPREAD", _generate_bull_call_spread);
    ("BEAR_PUT_SPREAD", _generate_bear_put_spread);
    ("LONG_STRADDLE", _generate_long_straddle);
    ("LONG_STRANGLE", _generate_long_strangle);
    ("IRON_CONDOR", _generate_iron_condor);
    ("IRON_BUTTERFLY", _generate_iron_butterfly);
    ("CALENDAR_SPREAD", _generate_calendar_spread);
    ("DIAGONAL_SPREAD", _generate_diagonal_spread) ].

Fixpoint route {G : Type} (table : list (string * G)) (strategy : string) : option G :=
  match table with
  | [] => None
  | (name, g) :: table' => if String.eqb strategy name then Some g else route table' strategy
  end.

(** [generate] *)
Definition generate (strategy : string) (option_chain : ref)
    (features : Features) (current_price : Q) : Py PyDict :=
  match route generators strategy with
  | None => raise (ValueError (UnknownStrategy strategy))
  | Some g => g option_chain features current_price
  end.

End ParameterGenerator.

(* ================================================================== *)
(** ** What the selectors compute, as functions of the chain's rows *)
(* ================================================================== *)

Module Reading.

Import Builtins ParameterGenerator.
Local Open Scope Q_scope.

(** Rows of the requested type and DTE, in chain order. *)
Definition matching (chain : DataFrame) (option_type : OptionType) (dte : Z)
  : DataFrame :=
  List.filter (fun row => type_is option_type row && dte_is dte row) chain.

(** Rows of the requested type, any DTE. *)
Definition of_type (chain : DataFrame) (option_type : OptionType) : DataFrame :=
  List.filter (type_is option_type) chain.

(** The rows a selector chooses among. *)
Definition candidates (chain : DataFrame) (option_type : OptionType) (dte : Z)
  : DataFrame :=
  if (length (matching chain option_type dte) =? 0)%nat
  then of_type chain option_type
  else matching chain option_type dte.

(** The strike of the first row with the least [key]. *)
Definition nearest (key : Row -> Q) (option_type : OptionType)
    (rows : DataFrame) : Result Q :=
  match rows with
  | [] => Raise (ValueError (NoOptionsAvailable option_type))
  | row :: rest => Ok (Col.strike (first_min Num.ltb key row rest))
  end.

Definition strike_by_delta (chain : DataFrame) (target_delta : Q)
    (option_type : OptionType) (dte : Z) : Result Q :=
  nearest (delta_diff target_delta) option_type (candidates chain option_type dte).

Definition strike_by_price (chain : DataFrame) (target_price : Q)
    (option_type : OptionType) (dte : Z) : Result Q :=
  nearest (price_diff target_price) option_type (candidates chain option_type dte).

(** The [col] entry of the first row with this strike, type and DTE. *)
Definition quote (col : Row -> Q) (chain : DataFrame) (strike : Q)
    (option_type : OptionType) (dte : Z) : Result Q :=
  match List.filter (fun row => strike_is strike row && type_is option_type row
                                && dte_is dte row) chain with
  | [] => Raise (ValueError (OptionNotFound option_type strike dte))
  | row :: _ => Ok (col row)
  end.

Definition available_dtes (chain : DataFrame) : list Z :=
  sorted (unique (map Col.dte chain)).

(** The available DTE nearest to [target]. *)
Definition nearest_dte (chain : DataFrame) (target : Z) : Result Z :=
  match available_dtes chain with
  | [] => Raise (ValueError MinEmptySequence)
  | x :: l => Ok (first_min Z.ltb (fun x => Z.abs (x - target)) x l)
  end.

(** [s'] is [s] with further frames allocated and nothing else changed. *)
Definition extends (s s' : Store) : Prop :=
  risk_manager s' = risk_manager s /\
  exists fresh, frames s' = (frames s ++ fresh)%list.

(** [v] is a Python number with value [q]. *)
Definition is_number (v : PyVal) (q : Q) : Prop :=
  v = VNum q \/ exists z, v = VInt z /\ q = inject_Z z.

(** The snapshot holds the value [v] under [key]. *)
Definition has_feature (features : Features) (key : string) (v : Q) : Prop :=
  exists q, features !! key = Some q /\ q == v.

(** Reading a number out of a result dictionary. *)
Definition field (d : PyDict) (k : string) : option Q :=
  match dict_get d k with
  | Some (VNum q) => Some q
  | _ => None
  end.

End Reading.

(* ================================================================== *)
(** ** Sample data *)
(* ================================================================== *)

Module Examples.

Local Open Scope string_scope.
Local Open Scope Q_scope.

Definition contract (strike : Q) (type : OptionType) (dte : Z) (bid ask delta : Q)
  : Row := Col.mkRow strike type dte bid ask delta ∅.

(** A chain with a single expiration, 21 days out. *)
Definition chain : DataFrame :=
  [ contract 100 call 21 5.8 6 0.6;
    contract 110 call 21 2 2.2 0.25;
    contract 100 put 21 1 1.2 (-0.4) ].

(** [ParameterGenerator()] with the chain as the only frame alive. *)
Definition store : Store := ParameterGenerator.init None [chain].

Definition option_chain : ref := 0%nat.

(** A snapshot with none of the rule engine's keys. *)
Definition no_features : Features := ∅.

(** Scenario 1 of the rule engine. *)
Definition ranging_high_iv : Features :=
  {[ "iv_rank" := 60; "adx_14" := 15; "rsi_14" := 50 ]}.

(** Scenario 2 of the rule engine. *)
Definition trending_low_iv : Features :=
  {[ "iv_rank" := 30; "adx_14" := 25; "trend_regime" := 4; "rsi_14" := 60 ]}.

End Examples.

(* ================================================================== *)
(** ** Outcomes of a run against a chain *)
(* ================================================================== *)

Module Outcome.

Import Reading.

(** The quotient of [calculate_position_size] is beyond the float range:
    the call raises [OverflowError]. *)
Definition sizing_overflows (rm : RiskManager) (max_loss_per_contract : Q) : bool :=
  (0 <? max_loss_per_contract)%py
  && Num.overflows (max_risk_amount rm / max_loss_per_contract).

(** What [calculate_position_size] returns when it returns, as a
    function of the risk manager. *)
Definition position_size (rm : RiskManager) (max_loss_per_contract : Q) : Z :=
  if (max_loss_per_contract <=? 0)%py then 1%Z
  else Z.max 1 (Z.min (Num.py_int (max_risk_amount rm / max_loss_per_contract))
                      (max_contracts rm)).

(** The [ValueError]s raised when the chain lacks what is asked of it. *)
Definition lookup_failure (msg : ValueMsg) : Prop :=
  match msg with
  | NoOptionsAvailable _ | OptionNotFound _ _ _ | MinEmptySequence => True
  | UnknownStrategy _ => False
  end.

(** The [OverflowError] of a position sizing: some positive loss per
    contract is so small that the quotient overflows. *)
Definition sizing_failure (rm : RiskManager) : Prop :=
  exists max_loss_per_contract, sizing_overflows rm max_loss_per_contract = true.

(** On every store that holds [chain] at [r] and whose risk manager is
    [rm], the computation either returns a value satisfying [post],
    raises one of these [ValueError]s, or raises the [OverflowError] of
    a position sizing; it only allocates frames. *)
Definition runs {A : Type} (rm : RiskManager) (chain : DataFrame) (r : ref)
    (m : Py A) (post : A -> Prop) : Prop :=
  forall s,
    risk_manager s = rm ->
    frames s !! r = Some chain ->
    exists res s',
      m s = (res, s') /\ extends s s' /\
      match res with
      | Ok a => post a
      | Raise (ValueError msg) => lookup_failure msg
      | Raise OverflowError => sizing_failure rm
      | Raise _ => False
      end.

(** What every trade dictionary of the generator carries. *)
Definition well_formed_trade (rm : RiskManager) (strategy : string) (d : PyDict) : Prop :=
  dict_get d "strategy" = Some (VStr strategy)
  /\ (exists n, dict_get d "contracts" = Some (VInt n)
                /\ (1 <= n <= max_contracts rm)%Z)
  /\ (exists max_loss, dict_get d "max_loss" = Some (VNum max_loss))
  /\ is_Some (dict_get d "max_profit").

End Outcome.

(** *** Further sample data *)

Module TwoExpirations.

Local Open Scope string_scope.
Local Open Scope Q_scope.

(** A chain with two expirations, 21 and 49 days out. *)
Definition chain : DataFrame :=
  [ Examples.contract 100 call 21 5.8 6 0.6;
    Examples.contract 100 call 49 7 7.5 0.55;
    Examples.contract 100 put 21 1 1.2 (-0.4);
    Examples.contract 100 put 49 2 2.4 (-0.45) ].

Definition store : Store := ParameterGenerator.init None [chain].

End TwoExpirations.

(* ================================================================== *)
(** ** The recommendation agent ([agents/recommendation_agent.py]) *)
(* ================================================================== *)

Module RecommendationAgent.

Import RiskManagerM.
Local Open Scope string_scope.
Local Open Scope Q_scope.

(** [str.lower()] on ASCII text: the letters [A]-[Z] are mapped to
    [a]-[z], every other character is kept. *)
Definition lower_ascii (c : Ascii.ascii) : Ascii.ascii :=
  let n := Ascii.nat_of_ascii c in
  if ((65 <=? n) && (n <=? 90))%nat then Ascii.ascii_of_nat (n + 32) else c.

Fixpoint lower (s : string) : string :=
  match s with
  | EmptyString => EmptyString
  | String c s' => String (lower_ascii c) (lower s')
  end.

(** [sub in s] on strings. *)
Fixpoint contains (sub s : string) : bool :=
  String.prefix sub s
  || match s with
     | EmptyString => false
     | String _ s' => contains sub s'
     end.

(** [abs(x)]; a string has no absolute value. *)
Definition py_abs (v : PyVal) : Py Q :=
  q ← as_number v;
  mret (Qabs q).

(** [d.get(k, dflt)] *)
Definition get_or (d : PyDict) (k : string) (dflt : PyVal) : PyVal :=
  match dict_get d k with
  | Some v => v
  | None => dflt
  end.

(** The block "Add risk validation" of [generate_parameters].  The
    result is [parameters] together with the dictionary stored under
    ['risk_validation'], if one is stored. *)
Definition add_risk_validation (parameters : PyDict)
  : Py (PyDict * option Validation) :=
  if bool_decide (is_Some (dict_get parameters "max_loss"))
     && bool_decide (is_Some (dict_get parameters "max_profit"))
  then
    let max_loss :=
      get_or parameters "total_max_loss" (get_or parameters "max_loss" (VInt 0)) in
    let max_profit :=
      get_or parameters "total_max_profit" (get_or parameters "max_profit" (VInt 0)) in
    (* Handle unlimited profit strategies *)
    max_profit ←
      match max_profit with
      | VStr text =>
          if contains "unlimited" (lower text)
          then (a ← py_abs max_loss; mret (VNum (a * 3)))
          else mret max_profit
      | _ => mret max_profit
      end;
    a ← py_abs max_loss;
    validation ← validate_trade a max_profit;
    mret (parameters, Some validation)
  else mret (parameters, None).

(** [RecommendationAgent.generate_parameters], from the option chain
    frame built out of [market_data] on: the agent's risk manager is
    the one its parameter generator holds. *)
Definition generate_parameters (strategy : string) (option_chain : ref)
    (features : Features) (current_price : Q)
  : Py (PyDict * option Validation) :=
  parameters ← ParameterGenerator.generate strategy option_chain features current_price;
  add_risk_validation parameters.

End RecommendationAgent.

(* ================================================================== *)
(** ** Checking a label distribution ([validate_strategy_distribution]) *)
(* ================================================================== *)

Module StrategyDistribution.

Local Open Scope string_scope.
Local Open Scope Q_scope.
Local Open Scope py_scope.

(** The ['strategy'] column of the training data, every row labelled
    ([value_counts] leaves rows without a label out). *)
Definition Column := list string.

(** The number of rows with a label. *)
Definition count_of (label : string) (column : Column) : nat :=
  length (List.filter (String.eqb label) column).

(** The index of [value_counts()]: the labels that occur. *)
Definition index (column : Column) : gset string := list_to_set column.

(** [column.value_counts(normalize=True) * 100], read with
    [.get(label, 0)]: the share of the rows with the label, in percent,
    and 0 for a label that does not occur. *)
Definition strategy_pct (column : Column) (label : string) : Q :=
  if bool_decide (label ∈ index column)
  then inject_Z (Z.of_nat (count_of label column))
       / inject_Z (Z.of_nat (length column)) * 100
  else 0.

Definition expected_ranges : list (string * (Z * Z)) :=
  [ ("IRON_CONDOR", (20, 30)%Z);
    ("LONG_CALL", (15, 20)%Z);
    ("LONG_PUT", (15, 20)%Z);
    ("IRON_BUTTERFLY", (10, 15)%Z);
    ("BULL_CALL_SPREAD", (10, 15)%Z);
    ("BEAR_PUT_SPREAD", (10, 15)%Z);
    ("LONG_STRADDLE", (5, 10)%Z);
    ("LONG_STRANGLE", (5, 10)%Z);
    ("CALENDAR_SPREAD", (3, 5)%Z);
    ("DIAGONAL_SPREAD", (3, 5)%Z) ].

(** An entry of [failures].  The source renders the numbers into the
    texts ['expected'] and ['actual']; the entry keeps the numbers.  The
    list ['missing'] is built from a set difference, its order is not
    determined: the entry keeps the set. *)
Inductive Failure :=
  | OutOfRange (strategy : string) (min_pct max_pct : Z) (actual_pct : Q)
  | MissingStrategies (present : nat) (missing : gset string).

(** The body of the loop over [expected_ranges.items()]. *)
Definition check_range (column : Column) (entry : string * (Z * Z)) : list Failure :=
  let '(strategy, (min_pct, max_pct)) := entry in
  let actual_pct := strategy_pct column strategy in
  if (actual_pct <? inject_Z min_pct) || (actual_pct >? inject_Z max_pct)
  then [OutOfRange strategy min_pct max_pct actual_pct]
  else [].

(** [validate_strategy_distribution] *)
Definition validate_strategy_distribution (column : Column) : bool * list Failure :=
  let failures := flat_map (check_range column) expected_ranges in
  (* Check all 10 strategies present *)
  let failures :=
    if (size (index column) <? 10)%nat
    then (failures
          ++ [MissingStrategies (size (index column))
                ((list_to_set (map fst expected_ranges) : gset string)
                 ∖ index column)])%list
    else failures in
  ((length failures =? 0)%nat, failures).

(** A column of 100 rows with every share within its range. *)
Definition balanced : Column :=
  (replicate 24 "IRON_CONDOR" ++ replicate 15 "LONG_CALL"
   ++ replicate 15 "LONG_PUT" ++ replicate 10 "IRON_BUTTERFLY"
   ++ replicate 10 "BULL_CALL_SPREAD" ++ replicate 10 "BEAR_PUT_SPREAD"
   ++ replicate 5 "LONG_STRADDLE" ++ replicate 5 "LONG_STRANGLE"
   ++ replicate 3 "CALENDAR_SPREAD" ++ replicate 3 "DIAGONAL_SPREAD")%list.

End StrategyDistribution.

(* ================================================================== *)
(** ** Candidate parameters for labelling ([3_create_labels.py]) *)
(* ================================================================== *)

Module CreateLabels.

Local Open Scope string_scope.
Local Open Scope Q_scope.
Local Open Scope py_scope.

(** [round(x)] on a float: the nearest integer, a tie goes to the even
    one. *)
Definition py_round (x : Q) : Z :=
  let f := Qfloor x in
  let d := x - inject_Z f in
  if d <? 1 / 2 then f
  else if 1 / 2 <? d then (f + 1)%Z
  else if Z.even f then f else (f + 1)%Z.

(** [round(x / 2.5) * 2.5]: the nearest strike on the 2.5 grid. *)
Definition to_grid (x : Q) : Q := inject_Z (py_round (x / 2.5)) * 2.5.

(** The dictionaries of the candidate lists, one record per shape. *)
Module IronCondor.
Record Params := mk {
  short_put : Q; long_put : Q; short_call : Q; long_call : Q; dte : Z }.
End IronCondor.

Module Spread.
Record Params := mk { long_strike : Q; short_strike : Q; dte : Z }.
End Spread.

Module Single.
Record Params := mk { strike : Q; dte : Z }.
End Single.

Module IronButterfly.
Record Params := mk {
  center_strike : Q; long_put : Q; short_put : Q; short_call : Q; long_call : Q;
  dte : Z }.
End IronButterfly.

Module Strangle.
Record Params := mk { put_strike : Q; call_strike : Q; dte : Z }.
End Strangle.

Module Calendar.
Record Params := mk { strike : Q; near_dte : Z; far_dte : Z }.
End Calendar.

Module Diagonal.
Record Params := mk {
  long_strike : Q; short_strike : Q; near_dte : Z; far_dte : Z }.
End Diagonal.

(** [for x in xs: ...] appending to [combinations]. *)
Definition for_each {A B : Type} (xs : list A) (body : A -> list B) : list B :=
  flat_map body xs.

(** [generate_iron_condor_params] *)
Definition generate_iron_condor_params (current_price : Q)
  : list IronCondor.Params :=
  take 20
    (for_each [14; 21; 30]%Z (fun dte =>
     for_each [0.05; 0.07; 0.10] (fun put_distance =>
     for_each [0.05; 0.07; 0.10] (fun call_distance =>
     for_each [0.02; 0.03] (fun wing_width_pct =>
       let short_put := to_grid (current_price * (1 - put_distance)) in
       let long_put :=
         to_grid (current_price * (1 - put_distance - wing_width_pct)) in
       let short_call := to_grid (current_price * (1 + call_distance)) in
       let long_call :=
         to_grid (current_price * (1 + call_distance + wing_width_pct)) in
       if (long_put <? short_put) && (short_call <? long_call)
       then [IronCondor.mk short_put long_put short_call long_call dte]
       else []))))).

(** [generate_spread_params] *)
Definition generate_spread_params (current_price : Q) (spread_type : string)
  : list Spread.Params :=
  take 15
    (for_each [14; 21; 30]%Z (fun dte =>
     for_each [0.02; 0.03; 0.05] (fun width_pct =>
     for_each [0.98; 1.00; 1.02] (fun moneyness =>
       let long_strike := to_grid (current_price * moneyness) in
       let short_strike :=
         if String.eqb spread_type "BULL_CALL_SPREAD"
         then to_grid (current_price * moneyness * (1 + width_pct))
         else to_grid (current_price * moneyness * (1 - width_pct)) in
       if long_strike !=? short_strike
       then [Spread.mk long_strike short_strike dte]
       else [])))).

(** [generate_long_option_params] *)
Definition generate_long_option_params (current_price : Q) (option_type : string)
  : list Single.Params :=
  take 10
    (for_each [7; 14; 21]%Z (fun dte =>
     for_each [0.95; 0.98; 1.00; 1.02; 1.05] (fun moneyness =>
       let strike :=
         if String.eqb option_type "LONG_CALL"
         then to_grid (current_price * moneyness)
         else to_grid (current_price * (2 - moneyness)) in
       [Single.mk strike dte]))).

(** [generate_iron_butterfly_params] *)
Definition generate_iron_butterfly_params (current_price : Q)
  : list IronButterfly.Params :=
  take 15
    (for_each [21; 30; 45]%Z (fun dte =>
     for_each [0.03; 0.05; 0.07] (fun wing_width_pct =>
       let center_strike := to_grid current_price in
       let wing_width := to_grid (current_price * wing_width_pct) in
       [IronButterfly.mk center_strike (center_strike - wing_width) center_strike
          center_strike (center_strike + wing_width) dte]))).

(** [generate_straddle_params] *)
Definition generate_straddle_params (current_price : Q) : list Single.Params :=
  take 10
    (for_each [7; 14; 21; 30]%Z (fun dte =>
     for_each [0.98; 1.00; 1.02] (fun moneyness =>
       [Single.mk (to_grid (current_price * moneyness)) dte]))).

(** [generate_strangle_params] *)
Definition generate_strangle_params (current_price : Q) : list Strangle.Params :=
  take 15
    (for_each [14; 21; 30]%Z (fun dte =>
     for_each [0.03; 0.05; 0.07] (fun put_distance =>
     for_each [0.03; 0.05; 0.07] (fun call_distance =>
       [Strangle.mk (to_grid (current_price * (1 - put_distance)))
          (to_grid (current_price * (1 + call_distance))) dte])))).

(** [generate_calendar_spread_params] *)
Definition generate_calendar_spread_params (current_price : Q)
  : list Calendar.Params :=
  take 12
    (for_each [14; 21]%Z (fun near_dte =>
     for_each [35; 45; 60]%Z (fun far_dte =>
     for_each [0.98; 1.00; 1.02] (fun moneyness =>
       let strike := to_grid (current_price * moneyness) in
       if (far_dte >? near_dte)%Z
       then [Calendar.mk strike near_dte far_dte]
       else [])))).

(** [generate_diagonal_spread_params] *)
Definition generate_diagonal_spread_params (current_price : Q)
  : list Diagonal.Params :=
  take 15
    (for_each [14; 21]%Z (fun near_dte =>
     for_each [35; 45]%Z (fun far_dte =>
     for_each [0.98; 1.00; 1.02] (fun long_moneyness =>
     for_each [1.02; 1.05] (fun short_moneyness =>
       let long_strike := to_grid (current_price * long_moneyness) in
       let short_strike := to_grid (current_price * short_moneyness) in
       if (far_dte >? near_dte)%Z && (short_strike >? long_strike)
       then [Diagonal.mk long_strike short_strike near_dte far_dte]
       else []))))).

End CreateLabels.

(* ================================================================== *)
(** * Proofs *)
(* ================================================================== *)

(** ** Comparisons on numbers *)

Module NumFacts.

Lemma ltb_true x y : Num.ltb x y = true <-> x < y.
Proof.
  unfold Num.ltb. rewrite negb_true_iff, <- not_true_iff_false, Qle_bool_iff.
  split; [apply Qnot_le_lt | apply Qlt_not_le].
Qed.

Lemma ltb_false x y : Num.ltb x y = false <-> y <= x.
Proof. unfold Num.ltb. rewrite negb_false_iff. apply Qle_bool_iff. Qed.

Lemma leb_true x y : Num.leb x y = true <-> x <= y.
Proof. apply Qle_bool_iff. Qed.

Lemma leb_false x y : Num.leb x y = false <-> y < x.
Proof.
  unfold Num.leb. rewrite <- not_true_iff_false, Qle_bool_iff.
  split; [apply Qnot_le_lt | apply Qlt_not_le].
Qed.

Lemma eqb_true x y : Num.eqb x y = true <-> x == y.
Proof. apply Qeq_bool_iff. Qed.

Lemma eqb_false x y : Num.eqb x y = false <-> ~ x == y.
Proof. unfold Num.eqb. rewrite <- not_true_iff_false, Qeq_bool_iff. tauto. Qed.

Lemma neb_true x y : Num.neb x y = true <-> ~ x == y.
Proof. unfold Num.neb. rewrite negb_true_iff. apply eqb_false. Qed.

Lemma neb_false x y : Num.neb x y = false <-> x == y.
Proof. unfold Num.neb. rewrite negb_false_iff. apply eqb_true. Qed.

Lemma Qabs_zero_iff x : Qabs x <= 0 <-> x == 0.
Proof.
  split; intros H.
  - apply Qabs_Qle_condition in H. lra.
  - rewrite H. discriminate.
Qed.


Lemma py_int_nonneg x : 0 <= x -> Num.py_int x = Qfloor x.
Proof.
  intros H. unfold Num.py_int.
  apply Qle_bool_iff in H. now rewrite H.
Qed.

End NumFacts.

(** Turn every boolean comparison in the context and the goal into the
    proposition it decides. *)
Ltac reflect_cmp :=
  repeat match goal with
    | H : Num.ltb _ _ = true |- _ => apply NumFacts.ltb_true in H
    | H : Num.ltb _ _ = false |- _ => apply NumFacts.ltb_false in H
    | H : Num.leb _ _ = true |- _ => apply NumFacts.leb_true in H
    | H : Num.leb _ _ = false |- _ => apply NumFacts.leb_false in H
    | H : Num.eqb _ _ = true |- _ => apply NumFacts.eqb_true in H
    | H : Num.eqb _ _ = false |- _ => apply NumFacts.eqb_false in H
    | H : Num.neb _ _ = true |- _ => apply NumFacts.neb_true in H
    | H : Num.neb _ _ = false |- _ => apply NumFacts.neb_false in H
    end.

(** Decide one comparison of the goal and keep the branches that are
    consistent with the linear facts at hand. *)
Ltac split_cmp :=
  match goal with
  | |- context [Num.ltb ?a ?b] =>
      let E := fresh "E" in destruct (Num.ltb a b) eqn:E
  | |- context [Num.leb ?a ?b] =>
      let E := fresh "E" in destruct (Num.leb a b) eqn:E
  | |- context [Num.eqb ?a ?b] =>
      let E := fresh "E" in destruct (Num.eqb a b) eqn:E
  | |- context [Num.neb ?a ?b] =>
      let E := fresh "E" in destruct (Num.neb a b) eqn:E
  end; reflect_cmp; try (exfalso; lra); cbn [andb orb negb].

(** ** RiskManager *)

Module RiskManagerFacts.

Import RiskManagerM Reading.

Lemma run_bind {A B} (m : Py A) (k : A -> Py B) s :
  (m ≫= k) s = match m s with
                | (Ok a, s') => k a s'
                | (Raise e, s') => (Raise e, s')
                end.
Proof. reflexivity. Qed.

Lemma truediv_ok a b s : ~ b == 0 -> truediv a b s = (Ok (a / b), s).
Proof.
  intros H. unfold truediv. apply NumFacts.eqb_false in H. now rewrite H.
Qed.

Lemma overflows_true x : Num.overflows x = true <-> Num.float_overflow <= Qabs x.
Proof. unfold Num.overflows. apply Qle_bool_iff. Qed.

Lemma overflows_false x : Num.overflows x = false <-> Qabs x < Num.float_overflow.
Proof.
  rewrite <- not_true_iff_false, overflows_true. split; [apply Qnot_le_lt | apply Qlt_not_le].
Qed.



(** The two outcomes of [calculate_position_size]. *)
Lemma run_position_size s max_loss_per_contract :
  calculate_position_size max_loss_per_contract s
  = (if Outcome.sizing_overflows (risk_manager s) max_loss_per_contract
     then Raise OverflowError
     else Ok (Outcome.position_size (risk_manager s) max_loss_per_contract), s).
Proof.
  unfold calculate_position_size, Outcome.sizing_overflows, Outcome.position_size.
  rewrite run_bind. cbn [get_store].
  destruct (Num.leb max_loss_per_contract 0) eqn:E; reflect_cmp.
  - apply NumFacts.ltb_false in E. now rewrite E.
  - rewrite run_bind, truediv_ok by lra. cbv beta iota.
    apply NumFacts.ltb_true in E. rewrite E. cbn [andb].
    rewrite run_bind. unfold int_of_float.
    now destruct (Num.overflows _).
Qed.




(** C2.  With a positive account size, [validate_trade] on two numbers
    returns, leaving the store as it was: the risk/reward ratio
    [max_profit / |max_loss|] (0 when [max_loss] is 0, nothing is
    divided by zero), the risk percentage [|max_loss| / account_size],
    and [approved] exactly when the percentage is within
    [risk_per_trade] and the ratio exceeds 0.5.  On
    [RiskManager(10000, 0.02)], [validate_trade(-300, 100)] gives ratio
    1/3 and is not approved. *)
Theorem validate_trade_gate :
  (forall (rm : RiskManager) (fs : list DataFrame) (max_loss : Q)
          (profit : PyVal) (max_profit : Q),
      0 < account_size rm ->
      is_number profit max_profit ->
      let s := mkStore rm fs in
      exists v : Validation,
        validate_trade max_loss profit s = (Ok v, s)
        /\ (max_loss == 0 -> risk_reward_ratio v = 0)
        /\ (~ max_loss == 0 -> risk_reward_ratio v = max_profit / Qabs max_loss)
        /\ risk_percentage v = Qabs max_loss / account_size rm
        /\ (approved v = true <->
            risk_percentage v <= risk_per_trade rm /\ 0.5 < risk_reward_ratio v))
  /\ (forall (max_contracts : Z) (fs : list DataFrame),
        let s := mkStore (init 10000 0.02 max_contracts) fs in
        exists v : Validation,
          validate_trade (-300) (VNum 100) s = (Ok v, s)
          /\ risk_reward_ratio v == 1 # 3
          /\ approved v = false).
Proof.
  split.
  - intros rm fs max_loss profit max_profit Ha Hnum s.
    assert (as_number profit = mret max_profit) as Hp
      by (destruct Hnum as [-> | (z & -> & ->)]; reflexivity).
    unfold validate_trade. rewrite Hp. rewrite run_bind. cbn [get_store].
    rewrite run_bind.
    destruct (Num.neb max_loss 0) eqn:E; reflect_cmp.
    + rewrite run_bind. cbn [mret Py_ret].
      rewrite truediv_ok.
      2:{ intros H0. apply E. apply NumFacts.Qabs_zero_iff. rewrite H0. discriminate. }
      rewrite run_bind, truediv_ok by (cbn; lra).
      eexists; split; [reflexivity|]. cbn.
      split; [tauto|]. split; [tauto|]. split; [reflexivity|].
      rewrite andb_true_iff, NumFacts.leb_true, NumFacts.ltb_true. tauto.
    + cbn [mret Py_ret].
      rewrite run_bind, truediv_ok by (cbn; lra).
      eexists; split; [reflexivity|]. cbn.
      split; [reflexivity|]. split; [tauto|]. split; [reflexivity|].
      rewrite andb_true_iff, NumFacts.leb_true, NumFacts.ltb_true. tauto.
  - intros max_contracts fs s. eexists. split; [reflexivity|].
    split; reflexivity.
Qed.

Lemma validate_trade_gate_witness :
  0 < account_size default /\ is_number (VNum 450) 450 /\
  exists v : Validation,
    validate_trade (-150) (VNum 450) (mkStore default []) = (Ok v, mkStore default [])
    /\ (-150 == 0 -> risk_reward_ratio v = 0)
    /\ (~ -150 == 0 -> risk_reward_ratio v = 450 / Qabs (-150))
    /\ risk_percentage v = Qabs (-150) / account_size default
    /\ (approved v = true <->
        risk_percentage v <= risk_per_trade default /\ 0.5 < risk_reward_ratio v).
Proof.
  assert (0 < account_size default) as H by reflexivity.
  assert (is_number (VNum 450) 450) as Hn by (left; reflexivity).
  split; [exact H|]. split; [exact Hn|].
  exact (proj1 validate_trade_gate default [] (-150) (VNum 450) 450 H Hn).
Defined.

(** C9.  A trade with zero maximum loss is never approved, by any
    [RiskManager] and whatever [max_profit] is (a number or a string
    such as ['Unlimited']): the ratio is set to 0, which is not above
    0.5, although the risk percentage is 0 and within any non-negative
    budget.  The call returns this verdict as soon as the account size
    is nonzero (the constructor's contract makes it positive), which
    the risk percentage needs. *)
Theorem validate_trade_zero_loss_rejected
    (rm : RiskManager) (fs : list DataFrame) (max_loss : Q) (max_profit : PyVal) :
  max_loss == 0 ->
  let s := mkStore rm fs in
  (forall v s', validate_trade max_loss max_profit s = (Ok v, s') ->
                approved v = false)
  /\ (~ account_size rm == 0 ->
      exists v : Validation,
        validate_trade max_loss max_profit s = (Ok v, s)
        /\ approved v = false
        /\ risk_reward_ratio v = 0
        /\ ~ 0.5 < risk_reward_ratio v
        /\ risk_percentage v == 0
        /\ (0 <= risk_per_trade rm -> risk_percentage v <= risk_per_trade rm)).
Proof.
  intros H0 s.
  assert (validate_trade max_loss max_profit s
          = (r ← truediv (Qabs max_loss) (account_size rm);
             mret {| approved := (r <=? risk_per_trade rm)%py && (0 >? 0.5)%py;
                     risk_reward_ratio := 0;
                     risk_percentage := r;
                     v_max_risk_amount := max_risk_amount rm;
                     warnings := [] |}) s) as Hrun.
  { unfold validate_trade. rewrite run_bind. cbn [get_store].
    rewrite run_bind.
    apply NumFacts.neb_false in H0 as E. rewrite E. reflexivity. }
  rewrite Hrun, run_bind. split.
  - intros v s'. destruct (truediv _ _ s) as [[r|e] s1]; [|discriminate].
    intros [= <- _]. cbn. apply andb_false_r.
  - intros Ha. rewrite truediv_ok by exact Ha.
    eexists; split; [reflexivity|]. cbn.
    assert (Qabs max_loss / account_size rm == 0) as Hz.
    { rewrite H0. reflexivity. }
    split; [apply andb_false_r|]. split; [reflexivity|].
    split; [discriminate|]. split; [exact Hz|].
    intros Hr. rewrite Hz. exact Hr.
Qed.

Lemma validate_trade_zero_loss_rejected_witness :
  0 == 0 /\ ~ account_size default == 0 /\
  exists v : Validation,
    validate_trade 0 (VStr "Unlimited") (mkStore default []) = (Ok v, mkStore default [])
    /\ approved v = false
    /\ risk_reward_ratio v = 0
    /\ ~ 0.5 < risk_reward_ratio v
    /\ risk_percentage v == 0
    /\ (0 <= risk_per_trade default -> risk_percentage v <= risk_per_trade default).
Proof.
  assert (0 == 0) as H1 by reflexivity.
  assert (~ account_size default == 0) as H2 by discriminate.
  split; [exact H1|]. split; [exact H2|].
  exact (proj2 (validate_trade_zero_loss_rejected default [] 0 (VStr "Unlimited") H1) H2).
Defined.

(** Scenario 3: a $200 risk budget buys one contract losing $150. *)
Example position_size_scenario :
  calculate_position_size 150 (mkStore (init 10000 0.02 10) [])
  = (Ok 1%Z, mkStore (init 10000 0.02 10) []).
Proof. reflexivity. Qed.

End RiskManagerFacts.

Module StrategySelectorFacts.

Import StrategySelector.
Local Open Scope string_scope.

Import Reading.

Lemma features_get_has f k d v :
  has_feature f k v -> features_get f k d == v.
Proof. intros (q & Hq & Hv). unfold features_get. now rewrite Hq. Qed.

(** The engine is the first-match fold of its rule table. *)
Lemma select_as_fold f :
  select_strategy_from_features f =
  foldr or_else
    (fallback (features_get f "iv_rank" 50) (features_get f "adx_14" 20)
              (features_get f "rsi_14" 50))
    (rule_table f).
Proof. reflexivity. Qed.

Lemma fold_first_match (rs : list (option string)) (fb : string) k label :
  rs !! k = Some (Some label) ->
  (forall j, (j < k)%nat -> rs !! j = Some None) ->
  foldr or_else fb rs = label.
Proof.
  revert k. induction rs as [|r rs IH]; intros k Hk Hbefore.
  - discriminate.
  - destruct k as [|k].
    + cbn in Hk. injection Hk as ->. reflexivity.
    + specialize (Hbefore 0%nat ltac:(lia)) as H0. cbn in H0. injection H0 as ->.
      cbn. apply (IH k); [exact Hk|].
      intros j Hj. apply (Hbefore (S j)). lia.
Qed.

Lemma fold_no_match (rs : list (option string)) (fb : string) :
  (forall r, r ∈ rs -> r = None) -> foldr or_else fb rs = fb.
Proof.
  induction rs as [|r rs IH]; intros H; [reflexivity|].
  rewrite (H r) by apply list_elem_of_here. cbn.
  apply IH. intros r' Hr'. apply H. now apply list_elem_of_further.
Qed.

Lemma rule_labels f r :
  r ∈ rule_table f -> r = None \/ exists l, r = Some l /\ l ∈ strategy_labels.
Proof.
  unfold rule_table. cbv zeta. intros H.
  repeat (rewrite elem_of_cons in H; destruct H as [-> | H]).
  all: try (now apply elem_of_nil in H).
  all: unfold rule_1, rule_2, rule_3, rule_4, rule_5, rule_6, rule_7, rule_8,
         rule_9, rule_10.
  all: repeat match goal with
         | |- context [if ?c then _ else _] => destruct c
         end;
       first [ now left
             | right; eexists; split; [reflexivity|]; unfold strategy_labels; set_solver ].
Qed.

Lemma fallback_label iv adx rsi : fallback iv adx rsi ∈ strategy_labels.
Proof.
  unfold fallback.
  repeat match goal with
    | |- context [if ?c then _ else _] => destruct c
    end; unfold strategy_labels; set_solver.
Qed.

Lemma fold_label (rs : list (option string)) fb :
  (forall r, r ∈ rs -> r = None \/ exists l, r = Some l /\ l ∈ strategy_labels) ->
  fb ∈ strategy_labels ->
  foldr or_else fb rs ∈ strategy_labels.
Proof.
  induction rs as [|r rs IH]; intros H Hfb; [exact Hfb|].
  cbn. destruct (H r (list_elem_of_here _ _)) as [-> | (l & -> & Hl)]; cbn.
  - apply IH; [|exact Hfb]. intros r' Hr'. apply H. now apply list_elem_of_further.
  - exact Hl.
Qed.

(** C4.  The rule engine returns one of the ten labels on every
    snapshot; the rule blocks are tried in source order and the first
    one that matches decides; when none of the ten matches the fallback
    decides: IRON_CONDOR for IV rank above 55; below 35 LONG_CALL when
    RSI is at least 50 and LONG_PUT otherwise; in between
    BULL_CALL_SPREAD for RSI above 58 with ADX above 18,
    BEAR_PUT_SPREAD for RSI below 42 with ADX above 18, and
    IRON_CONDOR otherwise. *)
Theorem rule_engine_total_first_match (features : Features) :
  let iv_rank := features_get features "iv_rank" 50 in
  let adx := features_get features "adx_14" 20 in
  let rsi := features_get features "rsi_14" 50 in
  select_strategy_from_features features ∈ strategy_labels
  /\ (forall k label,
        rule_table features !! k = Some (Some label) ->
        (forall j, (j < k)%nat -> rule_table features !! j = Some None) ->
        select_strategy_from_features features = label)
  /\ ((forall r, r ∈ rule_table features -> r = None) ->
      (55 < iv_rank -> select_strategy_from_features features = "IRON_CONDOR")
      /\ (iv_rank <= 55 -> iv_rank < 35 -> 50 <= rsi ->
          select_strategy_from_features features = "LONG_CALL")
      /\ (iv_rank <= 55 -> iv_rank < 35 -> rsi < 50 ->
          select_strategy_from_features features = "LONG_PUT")
      /\ (35 <= iv_rank <= 55 -> 58 < rsi -> 18 < adx ->
          select_strategy_from_features features = "BULL_CALL_SPREAD")
      /\ (35 <= iv_rank <= 55 -> rsi < 42 -> 18 < adx ->
          select_strategy_from_features features = "BEAR_PUT_SPREAD")
      /\ (35 <= iv_rank <= 55 -> ~ (58 < rsi /\ 18 < adx) -> ~ (rsi < 42 /\ 18 < adx) ->
          select_strategy_from_features features = "IRON_CONDOR")).
Proof.
  intros iv_rank adx rsi. rewrite select_as_fold. fold iv_rank adx rsi.
  split; [|split].
  - apply fold_label; [apply rule_labels | apply fallback_label].
  - intros k label. apply fold_first_match.
  - intros Hnone. rewrite (fold_no_match _ _ Hnone). unfold fallback.
    repeat split; intros; repeat split_cmp; try reflexivity; exfalso; lra.
Qed.

Lemma rule_engine_total_first_match_witness :
  (forall r, r ∈ rule_table ∅ -> r = None)
  /\ ~ (58 < features_get ∅ "rsi_14" 50 /\ 18 < features_get ∅ "adx_14" 20)
  /\ select_strategy_from_features ∅ = "IRON_CONDOR".
Proof.
  assert (forall r, r ∈ rule_table ∅ -> r = None) as Hnone.
  { intros r Hr.
    replace (rule_table ∅) with (replicate 10 (@None string)) in Hr
      by (vm_compute; reflexivity).
    now apply elem_of_replicate in Hr as [-> _]. }
  assert (35 <= features_get ∅ "iv_rank" 50 <= 55) as Hiv.
  { split; discriminate. }
  assert (~ (58 < features_get ∅ "rsi_14" 50 /\ 18 < features_get ∅ "adx_14" 20)) as Hup.
  { intros [H _]. discriminate H. }
  assert (~ (features_get ∅ "rsi_14" 50 < 42 /\ 18 < features_get ∅ "adx_14" 20)) as Hdown.
  { intros [H _]. discriminate H. }
  split; [exact Hnone|]. split; [exact Hup|].
  exact (proj2 (proj2 (proj2 (proj2 (proj2
           (proj2 (proj2 (rule_engine_total_first_match ∅)) Hnone)))))
           Hiv Hup Hdown).
Defined.

(** C5.  Every snapshot with [iv_rank = 60], [adx_14 = 15] and
    [rsi_14 = 50] is labelled IRON_CONDOR, and every snapshot with
    [iv_rank = 30], [adx_14 = 25], [trend_regime = 4] and [rsi_14 = 60]
    is labelled LONG_CALL, whatever the other features are. *)
Theorem rule_engine_scenarios :
  (forall features : Features,
      has_feature features "iv_rank" 60 ->
      has_feature features "adx_14" 15 ->
      has_feature features "rsi_14" 50 ->
      select_strategy_from_features features = "IRON_CONDOR")
  /\ (forall features : Features,
        has_feature features "iv_rank" 30 ->
        has_feature features "adx_14" 25 ->
        has_feature features "trend_regime" 4 ->
        has_feature features "rsi_14" 60 ->
        select_strategy_from_features features = "LONG_CALL").
Proof.
  split.
  - intros f Hiv Hadx Hrsi.
    apply (features_get_has _ _ 50) in Hiv.
    apply (features_get_has _ _ 20) in Hadx.
    apply (features_get_has _ _ 50) in Hrsi.
    unfold select_strategy_from_features.
    generalize dependent (features_get f "iv_rank" 50).
    generalize dependent (features_get f "adx_14" 20).
    generalize dependent (features_get f "rsi_14" 50).
    generalize (features_get f "trend_regime" 2) (features_get f "price_vs_sma_20" 0).
    intros trend pvs rsi Hrsi adx Hadx iv Hiv.
    unfold rule_1. do 2 split_cmp. cbn [or_else].
    unfold rule_2. repeat split_cmp. reflexivity.
  - intros f Hiv Hadx Htrend Hrsi.
    apply (features_get_has _ _ 50) in Hiv.
    apply (features_get_has _ _ 20) in Hadx.
    apply (features_get_has _ _ 2) in Htrend.
    apply (features_get_has _ _ 50) in Hrsi.
    unfold select_strategy_from_features.
    generalize dependent (features_get f "iv_rank" 50).
    generalize dependent (features_get f "adx_14" 20).
    generalize dependent (features_get f "rsi_14" 50).
    generalize dependent (features_get f "trend_regime" 2).
    generalize (features_get f "price_vs_sma_20" 0).
    intros pvs trend Htrend rsi Hrsi adx Hadx iv Hiv.
    unfold rule_1. split_cmp. cbn [or_else].
    unfold rule_2. split_cmp. cbn [or_else].
    unfold rule_3. split_cmp. cbn [or_else].
    unfold rule_4. repeat split_cmp. reflexivity.
Qed.

Lemma rule_engine_scenarios_witness :
  has_feature Examples.ranging_high_iv "iv_rank" 60
  /\ has_feature Examples.ranging_high_iv "adx_14" 15
  /\ has_feature Examples.ranging_high_iv "rsi_14" 50
  /\ select_strategy_from_features Examples.ranging_high_iv = "IRON_CONDOR"
  /\ has_feature Examples.trending_low_iv "iv_rank" 30
  /\ has_feature Examples.trending_low_iv "adx_14" 25
  /\ has_feature Examples.trending_low_iv "trend_regime" 4
  /\ has_feature Examples.trending_low_iv "rsi_14" 60
  /\ select_strategy_from_features Examples.trending_low_iv = "LONG_CALL".
Proof.
  assert (forall (f : Features) k v, f !! k = Some v -> has_feature f k v) as H.
  { intros f k v Hk. exists v. split; [exact Hk | reflexivity]. }
  assert (has_feature Examples.ranging_high_iv "iv_rank" 60) as A1 by (apply H; reflexivity).
  assert (has_feature Examples.ranging_high_iv "adx_14" 15) as A2 by (apply H; reflexivity).
  assert (has_feature Examples.ranging_high_iv "rsi_14" 50) as A3 by (apply H; reflexivity).
  assert (has_feature Examples.trending_low_iv "iv_rank" 30) as B1 by (apply H; reflexivity).
  assert (has_feature Examples.trending_low_iv "adx_14" 25) as B2 by (apply H; reflexivity).
  assert (has_feature Examples.trending_low_iv "trend_regime" 4) as B3 by (apply H; reflexivity).
  assert (has_feature Examples.trending_low_iv "rsi_14" 60) as B4 by (apply H; reflexivity).
  repeat (split; [assumption|]).
  split; [exact (proj1 rule_engine_scenarios _ A1 A2 A3)|].
  repeat (split; [assumption|]).
  exact (proj2 rule_engine_scenarios _ B1 B2 B3 B4).
Defined.

(** Filling in the defaults does not change what [features.get] reads. *)
Lemma features_get_fill f k d :
  (k, d) ∈ required_features ->
  features_get (fill_defaults f) k d = features_get f k d.
Proof.
  intros Hk. unfold fill_defaults.
  assert (forall k' d', (k', d') ∈ required_features -> k' = k -> d' = d) as Hcons.
  { intros k' d' Hk' ->. unfold required_features in Hk, Hk'.
    rewrite !elem_of_cons, elem_of_nil in Hk, Hk'.
    destruct_or!; simplify_eq; reflexivity. }
  clear Hk. induction required_features as [|[k1 d1] reqs IH]; [reflexivity|].
  cbn [foldr fst snd].
  set (f' := foldr _ f reqs) in *.
  assert (features_get f' k d = features_get f k d) as IH'.
  { apply IH. intros k' d' Hin. apply Hcons. now apply list_elem_of_further. }
  destruct (f' !! k1) eqn:E1; [exact IH'|].
  rewrite <- IH'. unfold features_get.
  destruct (decide (k1 = k)) as [->|Hne].
  - rewrite lookup_insert_eq, E1. cbn.
    apply (Hcons k d1); [apply list_elem_of_here | reflexivity].
  - now rewrite lookup_insert_ne.
Qed.

Lemma select_fill_defaults f :
  select_strategy_from_features (fill_defaults f) = select_strategy_from_features f.
Proof.
  unfold select_strategy_from_features.
  rewrite !features_get_fill by (unfold required_features; set_solver).
  reflexivity.
Qed.

End StrategySelectorFacts.

(** ** [first_min]: the first least element *)

Module FirstMin.

Import Builtins.

Section Order.

Context {A K : Type} (lt : K -> K -> bool) (key : A -> K).
Hypothesis lt_trans :
  forall a b c, lt a b = true -> lt b c = true -> lt a c = true.
Hypothesis lt_cotrans :
  forall a b c, lt a b = true -> lt c b = false -> lt a c = true.

(** The result splits the scanned sequence: everything before it has a
    strictly greater key, nothing after it has a smaller one. *)
Lemma first_min_split (best : A) (l : list A) :
  exists before after,
    best :: l = before ++ first_min lt key best l :: after
    /\ (forall x, x ∈ before -> lt (key (first_min lt key best l)) (key x) = true)
    /\ (forall x, x ∈ after -> lt (key x) (key (first_min lt key best l)) = false).
Proof.
  revert best. induction l as [|x l IH]; intros best.
  - exists [], []. cbn. repeat split; intros y Hy; now apply elem_of_nil in Hy.
  - cbn [first_min].
    destruct (lt (key x) (key best)) eqn:E.
    + destruct (IH x) as (before & after & Hsplit & Hb & Ha).
      exists (best :: before), after. repeat split.
      * cbn. congruence.
      * intros y Hy. apply elem_of_cons in Hy as [-> | Hy]; [|now apply Hb].
        destruct before as [|b before'].
        -- cbn in Hsplit. injection Hsplit as Hx _. now rewrite <- Hx.
        -- cbn in Hsplit. injection Hsplit as Hx _. subst b.
           apply (lt_trans _ (key x)); [|exact E].
           apply Hb. apply list_elem_of_here.
      * exact Ha.
    + destruct (IH best) as (before & after & Hsplit & Hb & Ha).
      destruct before as [|b before'].
      * cbn in Hsplit. injection Hsplit as Hbest Hl.
        exists [], (x :: after). repeat split.
        -- cbn. congruence.
        -- intros y Hy. now apply elem_of_nil in Hy.
        -- intros y Hy. apply elem_of_cons in Hy as [-> | Hy]; [|now apply Ha].
           now rewrite <- Hbest.
      * cbn in Hsplit. injection Hsplit as Hbest Hl. subst b.
        exists (best :: x :: before'), after. repeat split.
        -- cbn. congruence.
        -- intros y Hy.
           apply elem_of_cons in Hy as [-> | Hy]; [apply Hb, list_elem_of_here|].
           apply elem_of_cons in Hy as [-> | Hy].
           ++ apply (lt_cotrans _ (key best)); [|exact E].
              apply Hb, list_elem_of_here.
           ++ apply Hb. now apply list_elem_of_further.
        -- exact Ha.
Qed.

Lemma first_min_elem (best : A) (l : list A) :
  first_min lt key best l ∈ best :: l.
Proof.
  destruct (first_min_split best l) as (before & after & -> & _).
  apply elem_of_app. right. apply list_elem_of_here.
Qed.

End Order.

(** Mapping the rows does not change which one is chosen, as long as
    the keys agree. *)
Lemma first_min_map {A B K : Type} (lt : K -> K -> bool)
    (g : A -> B) (key : A -> K) (key' : B -> K) (best : A) (l : list A) :
  (forall x, key' (g x) = key x) ->
  first_min lt key' (g best) (map g l) = g (first_min lt key best l).
Proof.
  intros Hkey. revert best. induction l as [|x l IH]; intros best; [reflexivity|].
  cbn. rewrite !Hkey. destruct (lt (key x) (key best)); apply IH.
Qed.

Lemma Qltb_trans a b c : Num.ltb a b = true -> Num.ltb b c = true -> Num.ltb a c = true.
Proof. rewrite !NumFacts.ltb_true. lra. Qed.

Lemma Qltb_cotrans a b c : Num.ltb a b = true -> Num.ltb c b = false -> Num.ltb a c = true.
Proof. rewrite !NumFacts.ltb_true, NumFacts.ltb_false. lra. Qed.

Lemma Zltb_trans a b c : (a <? b)%Z = true -> (b <? c)%Z = true -> (a <? c)%Z = true.
Proof. rewrite !Z.ltb_lt. lia. Qed.

Lemma Zltb_cotrans a b c : (a <? b)%Z = true -> (c <? b)%Z = false -> (a <? c)%Z = true.
Proof. rewrite !Z.ltb_lt, Z.ltb_ge. lia. Qed.

(** For rows keyed by a number. *)
Lemma first_min_rows (key : Row -> Q) (row : Row) (rest : list Row) :
  exists before after,
    row :: rest = before ++ first_min Num.ltb key row rest :: after
    /\ (forall x, x ∈ before -> key (first_min Num.ltb key row rest) < key x)
    /\ (forall x, x ∈ after -> key (first_min Num.ltb key row rest) <= key x).
Proof.
  destruct (first_min_split Num.ltb key Qltb_trans Qltb_cotrans row rest)
    as (before & after & Hsplit & Hb & Ha).
  exists before, after. repeat split; [exact Hsplit| |].
  - intros x Hx. now apply NumFacts.ltb_true, Hb.
  - intros x Hx. now apply NumFacts.ltb_false, Ha.
Qed.

(** For DTEs keyed by their distance to a target. *)
Lemma first_min_dtes (key : Z -> Z) (d : Z) (rest : list Z) :
  first_min Z.ltb key d rest ∈ d :: rest
  /\ forall x, x ∈ d :: rest -> (key (first_min Z.ltb key d rest) <= key x)%Z.
Proof.
  split; [apply (first_min_elem Z.ltb key Zltb_trans Zltb_cotrans)|].
  destruct (first_min_split Z.ltb key Zltb_trans Zltb_cotrans d rest)
    as (before & after & Hsplit & Hb & Ha).
  intros x Hx. rewrite Hsplit in Hx.
  apply elem_of_app in Hx as [Hx | Hx].
  - apply Hb, Z.ltb_lt in Hx. lia.
  - apply elem_of_cons in Hx as [-> | Hx]; [lia|].
    now apply Ha, Z.ltb_ge in Hx.
Qed.

End FirstMin.

(** ** Running DataFrame operations *)

Module StoreFacts.

Import Builtins DF Reading RiskManagerFacts.

Lemma extends_refl s : extends s s.
Proof. split; [reflexivity|]. exists []. now rewrite app_nil_r. Qed.

Lemma extends_trans s1 s2 s3 : extends s1 s2 -> extends s2 s3 -> extends s1 s3.
Proof.
  intros [Hr1 [f1 Hf1]] [Hr2 [f2 Hf2]]. split; [congruence|].
  exists (f1 ++ f2). now rewrite Hf2, Hf1, app_assoc.
Qed.

(** Frames alive before are still there, unchanged. *)
Lemma extends_lookup s s' r f :
  extends s s' -> frames s !! r = Some f -> frames s' !! r = Some f.
Proof. intros [_ [fresh ->]] H. now apply lookup_app_l_Some. Qed.

Lemma extends_alloc rm fs new : extends (mkStore rm fs) (mkStore rm (fs ++ new)).
Proof. split; [reflexivity|]. now exists new. Qed.

Lemma lookup_newest (fs : list DataFrame) f : (fs ++ [f]) !! length fs = Some f.
Proof. now apply list_lookup_middle. Qed.

Lemma insert_newest (fs : list DataFrame) f g : <[length fs := g]> (fs ++ [f]) = fs ++ [g].
Proof.
  rewrite insert_app_r_alt by lia. now rewrite Nat.sub_diag.
Qed.

Lemma run_load s r f : frames s !! r = Some f -> load r s = (Ok f, s).
Proof. intros H. unfold load. rewrite run_bind. cbn [get_store]. now rewrite H. Qed.

Lemma run_alloc s f :
  alloc f s = (Ok (length (frames s)), mkStore (risk_manager s) (frames s ++ [f])).
Proof. reflexivity. Qed.

Lemma run_select_rows s r f mask :
  frames s !! r = Some f ->
  select_rows r mask s =
  (Ok (length (frames s)), mkStore (risk_manager s) (frames s ++ [List.filter mask f])).
Proof. intros H. unfold select_rows. now rewrite run_bind, (run_load _ _ _ H). Qed.

Lemma run_copy s r f :
  frames s !! r = Some f ->
  copy r s = (Ok (length (frames s)), mkStore (risk_manager s) (frames s ++ [f])).
Proof. intros H. unfold copy. now rewrite run_bind, (run_load _ _ _ H). Qed.

Lemma run_len s r f : frames s !! r = Some f -> len r s = (Ok (length f), s).
Proof. intros H. unfold len. now rewrite run_bind, (run_load _ _ _ H). Qed.

Lemma run_iloc_0 s r f col :
  frames s !! r = Some f ->
  iloc_0 r col s = (match f with
                    | [] => Raise IndexError
                    | row :: _ => Ok (col row)
                    end, s).
Proof.
  intros H. unfold iloc_0. rewrite run_bind, (run_load _ _ _ H).
  now destruct f.
Qed.

Lemma run_unique_dte s r f :
  frames s !! r = Some f -> unique_dte r s = (Ok (unique (map Col.dte f)), s).
Proof. intros H. unfold unique_dte. now rewrite run_bind, (run_load _ _ _ H). Qed.

Lemma run_set_column s r f name series :
  frames s !! r = Some f ->
  set_column r name series s =
  (Ok tt, mkStore (risk_manager s)
            (<[r := map (fun row => with_extra name (series row) row) f]> (frames s))).
Proof. intros H. unfold set_column. now rewrite run_bind, (run_load _ _ _ H). Qed.

Lemma column_with_extra name v row : column name (with_extra name v row) = v.
Proof. unfold column, with_extra. cbn. now rewrite lookup_insert_eq. Qed.

Lemma has_column_set name series (f : DataFrame) :
  forallb (has_column name) (map (fun row => with_extra name (series row) row) f) = true.
Proof.
  induction f as [|row f IH]; [reflexivity|].
  cbn [map forallb]. rewrite IH, andb_true_r.
  unfold has_column, with_extra. cbn. apply bool_decide_eq_true_2.
  rewrite lookup_insert_eq. eauto.
Qed.

(** [nsmallest(1, name)] right after the column was assigned. *)
Lemma run_nsmallest_1_set s r name series row rest :
  frames s !! r = Some (map (fun row => with_extra name (series row) row) (row :: rest)) ->
  nsmallest_1 r name s =
  (Ok (length (frames s)),
   mkStore (risk_manager s)
     (frames s ++ [[with_extra name (series (first_min Num.ltb series row rest))
                      (first_min Num.ltb series row rest)]])).
Proof.
  intros H. unfold nsmallest_1. rewrite run_bind, (run_load _ _ _ H).
  rewrite has_column_set. cbn [map]. rewrite run_alloc.
  rewrite (FirstMin.first_min_map Num.ltb
             (fun row => with_extra name (series row) row) series (column name)).
  - reflexivity.
  - intros x. apply column_with_extra.
Qed.

Lemma length_zero_nil {A} (l : list A) : (length l =? 0)%nat = true <-> l = [].
Proof. rewrite Nat.eqb_eq. split; [apply length_zero_iff_nil | now intros ->]. Qed.

End StoreFacts.

(** ** Strike selection *)

Module SelectorFacts.

Import Builtins DF ParameterGenerator Reading RiskManagerFacts StoreFacts.

Ltac old_frame :=
  cbn [frames risk_manager]; repeat (apply lookup_app_l_Some); eassumption.
Ltac new_frame :=
  cbn [frames risk_manager]; first [apply lookup_newest | old_frame].
Ltac grown :=
  split; [reflexivity|]; cbn [frames risk_manager];
  rewrite <- ?app_assoc; eexists; reflexivity.

(** The tail shared by both selectors: assign the distance column to the
    newest frame, take [nsmallest(1, ...)], read the strike. *)
Lemma run_nearest rm fs (cands : DataFrame) name series option_type :
  let s := mkStore rm (fs ++ [cands]) in
  let filtered := length fs in
  exists s',
    (n ← len filtered;
     if (n =? 0)%nat then raise (ValueError (NoOptionsAvailable option_type))
     else
       _ ← set_column filtered name series;
       best ← nsmallest_1 filtered name;
       iloc_0 best Col.strike) s
    = (nearest series option_type cands, s')
    /\ extends (mkStore rm fs) s'.
Proof.
  intros s filtered. subst s filtered.
  rewrite run_bind, (run_len _ _ cands) by new_frame.
  destruct cands as [|row rest].
  - cbn. eexists. split; [reflexivity|]. apply extends_alloc.
  - cbn [length Nat.eqb].
    rewrite run_bind, (run_set_column _ _ (row :: rest)) by new_frame.
    cbn [frames risk_manager]. rewrite insert_newest.
    rewrite run_bind, (run_nsmallest_1_set _ _ name series row rest) by new_frame.
    cbn [frames risk_manager].
    erewrite run_iloc_0 by new_frame.
    cbn [nearest with_extra Col.strike].
    eexists. split; [reflexivity|]. grown.
Qed.

Lemma run_find_strike_by_delta s r chain target_delta option_type dte :
  frames s !! r = Some chain ->
  exists s',
    _find_strike_by_delta r target_delta option_type dte s
    = (strike_by_delta chain target_delta option_type dte, s')
    /\ extends s s'.
Proof.
  intros H. unfold _find_strike_by_delta, strike_by_delta, candidates.
  rewrite run_bind, (run_select_rows _ _ _ _ H).
  rewrite run_bind, (run_copy _ _ (matching chain option_type dte)) by new_frame.
  cbn [frames risk_manager].
  rewrite run_bind, (run_len _ _ (matching chain option_type dte)) by new_frame.
  rewrite run_bind.
  destruct (length (matching chain option_type dte) =? 0)%nat.
  - rewrite run_bind, (run_select_rows _ _ chain) by old_frame.
    rewrite (run_copy _ _ (of_type chain option_type)) by new_frame.
    cbn [frames risk_manager].
    destruct (run_nearest (risk_manager s)
                (((frames s ++ [matching chain option_type dte])
                    ++ [matching chain option_type dte])
                   ++ [of_type chain option_type])
                (of_type chain option_type) "delta_diff"
                (delta_diff target_delta) option_type) as (s' & Hrun & Hext).
    exists s'. split; [exact Hrun|].
    eapply extends_trans; [|exact Hext]. destruct s. grown.
  - cbn [mret Py_ret].
    destruct (run_nearest (risk_manager s)
                (frames s ++ [matching chain option_type dte])
                (matching chain option_type dte) "delta_diff"
                (delta_diff target_delta) option_type) as (s' & Hrun & Hext).
    exists s'. split; [exact Hrun|].
    eapply extends_trans; [|exact Hext]. destruct s. grown.
Qed.

Lemma run_find_strike_by_price s r chain target_price option_type dte :
  frames s !! r = Some chain ->
  exists s',
    _find_strike_by_price r target_price option_type dte s
    = (strike_by_price chain target_price option_type dte, s')
    /\ extends s s'.
Proof.
  intros H. unfold _find_strike_by_price, strike_by_price, candidates.
  rewrite run_bind, (run_select_rows _ _ _ _ H).
  rewrite run_bind, (run_copy _ _ (matching chain option_type dte)) by new_frame.
  cbn [frames risk_manager].
  rewrite run_bind, (run_len _ _ (matching chain option_type dte)) by new_frame.
  rewrite run_bind.
  destruct (length (matching chain option_type dte) =? 0)%nat.
  - rewrite run_bind, (run_select_rows _ _ chain) by old_frame.
    rewrite (run_copy _ _ (of_type chain option_type)) by new_frame.
    cbn [frames risk_manager].
    destruct (run_nearest (risk_manager s)
                (((frames s ++ [matching chain option_type dte])
                    ++ [matching chain option_type dte])
                   ++ [of_type chain option_type])
                (of_type chain option_type) "price_diff"
                (price_diff target_price) option_type) as (s' & Hrun & Hext).
    exists s'. split; [exact Hrun|].
    eapply extends_trans; [|exact Hext]. destruct s. grown.
  - cbn [mret Py_ret].
    destruct (run_nearest (risk_manager s)
                (frames s ++ [matching chain option_type dte])
                (matching chain option_type dte) "price_diff"
                (price_diff target_price) option_type) as (s' & Hrun & Hext).
    exists s'. split; [exact Hrun|].
    eapply extends_trans; [|exact Hext]. destruct s. grown.
Qed.

Lemma run_get_option_cost s r chain strike option_type dte :
  frames s !! r = Some chain ->
  exists s',
    _get_option_cost r strike option_type dte s
    = (quote Col.ask chain strike option_type dte, s')
    /\ extends s s'.
Proof.
  intros H. unfold _get_option_cost, quote.
  rewrite run_bind, (run_select_rows _ _ _ _ H).
  erewrite run_bind, run_len by new_frame.
  destruct (List.filter _ chain) as [|row rest] eqn:E; cbn [length Nat.eqb].
  - eexists. split; [reflexivity|]. destruct s. grown.
  - erewrite run_iloc_0 by new_frame.
    eexists. split; [reflexivity|]. destruct s. grown.
Qed.

Lemma run_get_option_bid s r chain strike option_type dte :
  frames s !! r = Some chain ->
  exists s',
    _get_option_bid r strike option_type dte s
    = (quote Col.bid chain strike option_type dte, s')
    /\ extends s s'.
Proof.
  intros H. unfold _get_option_bid, quote.
  rewrite run_bind, (run_select_rows _ _ _ _ H).
  erewrite run_bind, run_len by new_frame.
  destruct (List.filter _ chain) as [|row rest] eqn:E; cbn [length Nat.eqb].
  - eexists. split; [reflexivity|]. destruct s. grown.
  - erewrite run_iloc_0 by new_frame.
    eexists. split; [reflexivity|]. destruct s. grown.
Qed.

Lemma run_py_min_dte s target (dtes : list Z) :
  py_min (fun x => Z.abs (x - target)) dtes s
  = (match dtes with
     | [] => Raise (ValueError MinEmptySequence)
     | x :: l => Ok (first_min Z.ltb (fun x => Z.abs (x - target)) x l)
     end, s).
Proof. now destruct dtes. Qed.

Lemma run_select_optimal_dte s r chain strategy iv_rank trend_strength :
  frames s !! r = Some chain ->
  _select_optimal_dte r strategy iv_rank trend_strength s
  = (nearest_dte chain (target_dte strategy iv_rank trend_strength), s).
Proof.
  intros H. unfold _select_optimal_dte, nearest_dte, available_dtes.
  rewrite run_bind, (run_unique_dte _ _ _ H). cbv zeta.
  apply run_py_min_dte.
Qed.

(** [calculate_position_size] leaves the store as it is. *)
Lemma run_calculate_position_size s max_loss_per_contract :
  exists res, RiskManagerM.calculate_position_size max_loss_per_contract s = (res, s).
Proof. rewrite run_position_size. now eexists. Qed.

(** *** What the selected strike is *)

Lemma of_type_nil chain option_type :
  of_type chain option_type = [] <->
  forall row, row ∈ chain -> Col.type row <> option_type.
Proof.
  unfold of_type. induction chain as [|x chain IH]; cbn [List.filter].
  - split; [|reflexivity]. intros _ row Hrow. now apply elem_of_nil in Hrow.
  - unfold type_is at 1. destruct (bool_decide_reflect (Col.type x = option_type)) as [Heq|Hne].
    + split; [discriminate|]. intros Hall. exfalso.
      now apply (Hall x (list_elem_of_here _ _)).
    + rewrite IH. split.
      * intros Hall row Hrow. apply elem_of_cons in Hrow as [-> | Hrow]; auto.
      * intros Hall row Hrow. apply Hall. now apply list_elem_of_further.
Qed.

Lemma matching_of_type chain option_type dte row :
  row ∈ matching chain option_type dte -> row ∈ of_type chain option_type.
Proof.
  unfold matching, of_type. rewrite !list_elem_of_In, !filter_In.
  intros [Hin Hm]. apply andb_true_iff in Hm as [Ht _]. now split.
Qed.

Lemma matching_elem chain option_type dte row :
  row ∈ matching chain option_type dte <->
  row ∈ chain /\ Col.type row = option_type /\ Col.dte row = dte.
Proof.
  unfold matching, type_is, dte_is.
  rewrite !list_elem_of_In, filter_In, andb_true_iff, bool_decide_eq_true, Z.eqb_eq.
  reflexivity.
Qed.

Lemma candidates_matching chain option_type dte :
  matching chain option_type dte <> [] ->
  candidates chain option_type dte = matching chain option_type dte.
Proof.
  intros H. unfold candidates.
  destruct (length _ =? 0)%nat eqn:E; [|reflexivity].
  now apply length_zero_nil in E.
Qed.


Lemma candidates_nil chain option_type dte :
  candidates chain option_type dte = [] <-> of_type chain option_type = [].
Proof.
  unfold candidates. destruct (length _ =? 0)%nat eqn:E; [reflexivity|].
  split; intros H.
  - rewrite H in E. discriminate.
  - destruct (matching chain option_type dte) as [|row rest] eqn:Em; [reflexivity|].
    assert (row ∈ of_type chain option_type) as Hin.
    { apply (matching_of_type _ _ dte). rewrite Em. apply list_elem_of_here. }
    rewrite H in Hin. now apply elem_of_nil in Hin.
Qed.

Lemma nearest_raise key option_type rows :
  nearest key option_type rows = Raise (ValueError (NoOptionsAvailable option_type))
  <-> rows = [].
Proof. destruct rows; cbn; split; intros; congruence. Qed.

Lemma nearest_first_least key option_type rows :
  rows <> [] ->
  exists before best after,
    rows = before ++ best :: after
    /\ nearest key option_type rows = Ok (Col.strike best)
    /\ (forall x, x ∈ before -> key best < key x)
    /\ (forall x, x ∈ after -> key best <= key x).
Proof.
  destruct rows as [|row rest]; [congruence|]. intros _.
  destruct (FirstMin.first_min_rows key row rest) as (before & after & Hs & Hb & Ha).
  exists before, (first_min Num.ltb key row rest), after. now repeat split.
Qed.



End SelectorFacts.

Module RoundTrip.

Import Builtins DF ParameterGenerator Reading RiskManagerFacts StoreFacts SelectorFacts.

Lemma price_diff_self row : price_diff (Col.strike row) row == 0.
Proof.
  unfold price_diff.
  assert (Col.strike row - Col.strike row == 0) as -> by ring.
  reflexivity.
Qed.

Lemma price_diff_zero target row : price_diff target row <= 0 -> Col.strike row == target.
Proof. unfold price_diff. intros H. apply NumFacts.Qabs_zero_iff in H. lra. Qed.

(** C8.  On a chain with a contract of the requested type and DTE,
    selection by delta returns a strike [S], and selection by price
    with target [S] over the same chain, type and DTE returns a strike
    equal to [S]. *)
Theorem delta_then_price_round_trip
    (s : Store) (r : ref) (chain : DataFrame)
    (target_delta : Q) (option_type : OptionType) (dte : Z) :
  frames s !! r = Some chain ->
  (exists row, row ∈ chain /\ Col.type row = option_type /\ Col.dte row = dte) ->
  exists (S : Q) (s1 : Store) (S' : Q) (s2 : Store),
    _find_strike_by_delta r target_delta option_type dte s = (Ok S, s1)
    /\ _find_strike_by_price r S option_type dte s1 = (Ok S', s2)
    /\ S' == S.
Proof.
  intros H (row & Hin & Hty & Hdte).
  assert (candidates chain option_type dte <> []) as Hne.
  { rewrite candidates_matching.
    - intros Hnil. assert (row ∈ matching chain option_type dte) as Hm
        by now apply matching_elem.
      rewrite Hnil in Hm. now apply elem_of_nil in Hm.
    - intros Hnil. assert (row ∈ matching chain option_type dte) as Hm
        by now apply matching_elem.
      rewrite Hnil in Hm. now apply elem_of_nil in Hm. }
  destruct (run_find_strike_by_delta s r chain target_delta option_type dte H)
    as (s1 & Hrun1 & Hext1).
  destruct (nearest_first_least (delta_diff target_delta) option_type _ Hne)
    as (before & best & after & Hsplit & Hbest & _ & _).
  fold (strike_by_delta chain target_delta option_type dte) in Hbest.
  rewrite Hbest in Hrun1.
  pose proof (extends_lookup _ _ _ _ Hext1 H) as H1.
  destruct (run_find_strike_by_price s1 r chain (Col.strike best) option_type dte H1)
    as (s2 & Hrun2 & _).
  destruct (nearest_first_least (price_diff (Col.strike best)) option_type _ Hne)
    as (before' & best' & after' & Hsplit' & Hbest' & Hb' & Ha').
  fold (strike_by_price chain (Col.strike best) option_type dte) in Hbest'.
  rewrite Hbest' in Hrun2.
  exists (Col.strike best), s1, (Col.strike best'), s2.
  split; [exact Hrun1|]. split; [exact Hrun2|].
  apply price_diff_zero.
  assert (best ∈ before' ++ best' :: after') as Hmem.
  { rewrite <- Hsplit', Hsplit. apply elem_of_app. right. apply list_elem_of_here. }
  pose proof (price_diff_self best) as Hself.
  apply elem_of_app in Hmem as [Hmem | Hmem].
  - apply Hb' in Hmem. lra.
  - apply elem_of_cons in Hmem as [<- | Hmem]; [lra|].
    apply Ha' in Hmem. lra.
Qed.

Lemma delta_then_price_round_trip_witness :
  frames Examples.store !! Examples.option_chain = Some Examples.chain
  /\ (exists row, row ∈ Examples.chain /\ Col.type row = call /\ Col.dte row = 21%Z)
  /\ exists (S : Q) (s1 : Store) (S' : Q) (s2 : Store),
      _find_strike_by_delta Examples.option_chain 0.30 call 21 Examples.store = (Ok S, s1)
      /\ _find_strike_by_price Examples.option_chain S call 21 s1 = (Ok S', s2)
      /\ S' == S.
Proof.
  assert (frames Examples.store !! Examples.option_chain = Some Examples.chain) as H
    by reflexivity.
  assert (exists row, row ∈ Examples.chain /\ Col.type row = call /\ Col.dte row = 21%Z)
    as Hrow.
  { exists (Examples.contract 100 call 21 5.8 6 0.6).
    split; [apply list_elem_of_here | split; reflexivity]. }
  split; [exact H|]. split; [exact Hrow|].
  exact (delta_then_price_round_trip Examples.store Examples.option_chain
           Examples.chain 0.30 call 21 H Hrow).
Defined.

End RoundTrip.

(** ** Trade builders *)

Module BuilderFacts.

Import Builtins DF ParameterGenerator Reading RiskManagerFacts StoreFacts SelectorFacts.
Local Open Scope string_scope.

(** Run the next call of a builder whose run is described by [Hrun],
    with the run lemma [lem] of the callee; an exception ends the proof
    because the builder returned. *)
Ltac next_call Hrun lem :=
  let s1 := fresh "s" in
  let E := fresh "E" in
  let X := fresh "X" in
  let v := fresh "v" in
  let e := fresh "e" in
  let R := fresh "R" in
  rewrite run_bind in Hrun;
  destruct lem as (s1 & E & X);
  match type of E with
  | _ = (?res, _) =>
      rewrite E in Hrun; clear E;
      destruct res as [v|e] eqn:R; [|discriminate Hrun]
  end;
  cbv beta iota in Hrun.

(** C6.  Whenever the bull call spread builder returns, its strikes
    were selected by delta from the chain, the long leg's ask and the
    short leg's bid were read off the chain, and the result satisfies
    [net_debit = (ask - bid) * 100],
    [max_profit = (short_strike - long_strike) * 100 - net_debit],
    [max_loss = net_debit] and
    [breakeven = long_strike + net_debit / 100]; with strikes 100 and
    110 and a net debit of 400 that is a maximum profit of 600 and a
    breakeven of 104. *)
Theorem bull_call_spread_payoff
    (s : Store) (r : ref) (chain : DataFrame) (features : Features)
    (current_price : Q) (d : PyDict) (s' : Store) :
  frames s !! r = Some chain ->
  _generate_bull_call_spread r features current_price s = (Ok d, s') ->
  exists (dte : Z) (long_delta short_delta : Q)
         (long_strike short_strike long_ask short_bid : Q)
         (net_debit max_profit max_loss breakeven : Q),
    strike_by_delta chain long_delta call dte = Ok long_strike
    /\ strike_by_delta chain short_delta call dte = Ok short_strike
    /\ quote Col.ask chain long_strike call dte = Ok long_ask
    /\ quote Col.bid chain short_strike call dte = Ok short_bid
    /\ field d "long_strike" = Some long_strike
    /\ field d "short_strike" = Some short_strike
    /\ field d "net_debit" = Some net_debit
    /\ field d "max_profit" = Some max_profit
    /\ field d "max_loss" = Some max_loss
    /\ field d "breakeven" = Some breakeven
    /\ net_debit = (long_ask - short_bid) * 100
    /\ max_profit = (short_strike - long_strike) * 100 - net_debit
    /\ max_loss = net_debit
    /\ breakeven = long_strike + net_debit / 100
    /\ (long_strike == 100 -> short_strike == 110 -> net_debit == 400 ->
        max_profit == 600 /\ breakeven == 104).
Proof.
  intros H Hrun. unfold _generate_bull_call_spread in Hrun.
  rewrite run_bind, (run_select_optimal_dte _ _ _ _ _ _ H) in Hrun.
  destruct (nearest_dte chain _) as [dte|e] eqn:Edte; [|discriminate Hrun].
  cbv beta iota in Hrun.
  destruct (if Num.ltb _ 50 then _ else _) as [long_delta short_delta].
  cbv beta iota in Hrun.
  next_call Hrun (run_find_strike_by_delta s r chain long_delta call dte H).
  pose proof (extends_lookup _ _ _ _ X H) as H1.
  next_call Hrun (run_find_strike_by_delta s0 r chain short_delta call dte H1).
  pose proof (extends_lookup _ _ _ _ X0 H1) as H2.
  next_call Hrun (run_get_option_cost s1 r chain v call dte H2).
  pose proof (extends_lookup _ _ _ _ X1 H2) as H3.
  next_call Hrun (run_get_option_bid s2 r chain v0 call dte H3).
  rewrite run_bind in Hrun.
  destruct (run_calculate_position_size s3 ((v1 - v2) * 100)) as (res & En).
  rewrite En in Hrun. destruct res as [n|e]; [|discriminate Hrun].
  cbv beta iota in Hrun.
  rewrite run_bind in Hrun.
  assert (exists rr, (if Num.ltb 0 ((v1 - v2) * 100)
                      then truediv ((v0 - v) * 100 - (v1 - v2) * 100) ((v1 - v2) * 100)
                      else mret 0) s3 = (Ok rr, s3)) as (rr & Err).
  { destruct (Num.ltb 0 ((v1 - v2) * 100)) eqn:Epos; reflect_cmp.
    - rewrite truediv_ok by lra. now eexists.
    - now eexists. }
  rewrite Err in Hrun. cbv beta iota in Hrun.
  injection Hrun as <- _.
  exists dte, long_delta, short_delta, v, v0, v1, v2.
  exists ((v1 - v2) * 100), ((v0 - v) * 100 - (v1 - v2) * 100),
         ((v1 - v2) * 100), (v + (v1 - v2) * 100 / 100).
  repeat (split; [first [assumption | reflexivity]|]).
  intros HL HS HN. split.
  - rewrite HL, HS, HN. reflexivity.
  - rewrite HL, HN. reflexivity.
Qed.

Lemma bull_call_spread_payoff_witness :
  frames Examples.store !! Examples.option_chain = Some Examples.chain
  /\ exists d s',
      _generate_bull_call_spread Examples.option_chain Examples.no_features 105
        Examples.store = (Ok d, s')
      /\ field d "long_strike" = Some 100
      /\ field d "short_strike" = Some 110
      /\ field d "net_debit" = Some 400
      /\ exists max_profit breakeven,
          field d "max_profit" = Some max_profit
          /\ field d "breakeven" = Some breakeven
          /\ max_profit == 600 /\ breakeven == 104.
Proof.
  assert (frames Examples.store !! Examples.option_chain = Some Examples.chain) as H
    by reflexivity.
  split; [exact H|].
  destruct (_generate_bull_call_spread Examples.option_chain Examples.no_features 105
              Examples.store) as [[d|e] s'] eqn:Hrun; [|vm_compute in Hrun; discriminate Hrun].
  exists d, s'. split; [reflexivity|].
  destruct (bull_call_spread_payoff _ _ _ _ _ _ _ H Hrun)
    as (dte & ld & sd & ls & ss & la & sb & nd & mp & ml & be
        & _ & _ & _ & _ & Hls & Hss & Hnd & Hmp & _ & Hbe & _ & _ & _ & _ & Hscen).
  vm_compute in Hrun. injection Hrun as <- _.
  repeat (split; [reflexivity|]).
  exists mp, be. split; [exact Hmp|]. split; [exact Hbe|].
  apply Hscen.
  - vm_compute in Hls. injection Hls as <-. reflexivity.
  - vm_compute in Hss. injection Hss as <-. reflexivity.
  - vm_compute in Hnd. injection Hnd as <-. reflexivity.
Defined.

(** *** Expirations of the calendar and diagonal builders *)

Lemma filter_elem (p : Z -> bool) (l : list Z) x :
  x ∈ List.filter p l <-> x ∈ l /\ p x = true.
Proof. rewrite !list_elem_of_In. apply filter_In. Qed.

Lemma unique_elem x l : x ∈ unique l <-> x ∈ l.
Proof.
  induction l as [|y l IH]; [reflexivity|].
  cbn [unique]. rewrite !elem_of_cons, filter_elem, IH, negb_true_iff, Z.eqb_neq.
  destruct (decide (x = y)); tauto.
Qed.

Lemma insert_sorted_elem y x l : y ∈ insert_sorted x l <-> y = x \/ y ∈ l.
Proof.
  induction l as [|z l IH]; cbn [insert_sorted].
  - rewrite elem_of_cons. reflexivity.
  - destruct (x <=? z)%Z.
    + rewrite elem_of_cons. reflexivity.
    + rewrite !elem_of_cons, IH. tauto.
Qed.

Lemma sorted_elem x l : x ∈ sorted l <-> x ∈ l.
Proof.
  unfold sorted. induction l as [|y l IH]; [reflexivity|].
  cbn [foldr]. rewrite insert_sorted_elem, IH, elem_of_cons. reflexivity.
Qed.

Lemma available_dtes_elem chain x :
  x ∈ available_dtes chain <-> exists row, row ∈ chain /\ Col.dte row = x.
Proof.
  unfold available_dtes. rewrite sorted_elem, unique_elem, list_elem_of_fmap.
  split; intros (row & H1 & H2); exists row; auto.
Qed.

Lemma nearest_dte_least chain target near :
  nearest_dte chain target = Ok near ->
  near ∈ available_dtes chain
  /\ forall x, x ∈ available_dtes chain -> (Z.abs (near - target) <= Z.abs (x - target))%Z.
Proof.
  unfold nearest_dte. destruct (available_dtes chain) as [|x l]; [discriminate|].
  intros [= <-]. apply (FirstMin.first_min_dtes (fun x => Z.abs (x - target))).
Qed.

Lemma select_far_dte_fabricated avail near :
  (forall x, x ∈ avail -> (x <= near + 14)%Z) ->
  select_far_dte avail near = (near + 30)%Z.
Proof.
  intros Hall. unfold select_far_dte.
  destruct (List.filter _ avail) as [|x l] eqn:E; [reflexivity|].
  assert (x ∈ List.filter (fun d => (d >? near + 14)%Z) avail) as Hx
    by (rewrite E; apply list_elem_of_here).
  apply filter_elem in Hx as [Hin Hgt]. apply Z.gtb_lt in Hgt.
  apply Hall in Hin. lia.
Qed.

Lemma select_far_dte_chosen avail near :
  (exists x, x ∈ avail /\ (near + 14 < x)%Z) ->
  let far := select_far_dte avail near in
  far ∈ avail /\ (near + 14 < far)%Z
  /\ forall x, x ∈ avail -> (near + 14 < x)%Z ->
               (Z.abs (far - 45) <= Z.abs (x - 45))%Z.
Proof.
  intros (x0 & Hin0 & Hgt0). unfold select_far_dte.
  destruct (List.filter _ avail) as [|y l] eqn:E.
  - assert (x0 ∈ List.filter (fun d => (d >? near + 14)%Z) avail) as Hx.
    { apply filter_elem. split; [exact Hin0|]. apply Z.gtb_lt. lia. }
    rewrite E in Hx. now apply elem_of_nil in Hx.
  - cbn [py_min_default].
    destruct (FirstMin.first_min_dtes (fun x => Z.abs (x - 45)) y l) as [Hmem Hleast].
    rewrite <- E in Hmem, Hleast.
    apply filter_elem in Hmem as [Hin Hgt]. apply Z.gtb_lt in Hgt.
    repeat split; [exact Hin | lia |].
    intros x Hx Hxgt. apply Hleast, filter_elem.
    split; [exact Hx|]. apply Z.gtb_lt. lia.
Qed.

Lemma quote_missing col chain strike option_type dte :
  (forall row, row ∈ chain -> Col.dte row <> dte) ->
  quote col chain strike option_type dte
  = Raise (ValueError (OptionNotFound option_type strike dte)).
Proof.
  intros Hall. unfold quote.
  destruct (List.filter _ chain) as [|row rest] eqn:E; [reflexivity|].
  assert (In row (List.filter
                    (fun row => strike_is strike row && type_is option_type row
                                && dte_is dte row) chain)) as Hrow
    by (rewrite E; now left).
  apply filter_In in Hrow as [Hin Hm].
  apply andb_true_iff in Hm as [_ Hd]. apply Z.eqb_eq in Hd.
  apply list_elem_of_In in Hin. now apply Hall in Hin.
Qed.

(** Run the next call of a builder in the goal; the second goal is the
    one where the callee raised. *)
Ltac goal_call lem :=
  let s1 := fresh "s" in
  let E := fresh "E" in
  let X := fresh "X" in
  let v := fresh "v" in
  let e := fresh "e" in
  let R := fresh "R" in
  rewrite run_bind;
  destruct lem as (s1 & E & X);
  match type of E with
  | _ = (?res, _) =>
      rewrite E; clear E;
      destruct res as [v|e] eqn:R; cbv beta iota
  end.

Lemma nearest_raises key option_type rows e :
  nearest key option_type rows = Raise e ->
  e = ValueError (NoOptionsAvailable option_type).
Proof. destruct rows; cbn; congruence. Qed.

Lemma quote_raises col chain strike option_type dte e :
  quote col chain strike option_type dte = Raise e ->
  e = ValueError (OptionNotFound option_type strike dte).
Proof. unfold quote. destruct (List.filter _ chain); congruence. Qed.

(** C10.  In the calendar and diagonal builders [near_dte] is the
    available DTE nearest 21 and [far_dte] the one nearest 45 among the
    available DTEs beyond [near_dte + 14].  When every DTE of the chain
    is within [near_dte + 14], [far_dte] is [near_dte + 30], no row of
    the chain has it, the bid and ask lookups at [far_dte] raise
    "Option not found", and both builders end in a [ValueError] instead
    of a trade. *)
Theorem calendar_diagonal_far_dte (chain : DataFrame) (near : Z) :
  nearest_dte chain 21 = Ok near ->
  let far := select_far_dte (available_dtes chain) near in
  (near ∈ available_dtes chain
   /\ forall x, x ∈ available_dtes chain -> (Z.abs (near - 21) <= Z.abs (x - 21))%Z)
  /\ ((exists x, x ∈ available_dtes chain /\ (near + 14 < x)%Z) ->
      far ∈ available_dtes chain /\ (near + 14 < far)%Z
      /\ forall x, x ∈ available_dtes chain -> (near + 14 < x)%Z ->
                   (Z.abs (far - 45) <= Z.abs (x - 45))%Z)
  /\ ((forall row, row ∈ chain -> (Col.dte row <= near + 14)%Z) ->
      far = (near + 30)%Z
      /\ (forall row, row ∈ chain -> Col.dte row <> far)
      /\ (forall s r strike option_type,
            frames s !! r = Some chain ->
            exists s',
              _get_option_bid r strike option_type far s
              = (Raise (ValueError (OptionNotFound option_type strike far)), s'))
      /\ (forall s r strike option_type,
            frames s !! r = Some chain ->
            exists s',
              _get_option_cost r strike option_type far s
              = (Raise (ValueError (OptionNotFound option_type strike far)), s'))
      /\ (forall s r features current_price,
            frames s !! r = Some chain ->
            exists msg s',
              _generate_calendar_spread r features current_price s
              = (Raise (ValueError msg), s')
              /\ (msg = NoOptionsAvailable call
                  \/ (exists t k, msg = OptionNotFound t k near)
                  \/ (exists t k, msg = OptionNotFound t k far)))
      /\ (forall s r features current_price,
            frames s !! r = Some chain ->
            exists msg s',
              _generate_diagonal_spread r features current_price s
              = (Raise (ValueError msg), s')
              /\ ((exists t, msg = NoOptionsAvailable t)
                  \/ (exists t k, msg = OptionNotFound t k far)))).
Proof.
  intros Hnear far.
  split; [now apply nearest_dte_least|].
  split; [apply select_far_dte_chosen|].
  intros Hwithin.
  assert (far = (near + 30)%Z) as Hfar.
  { apply select_far_dte_fabricated. intros x Hx.
    apply available_dtes_elem in Hx as (row & Hrow & <-). now apply Hwithin. }
  assert (forall row, row ∈ chain -> Col.dte row <> far) as Habsent.
  { intros row Hrow. apply Hwithin in Hrow. lia. }
  assert (forall col strike option_type,
             quote col chain strike option_type far
             = Raise (ValueError (OptionNotFound option_type strike far))) as Hquote.
  { intros. now apply quote_missing. }
  split; [exact Hfar|]. split; [exact Habsent|].
  split; [|split; [|split]].
  - intros s r strike option_type H.
    destruct (run_get_option_bid s r chain strike option_type far H) as (s' & E & _).
    exists s'. now rewrite E, Hquote.
  - intros s r strike option_type H.
    destruct (run_get_option_cost s r chain strike option_type far H) as (s' & E & _).
    exists s'. now rewrite E, Hquote.
  - intros s r features current_price H.
    unfold _generate_calendar_spread.
    rewrite run_bind, (run_unique_dte _ _ _ H). cbv beta iota zeta.
    rewrite run_bind, run_py_min_dte.
    change (match sorted (unique (map Col.dte chain)) with
            | [] => Raise (ValueError MinEmptySequence)
            | x :: l => Ok (first_min Z.ltb (fun x => Z.abs (x - 21)) x l)
            end) with (nearest_dte chain 21).
    rewrite Hnear. cbv beta iota.
    fold (available_dtes chain). fold far.
    goal_call (run_find_strike_by_delta s r chain 0.50 call near H).
    2:{ apply nearest_raises in R as ->. do 2 eexists. split; [reflexivity|]. now left. }
    pose proof (extends_lookup _ _ _ _ X H) as H1.
    set (option_type := if Num.ltb 50 _ then call else put).
    goal_call (run_get_option_bid s0 r chain v option_type near H1).
    2:{ apply quote_raises in R0 as ->. do 2 eexists. split; [reflexivity|].
        right. left. eauto. }
    pose proof (extends_lookup _ _ _ _ X0 H1) as H2.
    rewrite run_bind.
    destruct (run_get_option_cost s1 r chain v option_type far H2) as (s2 & E & _).
    rewrite E, Hquote. do 2 eexists. split; [reflexivity|]. right. right. eauto.
  - intros s r features current_price H.
    unfold _generate_diagonal_spread.
    rewrite run_bind, (run_unique_dte _ _ _ H). cbv beta iota zeta.
    rewrite run_bind, run_py_min_dte.
    change (match sorted (unique (map Col.dte chain)) with
            | [] => Raise (ValueError MinEmptySequence)
            | x :: l => Ok (first_min Z.ltb (fun x => Z.abs (x - 21)) x l)
            end) with (nearest_dte chain 21).
    rewrite Hnear. cbv beta iota.
    fold (available_dtes chain). fold far.
    destruct (if Num.ltb 55 _ then _ else _) as [[option_type long_delta] short_delta].
    goal_call (run_find_strike_by_delta s r chain long_delta option_type far H).
    2:{ apply nearest_raises in R as ->. do 2 eexists. split; [reflexivity|]. left. eauto. }
    pose proof (extends_lookup _ _ _ _ X H) as H1.
    goal_call (run_find_strike_by_delta s0 r chain short_delta option_type near H1).
    2:{ apply nearest_raises in R0 as ->. do 2 eexists. split; [reflexivity|]. left. eauto. }
    pose proof (extends_lookup _ _ _ _ X0 H1) as H2.
    rewrite run_bind.
    destruct (run_get_option_cost s1 r chain v option_type far H2) as (s2 & E & _).
    rewrite E, Hquote. do 2 eexists. split; [reflexivity|]. right. eauto.
Qed.

Lemma calendar_diagonal_far_dte_witness :
  nearest_dte Examples.chain 21 = Ok 21%Z
  /\ (forall row, row ∈ Examples.chain -> (Col.dte row <= 21 + 14)%Z)
  /\ select_far_dte (available_dtes Examples.chain) 21 = 51%Z
  /\ exists msg s',
      _generate_calendar_spread Examples.option_chain Examples.no_features 105
        Examples.store = (Raise (ValueError msg), s')
      /\ (msg = NoOptionsAvailable call
          \/ (exists t k, msg = OptionNotFound t k 21%Z)
          \/ (exists t k, msg = OptionNotFound t k
                              (select_far_dte (available_dtes Examples.chain) 21))).
Proof.
  assert (nearest_dte Examples.chain 21 = Ok 21%Z) as Hnear by reflexivity.
  assert (forall row, row ∈ Examples.chain -> (Col.dte row <= 21 + 14)%Z) as Hwithin.
  { intros row Hrow. unfold Examples.chain in Hrow.
    rewrite !elem_of_cons, elem_of_nil in Hrow.
    destruct Hrow as [-> | [-> | [-> | []]]]; discriminate. }
  assert (frames Examples.store !! Examples.option_chain = Some Examples.chain) as H
    by reflexivity.
  split; [exact Hnear|]. split; [exact Hwithin|].
  destruct (calendar_diagonal_far_dte Examples.chain 21 Hnear)
    as (_ & _ & Hfab).
  destruct (Hfab Hwithin) as (Hfar & _ & _ & _ & Hcal & _).
  split; [exact Hfar|].
  exact (Hcal Examples.store Examples.option_chain Examples.no_features 105 H).
Defined.

End BuilderFacts.

(** ** Absent feature keys *)

Module MissingFeatures.

Import StrategySelector ParameterGenerator Reading StrategySelectorFacts.
Local Open Scope string_scope.

Lemma fill_defaults_present f k v :
  f !! k = Some v -> fill_defaults f !! k = Some v.
Proof.
  intros H. unfold fill_defaults.
  induction required_features as [|[k1 d1] reqs IH]; [exact H|].
  cbn [foldr fst snd]. set (f' := foldr _ f reqs) in *.
  destruct (f' !! k1) eqn:E1; [exact IH|].
  rewrite lookup_insert_ne; [exact IH|]. congruence.
Qed.

Lemma fill_defaults_is_Some f k d :
  (k, d) ∈ required_features -> is_Some (fill_defaults f !! k).
Proof.
  unfold fill_defaults.
  induction required_features as [|[k1 d1] reqs IH]; intros Hin.
  - now apply elem_of_nil in Hin.
  - cbn [foldr fst snd]. set (f' := foldr _ f reqs) in *.
    apply elem_of_cons in Hin as [[= <- <-] | Hin].
    + destruct (f' !! k) eqn:E1; [now rewrite E1|].
      rewrite lookup_insert_eq. eauto.
    + destruct (IH Hin) as [x Hx].
      destruct (f' !! k1) eqn:E1; [eauto|].
      rewrite lookup_insert_ne; [eauto|]. congruence.
Qed.

Lemma fill_defaults_absent f k d :
  (k, d) ∈ required_features -> f !! k = None -> fill_defaults f !! k = Some d.
Proof.
  intros Hin Hnone.
  destruct (fill_defaults_is_Some f k d Hin) as [x Hx].
  pose proof (features_get_fill f k d Hin) as Hget.
  unfold features_get in Hget. rewrite Hx, Hnone in Hget. cbn in Hget.
  now rewrite Hx, Hget.
Qed.

Ltac read_defaults :=
  rewrite ?features_get_fill by (unfold required_features; set_solver).

Lemma classify_fill_defaults f :
  _classify_trend_strength (fill_defaults f) = _classify_trend_strength f.
Proof. unfold _classify_trend_strength. read_defaults. reflexivity. Qed.

Lemma generate_fill_defaults f strategy option_chain current_price :
  generate strategy option_chain (fill_defaults f) current_price
  = generate strategy option_chain f current_price.
Proof.
  unfold generate, generators. cbn [route].
  repeat match goal with
    | |- context [String.eqb strategy ?name] => destruct (String.eqb strategy name)
    end; try reflexivity.
  all: unfold _generate_long_call, _generate_long_put, _generate_bull_call_spread,
         _generate_bear_put_spread, _generate_long_straddle, _generate_long_strangle,
         _generate_iron_condor, _generate_iron_butterfly, _generate_calendar_spread,
         _generate_diagonal_spread;
       rewrite ?classify_fill_defaults; read_defaults; reflexivity.
Qed.

(** C3, as the code has it.  A required key that is absent is read as
    its fixed default (iv_rank 50, adx_14 20, trend_regime 2, rsi_14 50,
    price_vs_sma_20 0): strategy selection and parameter generation
    behave on a snapshot exactly as on the snapshot with the absent keys
    filled in with these defaults. *)
Theorem absent_features_read_as_defaults (features : Features) :
  (forall k v, features !! k = Some v -> fill_defaults features !! k = Some v)
  /\ (forall k d, (k, d) ∈ required_features -> features !! k = None ->
                 fill_defaults features !! k = Some d)
  /\ select_strategy_from_features features
     = select_strategy_from_features (fill_defaults features)
  /\ (forall strategy option_chain current_price,
        generate strategy option_chain features current_price
        = generate strategy option_chain (fill_defaults features) current_price).
Proof.
  split; [apply fill_defaults_present|].
  split; [apply fill_defaults_absent|].
  split; [now rewrite select_fill_defaults|].
  intros. now rewrite generate_fill_defaults.
Qed.

Lemma absent_features_read_as_defaults_witness :
  Examples.no_features !! "rsi_14" = None
  /\ fill_defaults Examples.no_features !! "rsi_14" = Some 50
  /\ select_strategy_from_features Examples.no_features
     = select_strategy_from_features (fill_defaults Examples.no_features).
Proof.
  assert (Examples.no_features !! "rsi_14" = None) as H by reflexivity.
  assert (("rsi_14", 50) ∈ required_features) as Hin.
  { unfold required_features. do 3 apply list_elem_of_further. apply list_elem_of_here. }
  destruct (absent_features_read_as_defaults Examples.no_features)
    as (_ & Habsent & Hsel & _).
  split; [exact H|]. split; [exact (Habsent _ _ Hin H) | exact Hsel].
Defined.

(** C3 as stated fails: with every required key absent the engine
    returns a label and the generator a trade, both computed from the
    defaults. *)
Lemma absent_features_not_rejected :
  Examples.no_features !! "iv_rank" = None
  /\ Examples.no_features !! "adx_14" = None
  /\ Examples.no_features !! "trend_regime" = None
  /\ Examples.no_features !! "rsi_14" = None
  /\ Examples.no_features !! "price_vs_sma_20" = None
  /\ select_strategy_from_features Examples.no_features = "IRON_CONDOR"
  /\ exists d s',
      generate "LONG_CALL" Examples.option_chain Examples.no_features 105
        Examples.store = (Ok d, s')
      /\ field d "iv_rank" = Some 50
      /\ field d "strike" = Some 110.
Proof.
  do 6 (split; [reflexivity|]).
  destruct (generate "LONG_CALL" Examples.option_chain Examples.no_features 105
              Examples.store) as [[d|e] s'] eqn:Hrun;
    vm_compute in Hrun; [|discriminate Hrun].
  injection Hrun as <- _. do 2 eexists. split; [reflexivity|]. split; reflexivity.
Qed.

End MissingFeatures.

(** ** Outcomes of the generator's calls *)

Module OutcomeFacts.

Import Builtins DF ParameterGenerator Reading Outcome.
Import RiskManagerFacts StoreFacts SelectorFacts BuilderFacts.
Local Open Scope string_scope.

Section Runs.

Context (rm : RiskManager) (chain : DataFrame) (r : ref).

Lemma runs_ret {A} (a : A) (post : A -> Prop) :
  post a -> runs rm chain r (mret a) post.
Proof.
  intros H s _ _. exists (Ok a), s. split; [reflexivity|].
  split; [apply extends_refl | exact H].
Qed.

Lemma runs_raise {A} msg (post : A -> Prop) :
  lookup_failure msg -> runs rm chain r (raise (ValueError msg)) post.
Proof.
  intros Hmsg s _ _. exists (Raise (ValueError msg)), s. split; [reflexivity|].
  split; [apply extends_refl | exact Hmsg].
Qed.

Lemma runs_bind {A B} (m : Py A) (k : A -> Py B) (mid : A -> Prop) (post : B -> Prop) :
  runs rm chain r m mid ->
  (forall a, mid a -> runs rm chain r (k a) post) ->
  runs rm chain r (m ≫= k) post.
Proof.
  intros Hm Hk s Hrm Hr.
  destruct (Hm s Hrm Hr) as (res & s1 & E & X & Hres).
  rewrite run_bind, E. destruct res as [a|e].
  - destruct (Hk a Hres s1) as (res' & s2 & E' & X' & Hres').
    + destruct X as [-> _]. exact Hrm.
    + eapply extends_lookup; eassumption.
    + exists res', s2. split; [exact E'|].
      split; [eapply extends_trans; eassumption | exact Hres'].
  - exists (Raise e), s1. split; [reflexivity|]. split; [exact X | exact Hres].
Qed.

Lemma runs_weaken {A} (m : Py A) (post post' : A -> Prop) :
  runs rm chain r m post -> (forall a, post a -> post' a) ->
  runs rm chain r m post'.
Proof.
  intros Hm Himp s Hrm Hr.
  destruct (Hm s Hrm Hr) as (res & s1 & E & X & Hres).
  exists res, s1. split; [exact E|]. split; [exact X|].
  destruct res; [now apply Himp | exact Hres].
Qed.

(** A run lemma of the selectors gives the outcome, provided that the
    exceptions of the reading are [ValueError]s. *)
Lemma runs_of_reading {A} (m : Py A) (reading : Result A) :
  (forall s, frames s !! r = Some chain ->
             exists s', m s = (reading, s') /\ extends s s') ->
  (forall e, reading = Raise e -> exists msg, e = ValueError msg /\ lookup_failure msg) ->
  runs rm chain r m (fun a => reading = Ok a).
Proof.
  intros Hrun Herr s _ Hr.
  destruct (Hrun s Hr) as (s' & E & X).
  exists reading, s'. split; [exact E|]. split; [exact X|].
  destruct reading as [a|e]; [reflexivity|].
  destruct (Herr e eq_refl) as (msg & -> & Hmsg). exact Hmsg.
Qed.

Lemma runs_select_optimal_dte strategy iv_rank trend_strength :
  runs rm chain r (_select_optimal_dte r strategy iv_rank trend_strength)
    (fun dte => nearest_dte chain (target_dte strategy iv_rank trend_strength) = Ok dte).
Proof.
  apply runs_of_reading.
  - intros s Hr. exists s.
    split; [now apply run_select_optimal_dte | apply extends_refl].
  - unfold nearest_dte. intros e. destruct (available_dtes chain); [|discriminate].
    intros [= <-]. eexists. split; [reflexivity | exact I].
Qed.

Lemma runs_find_strike_by_delta target_delta option_type dte :
  runs rm chain r (_find_strike_by_delta r target_delta option_type dte)
    (fun strike => strike_by_delta chain target_delta option_type dte = Ok strike).
Proof.
  apply runs_of_reading.
  - intros s Hr. now apply run_find_strike_by_delta.
  - intros e He. apply nearest_raises in He. subst. eexists. split; [reflexivity | exact I].
Qed.

Lemma runs_find_strike_by_price target_price option_type dte :
  runs rm chain r (_find_strike_by_price r target_price option_type dte)
    (fun strike => strike_by_price chain target_price option_type dte = Ok strike).
Proof.
  apply runs_of_reading.
  - intros s Hr. now apply run_find_strike_by_price.
  - intros e He. apply nearest_raises in He. subst. eexists. split; [reflexivity | exact I].
Qed.

Lemma runs_get_option_cost strike option_type dte :
  runs rm chain r (_get_option_cost r strike option_type dte)
    (fun cost => quote Col.ask chain strike option_type dte = Ok cost).
Proof.
  apply runs_of_reading.
  - intros s Hr. now apply run_get_option_cost.
  - intros e He. apply quote_raises in He. subst. eexists. split; [reflexivity | exact I].
Qed.

Lemma runs_get_option_bid strike option_type dte :
  runs rm chain r (_get_option_bid r strike option_type dte)
    (fun credit => quote Col.bid chain strike option_type dte = Ok credit).
Proof.
  apply runs_of_reading.
  - intros s Hr. now apply run_get_option_bid.
  - intros e He. apply quote_raises in He. subst. eexists. split; [reflexivity | exact I].
Qed.

Lemma runs_calculate_position_size max_loss_per_contract :
  runs rm chain r (RiskManagerM.calculate_position_size max_loss_per_contract)
    (fun n => n = position_size rm max_loss_per_contract).
Proof.
  intros s Hrm Hr. rewrite run_position_size, Hrm.
  destruct (sizing_overflows rm max_loss_per_contract) eqn:E.
  - exists (Raise OverflowError), s. split; [reflexivity|].
    split; [apply extends_refl | now exists max_loss_per_contract].
  - exists (Ok (position_size rm max_loss_per_contract)), s. split; [reflexivity|].
    split; [apply extends_refl | reflexivity].
Qed.

(** [a / x if x > 0 else 0] *)
Lemma runs_guarded_ratio a x :
  runs rm chain r (if Num.ltb 0 x then truediv a x else mret 0)
    (fun q => q = if Num.ltb 0 x then a / x else 0).
Proof.
  destruct (Num.ltb 0 x) eqn:E; reflect_cmp.
  - intros s _ _. exists (Ok (a / x)), s.
    split; [apply truediv_ok; lra|]. split; [apply extends_refl | reflexivity].
  - now apply runs_ret.
Qed.

Lemma runs_unique_dte :
  runs rm chain r (unique_dte r) (fun dtes => dtes = unique (map Col.dte chain)).
Proof.
  intros s _ Hr. exists (Ok (unique (map Col.dte chain))), s.
  split; [now apply run_unique_dte|]. split; [apply extends_refl | reflexivity].
Qed.

Lemma runs_near_dte :
  runs rm chain r (py_min (fun x => Z.abs (x - 21)) (sorted (unique (map Col.dte chain))))
    (fun near => nearest_dte chain 21 = Ok near).
Proof.
  intros s _ _. exists (nearest_dte chain 21), s.
  split; [apply run_py_min_dte|]. split; [apply extends_refl|].
  unfold nearest_dte, available_dtes.
  destruct (sorted (unique (map Col.dte chain))); [exact I | reflexivity].
Qed.

(** From an outcome to a run that returned. *)
Lemma runs_returned {A} (m : Py A) (post : A -> Prop) s a s' :
  runs rm chain r m post ->
  risk_manager s = rm -> frames s !! r = Some chain ->
  m s = (Ok a, s') ->
  post a /\ extends s s'.
Proof.
  intros Hm Hrm Hr Hrun.
  destruct (Hm s Hrm Hr) as (res & s1 & E & X & Hres).
  rewrite Hrun in E. injection E as <- <-. now split.
Qed.

End Runs.

End OutcomeFacts.

(** ** [generate]: a trade, a [ValueError] or the [OverflowError] of the sizing *)

Module GenerateFacts.

Import Builtins DF ParameterGenerator Reading Outcome.
Import RiskManagerFacts StoreFacts SelectorFacts BuilderFacts OutcomeFacts.
Local Open Scope string_scope.

Lemma position_size_bounds rm max_loss_per_contract :
  (1 <= max_contracts rm)%Z ->
  (1 <= position_size rm max_loss_per_contract <= max_contracts rm)%Z.
Proof.
  intros H. unfold position_size.
  destruct (Num.leb max_loss_per_contract 0); lia.
Qed.

(** Run a builder call by call. *)
Ltac run_call :=
  match goal with
  | |- runs _ _ _ (mbind _ (_select_optimal_dte _ _ _ _)) _ =>
      eapply runs_bind; [apply runs_select_optimal_dte|]
  | |- runs _ _ _ (mbind _ (_find_strike_by_delta _ _ _ _)) _ =>
      eapply runs_bind; [apply runs_find_strike_by_delta|]
  | |- runs _ _ _ (mbind _ (_find_strike_by_price _ _ _ _)) _ =>
      eapply runs_bind; [apply runs_find_strike_by_price|]
  | |- runs _ _ _ (mbind _ (_get_option_cost _ _ _ _)) _ =>
      eapply runs_bind; [apply runs_get_option_cost|]
  | |- runs _ _ _ (mbind _ (_get_option_bid _ _ _ _)) _ =>
      eapply runs_bind; [apply runs_get_option_bid|]
  | |- runs _ _ _ (mbind _ (RiskManagerM.calculate_position_size _)) _ =>
      eapply runs_bind; [apply runs_calculate_position_size|]
  | |- runs _ _ _ (mbind _ (if Num.ltb 0 _ then truediv _ _ else mret 0)) _ =>
      eapply runs_bind; [apply runs_guarded_ratio|]
  | |- runs _ _ _ (mbind _ (DF.unique_dte _)) _ =>
      eapply runs_bind; [apply runs_unique_dte|]
  | |- runs _ _ _ (mbind _ (py_min _ (sorted (unique (map Col.dte _))))) _ =>
      eapply runs_bind; [apply runs_near_dte|]
  end;
  let H := fresh "H" in intros ? H; cbv beta in H.

Ltac run_calls :=
  repeat first
    [ run_call
    | progress cbv zeta
    | match goal with
      | H : ?x = unique _ |- _ => subst x
      | |- runs _ _ _ (match ?c with _ => _ end) _ => destruct c
      end ].

Lemma generate_known rm chain r strategy features current_price :
  strategy ∈ StrategySelector.strategy_labels ->
  (1 <= max_contracts rm)%Z ->
  runs rm chain r (generate strategy r features current_price)
    (well_formed_trade rm strategy).
Proof.
  intros Hin Hmax. unfold generate, generators. cbn [route].
  repeat match goal with
    | |- context [String.eqb strategy ?name] =>
        destruct (String.eqb_spec strategy name) as [->|?]
    end.
  11: { exfalso. unfold StrategySelector.strategy_labels in Hin.
        rewrite !elem_of_cons, elem_of_nil in Hin. intuition congruence. }
  all: unfold _generate_long_call, _generate_long_put, _generate_bull_call_spread,
         _generate_bear_put_spread, _generate_long_straddle, _generate_long_strangle,
         _generate_iron_condor, _generate_iron_butterfly, _generate_calendar_spread,
         _generate_diagonal_spread.
  all: run_calls; apply runs_ret; subst.
  all: split; [reflexivity|].
  all: split; [eexists; split; [reflexivity|]; apply position_size_bounds; exact Hmax|].
  all: split; eexists; reflexivity.
Qed.




(** X2.  Every label the rule engine returns has a builder: feeding the
    engine's choice for a snapshot into [generate] yields a trade for
    that label, a [ValueError] about the chain or the [OverflowError]
    of [calculate_position_size], never "Unknown strategy". *)
Theorem selected_strategy_is_routed
    (s : Store) (r : ref) (chain : DataFrame) (features : Features)
    (current_price : Q) :
  frames s !! r = Some chain ->
  (1 <= max_contracts (risk_manager s))%Z ->
  let strategy := StrategySelector.select_strategy_from_features features in
  (exists builder, route generators strategy = Some builder)
  /\ exists res s',
      generate strategy r features current_price s = (res, s')
      /\ match res with
         | Ok d => well_formed_trade (risk_manager s) strategy d
         | Raise (ValueError msg) => lookup_failure msg
         | Raise OverflowError => sizing_failure (risk_manager s)
         | Raise _ => False
         end.
Proof.
  intros Hr Hmax strategy.
  assert (strategy ∈ StrategySelector.strategy_labels) as Hin.
  { unfold strategy. rewrite StrategySelectorFacts.select_as_fold.
    apply StrategySelectorFacts.fold_label;
      [apply StrategySelectorFacts.rule_labels | apply StrategySelectorFacts.fallback_label]. }
  split.
  - clearbody strategy. unfold StrategySelector.strategy_labels in Hin.
    rewrite !elem_of_cons, elem_of_nil in Hin.
    destruct_or!; subst; try contradiction; eexists; reflexivity.
  - destruct (generate_known (risk_manager s) chain r strategy features current_price
                Hin Hmax s eq_refl Hr) as (res & s' & E & _ & Hres).
    now exists res, s'.
Qed.

Lemma selected_strategy_is_routed_witness :
  frames Examples.store !! Examples.option_chain = Some Examples.chain
  /\ (1 <= max_contracts (risk_manager Examples.store))%Z
  /\ exists builder,
      route generators
        (StrategySelector.select_strategy_from_features Examples.trending_low_iv)
      = Some builder.
Proof.
  assert (frames Examples.store !! Examples.option_chain = Some Examples.chain) as H
    by reflexivity.
  assert (1 <= max_contracts (risk_manager Examples.store))%Z as Hmax by discriminate.
  split; [exact H|]. split; [exact Hmax|].
  exact (proj1 (selected_strategy_is_routed Examples.store Examples.option_chain
                  Examples.chain Examples.trending_low_iv 105 H Hmax)).
Defined.

End GenerateFacts.

(** ** Position sizing against the risk budget *)

Module SizingFacts.

Import RiskManagerM Reading Outcome RiskManagerFacts OutcomeFacts.

Lemma Qfloor_pos_ge_1 x : 1 <= x -> (1 <= Qfloor x)%Z.
Proof.
  intros H. change 1%Z with (Qfloor 1). now apply Qfloor_resp_le.
Qed.

Lemma Qfloor_lt_1 x : 0 <= x -> x < 1 -> Qfloor x = 0%Z.
Proof.
  intros H0 H1.
  assert (0 <= Qfloor x)%Z by (change 0%Z with (Qfloor 0); now apply Qfloor_resp_le).
  assert (Qfloor x < 1)%Z; [|lia].
  rewrite Zlt_Qlt. eapply Qle_lt_trans; [apply Qfloor_le | exact H1].
Qed.

Lemma ratio_ge_1 budget loss : 0 < loss -> loss <= budget -> 1 <= budget / loss.
Proof. intros Hl Hb. apply Qle_shift_div_l; lra. Qed.

Lemma ratio_lt_1 budget loss : 0 < loss -> budget < loss -> budget / loss < 1.
Proof. intros Hl Hb. apply Qlt_shift_div_r; lra. Qed.

Lemma ratio_nonneg budget loss : 0 <= budget -> 0 < loss -> 0 <= budget / loss.
Proof. intros Hb Hl. apply Qle_shift_div_l; lra. Qed.

Lemma ratio_mult budget loss : 0 < loss -> budget / loss * loss == budget.
Proof. intros Hl. field. lra. Qed.

(** The count for a positive loss, without the guards. *)
Lemma position_size_positive rm loss :
  0 <= max_risk_amount rm -> 0 < loss ->
  position_size rm loss
  = Z.max 1 (Z.min (Qfloor (max_risk_amount rm / loss)) (max_contracts rm)).
Proof.
  intros Hb Hl. unfold position_size.
  destruct (Num.leb loss 0) eqn:E; reflect_cmp; [lra|].
  now rewrite NumFacts.py_int_nonneg by now apply ratio_nonneg.
Qed.

(** With a budget that is not negative, a positive loss overflows the
    sizing exactly when the quotient reaches the threshold. *)
Lemma sizing_overflows_false rm loss :
  0 <= max_risk_amount rm -> 0 < loss ->
  max_risk_amount rm / loss < Num.float_overflow ->
  sizing_overflows rm loss = false.
Proof.
  intros Hb Hl Hlt. unfold sizing_overflows.
  apply andb_false_iff. right. apply overflows_false.
  now rewrite Qabs_pos by now apply ratio_nonneg.
Qed.


Lemma run_sizing_returns s loss :
  0 <= max_risk_amount (risk_manager s) -> 0 < loss ->
  max_risk_amount (risk_manager s) / loss < Num.float_overflow ->
  calculate_position_size loss s = (Ok (position_size (risk_manager s) loss), s).
Proof.
  intros Hb Hl Hlt. now rewrite run_position_size, sizing_overflows_false.
Qed.


(** The count against the budget: as many contracts as the budget
    pays for, one when it pays for none. *)
Lemma position_size_budget rm loss :
  0 < max_risk_amount rm -> (1 <= max_contracts rm)%Z -> 0 < loss ->
  let n := position_size rm loss in
  let budget := max_risk_amount rm in
  (loss <= budget ->
     inject_Z n * loss <= budget
     /\ ((n < max_contracts rm)%Z -> budget < inject_Z (n + 1) * loss))
  /\ (budget < loss -> n = 1%Z /\ budget < inject_Z n * loss).
Proof.
  intros Hb Hm Hl n budget. unfold n.
  rewrite position_size_positive by lra. fold budget. fold budget in Hb.
  pose proof (Qfloor_le (budget / loss)) as Hfl.
  pose proof (Qlt_floor (budget / loss)) as Hfu.
  pose proof (ratio_mult budget loss Hl) as Hmul.
  assert (0 <= budget / loss) as Hq0 by (apply ratio_nonneg; lra).
  pose proof (ratio_ge_1 budget loss Hl) as Hge.
  pose proof (ratio_lt_1 budget loss Hl) as Hlt1.
  set (q := budget / loss) in *. clearbody q. clearbody budget. clear n.
  split.
  - intros Hfit.
    assert (1 <= Qfloor q)%Z as H1 by (apply Qfloor_pos_ge_1, Hge; assumption).
    split.
    + assert (inject_Z (Z.max 1 (Z.min (Qfloor q) (max_contracts rm)))
              <= inject_Z (Qfloor q)) as Hle
        by (rewrite <- Zle_Qle; lia).
      nra.
    + intros Hlt.
      assert (Z.max 1 (Z.min (Qfloor q) (max_contracts rm)) = Qfloor q) as -> by lia.
      nra.
  - intros Hover.
    assert (Qfloor q = 0%Z) as Hz.
    { apply Qfloor_lt_1; [exact Hq0 | now apply Hlt1]. }
    rewrite Hz. replace (Z.max 1 (Z.min 0 (max_contracts rm))) with 1%Z by lia.
    split; [reflexivity|]. change (inject_Z 1) with 1. lra.
Qed.



(** X4.  A larger loss per contract never buys more contracts.  For
    [0 < loss <= loss'], when the quotient of budget and [loss] is
    below the float overflow threshold, both calls return, and the
    count for [loss'] is at most the count for [loss]. *)
Theorem position_size_antitone
    (rm : RiskManager) (fs : list DataFrame) (loss loss' : Q) :
  0 <= max_risk_amount rm ->
  0 < loss -> loss <= loss' ->
  max_risk_amount rm / loss < Num.float_overflow ->
  let s := mkStore rm fs in
  exists n n' : Z,
    calculate_position_size loss s = (Ok n, s)
    /\ calculate_position_size loss' s = (Ok n', s)
    /\ (n' <= n)%Z.
Proof.
  intros Hb Hl Hle Hlt s.
  assert (0 < loss') as Hl' by lra.
  assert (max_risk_amount rm / loss' <= max_risk_amount rm / loss) as Hq.
  { apply Qle_shift_div_l; [lra|].
    pose proof (ratio_mult (max_risk_amount rm) loss' Hl') as Hmul.
    pose proof (ratio_nonneg (max_risk_amount rm) loss' Hb Hl') as Hq.
    nra. }
  exists (position_size rm loss), (position_size rm loss').
  split; [now apply run_sizing_returns|].
  split; [apply run_sizing_returns; [exact Hb | exact Hl' |];
          eapply Qle_lt_trans; [exact Hq | exact Hlt]|].
  rewrite !position_size_positive by lra.
  apply Qfloor_resp_le in Hq. lia.
Qed.

Lemma position_size_antitone_witness :
  0 <= max_risk_amount default /\ 0 < 40 /\ 40 <= 90 /\
  max_risk_amount default / 40 < Num.float_overflow /\
  exists n n' : Z,
    calculate_position_size 40 (mkStore default []) = (Ok n, mkStore default [])
    /\ calculate_position_size 90 (mkStore default []) = (Ok n', mkStore default [])
    /\ (n' <= n)%Z.
Proof.
  assert (0 <= max_risk_amount default) as H1 by discriminate.
  assert (0 < 40) as H2 by reflexivity.
  assert (40 <= 90) as H3 by discriminate.
  assert (max_risk_amount default / 40 < Num.float_overflow) as H4
    by (vm_compute; reflexivity).
  repeat (split; [assumption|]).
  exact (position_size_antitone default [] 40 90 H1 H2 H3 H4).
Defined.



End SizingFacts.

(** ** Expirations, quotes and strikes *)

Module LookupFacts.

Import Builtins DF ParameterGenerator Reading Outcome.
Import RiskManagerFacts StoreFacts SelectorFacts BuilderFacts OutcomeFacts.
Local Open Scope string_scope.
Local Open Scope list_scope.

Lemma insert_sorted_ascending x l :
  StronglySorted Z.le l -> StronglySorted Z.le (insert_sorted x l).
Proof.
  induction 1 as [|y l Hs IH Hall]; cbn [insert_sorted].
  - repeat constructor.
  - destruct (Z.leb_spec x y).
    + constructor; [now constructor|].
      constructor; [exact H|]. eapply Forall_impl; [exact Hall|]. cbn. lia.
    + constructor; [exact IH|].
      apply Forall_forall. intros z Hz.
      apply insert_sorted_elem in Hz as [-> | Hz]; [lia|].
      rewrite Forall_forall in Hall. now apply Hall.
Qed.

Lemma sorted_ascending l : StronglySorted Z.le (sorted l).
Proof.
  unfold sorted. induction l as [|x l IH]; [constructor|].
  cbn [foldr]. now apply insert_sorted_ascending.
Qed.

Lemma ascending_split (l1 l2 : list Z) x y :
  StronglySorted Z.le (l1 ++ x :: l2) -> y ∈ l2 -> (x <= y)%Z.
Proof.
  induction l1 as [|z l1 IH]; cbn; intros Hs Hy.
  - apply StronglySorted_inv in Hs as [_ Hall].
    rewrite Forall_forall in Hall. now apply Hall.
  - apply StronglySorted_inv in Hs as [Hs _]. now apply IH.
Qed.

Lemma target_dte_values strategy iv_rank trend_strength :
  target_dte strategy iv_rank trend_strength ∈ [7; 14; 21; 30; 45]%Z.
Proof.
  unfold target_dte.
  repeat match goal with
    | |- context [if ?c then _ else _] => destruct c
    end; set_solver.
Qed.

(** The nearest available DTE; of two equally near, the smaller. *)
Lemma nearest_dte_spec chain target :
  match nearest_dte chain target with
  | Ok dte =>
      (exists row, row ∈ chain /\ Col.dte row = dte)
      /\ (forall row, row ∈ chain ->
            (Z.abs (dte - target) <= Z.abs (Col.dte row - target))%Z)
      /\ (forall row, row ∈ chain ->
            Z.abs (Col.dte row - target) = Z.abs (dte - target) ->
            (dte <= Col.dte row)%Z)
  | Raise e => e = ValueError MinEmptySequence /\ chain = []
  end.
Proof.
  unfold nearest_dte.
  pose proof (sorted_ascending (unique (map Col.dte chain))) as Hasc.
  pose proof (available_dtes_elem chain) as Helem.
  unfold available_dtes in *.
  destruct (sorted (unique (map Col.dte chain))) as [|d rest] eqn:E.
  - split; [reflexivity|]. destruct chain as [|row chain]; [reflexivity|].
    exfalso. assert (Col.dte row ∈ @nil Z) as Hin; [|now apply elem_of_nil in Hin].
    apply Helem. exists row. split; [apply list_elem_of_here | reflexivity].
  - destruct (FirstMin.first_min_split Z.ltb (fun x => Z.abs (x - target))
                FirstMin.Zltb_trans FirstMin.Zltb_cotrans d rest)
      as (before & after & Hsplit & Hb & Ha).
    set (best := first_min Z.ltb (fun x => Z.abs (x - target)) d rest) in *.
    assert (best ∈ d :: rest) as Hbest
      by (rewrite Hsplit; apply elem_of_app; right; apply list_elem_of_here).
    split; [now apply Helem|]. split.
    + intros row Hrow.
      assert (Col.dte row ∈ d :: rest) as Hin by (apply Helem; eauto).
      rewrite Hsplit in Hin. apply elem_of_app in Hin as [Hin | Hin].
      * apply Hb, Z.ltb_lt in Hin. lia.
      * apply elem_of_cons in Hin as [-> | Hin]; [lia|].
        apply Ha, Z.ltb_ge in Hin. exact Hin.
    + intros row Hrow Heq.
      assert (Col.dte row ∈ d :: rest) as Hin by (apply Helem; eauto).
      rewrite Hsplit in Hin, Hasc. apply elem_of_app in Hin as [Hin | Hin].
      * apply Hb, Z.ltb_lt in Hin. lia.
      * apply elem_of_cons in Hin as [-> | Hin]; [lia|].
        eapply ascending_split; eassumption.
Qed.

(** X6.  [_select_optimal_dte] aims at 7, 14, 21, 30 or 45 days and
    returns the DTE of the chain nearest to that target, the smaller
    one on a tie; on an empty chain it raises the [ValueError] of
    [min] on an empty sequence.  The store is unchanged. *)
Theorem select_optimal_dte_nearest
    (s : Store) (r : ref) (chain : DataFrame)
    (strategy : string) (iv_rank : Q) (trend_strength : string) :
  frames s !! r = Some chain ->
  let target := target_dte strategy iv_rank trend_strength in
  target ∈ [7; 14; 21; 30; 45]%Z
  /\ exists res,
      _select_optimal_dte r strategy iv_rank trend_strength s = (res, s)
      /\ match res with
         | Ok dte =>
             (exists row, row ∈ chain /\ Col.dte row = dte)
             /\ (forall row, row ∈ chain ->
                   (Z.abs (dte - target) <= Z.abs (Col.dte row - target))%Z)
             /\ (forall row, row ∈ chain ->
                   Z.abs (Col.dte row - target) = Z.abs (dte - target) ->
                   (dte <= Col.dte row)%Z)
         | Raise e => e = ValueError MinEmptySequence /\ chain = []
         end.
Proof.
  intros Hr target. split; [apply target_dte_values|].
  exists (nearest_dte chain target).
  split; [now apply run_select_optimal_dte | apply nearest_dte_spec].
Qed.

Lemma select_optimal_dte_nearest_witness :
  frames Examples.store !! Examples.option_chain = Some Examples.chain
  /\ target_dte "IRON_CONDOR" 80 "WEAK" ∈ [7; 14; 21; 30; 45]%Z
  /\ exists res,
      _select_optimal_dte Examples.option_chain "IRON_CONDOR" 80 "WEAK" Examples.store
      = (res, Examples.store).
Proof.
  assert (frames Examples.store !! Examples.option_chain = Some Examples.chain) as H
    by reflexivity.
  split; [exact H|].
  destruct (select_optimal_dte_nearest Examples.store Examples.option_chain
              Examples.chain "IRON_CONDOR" 80 "WEAK" H) as (Ht & res & E & _).
  split; [exact Ht|]. exists res. exact E.
Defined.

(** *** Quotes *)

Lemma filter_head {A} (p : A -> bool) (l : list A) x rest :
  List.filter p l = x :: rest ->
  exists before after,
    l = before ++ x :: after /\ p x = true /\ forall y, y ∈ before -> p y = false.
Proof.
  induction l as [|a l IH]; cbn [List.filter]; [discriminate|].
  destruct (p a) eqn:E.
  - intros [= -> _]. exists [], l. split; [reflexivity|]. split; [exact E|].
    intros y Hy. now apply elem_of_nil in Hy.
  - intros H. destruct (IH H) as (before & after & -> & Hx & Hb).
    exists (a :: before), after. split; [reflexivity|]. split; [exact Hx|].
    intros y Hy. apply elem_of_cons in Hy as [-> | Hy]; [exact E | now apply Hb].
Qed.

Lemma filter_skip {A} (p : A -> bool) (before : list A) x after :
  (forall y, y ∈ before -> p y = false) -> p x = true ->
  List.filter p (before ++ x :: after) = x :: List.filter p after.
Proof.
  intros Hb Hx. induction before as [|a before IH]; cbn [app List.filter].
  - now rewrite Hx.
  - rewrite (Hb a) by apply list_elem_of_here.
    apply IH. intros y Hy. apply Hb. now apply list_elem_of_further.
Qed.

Lemma contract_mask_true strike option_type dte row :
  strike_is strike row && type_is option_type row && dte_is dte row = true
  <-> Col.strike row == strike /\ Col.type row = option_type /\ Col.dte row = dte.
Proof.
  unfold strike_is, type_is, dte_is.
  rewrite !andb_true_iff, NumFacts.eqb_true, bool_decide_eq_true, Z.eqb_eq. tauto.
Qed.

Lemma quote_first_match col chain strike option_type dte before row after :
  chain = before ++ row :: after ->
  (Col.strike row == strike /\ Col.type row = option_type /\ Col.dte row = dte) ->
  (forall y, y ∈ before ->
     ~ (Col.strike y == strike /\ Col.type y = option_type /\ Col.dte y = dte)) ->
  quote col chain strike option_type dte = Ok (col row).
Proof.
  intros -> Hrow Hbefore. unfold quote.
  rewrite filter_skip; [reflexivity| |now apply contract_mask_true].
  intros y Hy. apply not_true_is_false. rewrite contract_mask_true. now apply Hbefore.
Qed.

Lemma quote_none col chain strike option_type dte :
  (forall y, y ∈ chain ->
     ~ (Col.strike y == strike /\ Col.type y = option_type /\ Col.dte y = dte)) ->
  quote col chain strike option_type dte
  = Raise (ValueError (OptionNotFound option_type strike dte)).
Proof.
  intros Hnone. unfold quote.
  destruct (List.filter _ chain) as [|x rest] eqn:E; [reflexivity|].
  apply filter_head in E as (before & after & -> & Hx & _).
  apply contract_mask_true in Hx. exfalso.
  apply (Hnone x); [|exact Hx]. apply elem_of_app. right. apply list_elem_of_here.
Qed.

(** X7.  [_get_option_cost] and [_get_option_bid] read the ask and the
    bid of the first row of the chain with the strike, type and DTE
    asked for, and raise "Option not found" when no row has them; the
    frames alive before the call are unchanged. *)
Theorem option_quotes_first_match
    (s : Store) (r : ref) (chain : DataFrame)
    (strike : Q) (option_type : OptionType) (dte : Z) :
  frames s !! r = Some chain ->
  exists ask_res bid_res s1 s2,
    _get_option_cost r strike option_type dte s = (ask_res, s1)
    /\ _get_option_bid r strike option_type dte s = (bid_res, s2)
    /\ (forall r' f, frames s !! r' = Some f ->
          frames s1 !! r' = Some f /\ frames s2 !! r' = Some f)
    /\ ((forall y, y ∈ chain ->
           ~ (Col.strike y == strike /\ Col.type y = option_type /\ Col.dte y = dte)) ->
        ask_res = Raise (ValueError (OptionNotFound option_type strike dte))
        /\ bid_res = Raise (ValueError (OptionNotFound option_type strike dte)))
    /\ (forall before row after,
          chain = before ++ row :: after ->
          (Col.strike row == strike /\ Col.type row = option_type /\ Col.dte row = dte) ->
          (forall y, y ∈ before ->
             ~ (Col.strike y == strike /\ Col.type y = option_type
                /\ Col.dte y = dte)) ->
          ask_res = Ok (Col.ask row) /\ bid_res = Ok (Col.bid row)).
Proof.
  intros Hr.
  destruct (run_get_option_cost s r chain strike option_type dte Hr) as (s1 & E1 & X1).
  destruct (run_get_option_bid s r chain strike option_type dte Hr) as (s2 & E2 & X2).
  exists (quote Col.ask chain strike option_type dte),
         (quote Col.bid chain strike option_type dte), s1, s2.
  split; [exact E1|]. split; [exact E2|].
  split; [intros r' f Hf; split; eapply extends_lookup; eassumption|].
  split.
  - intros Hnone. split; now apply quote_none.
  - intros before row after Hc Hrow Hb. split; now apply (quote_first_match _ _ _ _ _ before row after).
Qed.

Lemma option_quotes_first_match_witness :
  frames Examples.store !! Examples.option_chain = Some Examples.chain
  /\ exists ask_res bid_res s1 s2,
      _get_option_cost Examples.option_chain 110 call 21 Examples.store = (ask_res, s1)
      /\ _get_option_bid Examples.option_chain 110 call 21 Examples.store = (bid_res, s2)
      /\ ask_res = Ok 2.2 /\ bid_res = Ok 2.
Proof.
  assert (frames Examples.store !! Examples.option_chain = Some Examples.chain) as H
    by reflexivity.
  split; [exact H|].
  destruct (option_quotes_first_match Examples.store Examples.option_chain
              Examples.chain 110 call 21 H)
    as (a & b & s1 & s2 & E1 & E2 & _ & _ & Hfirst).
  exists a, b, s1, s2. split; [exact E1|]. split; [exact E2|].
  apply (Hfirst [Examples.contract 100 call 21 5.8 6 0.6]
           (Examples.contract 110 call 21 2 2.2 0.25)
           [Examples.contract 100 put 21 1 1.2 (-0.4)]).
  - reflexivity.
  - repeat split; reflexivity.
  - intros y Hy. apply list_elem_of_singleton in Hy as ->.
    intros [Hk _]. discriminate Hk.
Defined.

(** The strike chosen by a selector is the strike of a candidate row. *)
Lemma nearest_is_candidate key option_type rows strike :
  nearest key option_type rows = Ok strike ->
  exists row, row ∈ rows /\ Col.strike row = strike.
Proof.
  destruct rows as [|row rest]; [discriminate|]. cbn. intros [= <-].
  eexists. split; [|reflexivity].
  apply (FirstMin.first_min_elem Num.ltb key FirstMin.Qltb_trans FirstMin.Qltb_cotrans).
Qed.

Lemma quote_is_Some_iff col chain strike option_type dte :
  (exists c, quote col chain strike option_type dte = Ok c)
  <-> exists row, row ∈ chain /\ Col.strike row == strike
                  /\ Col.type row = option_type /\ Col.dte row = dte.
Proof.
  split.
  - intros [c Hc]. unfold quote in Hc.
    destruct (List.filter _ chain) as [|x rest] eqn:E; [discriminate|].
    apply filter_head in E as (before & after & -> & Hx & _).
    apply contract_mask_true in Hx. exists x.
    split; [apply elem_of_app; right; apply list_elem_of_here | exact Hx].
  - intros (row & Hin & Hrow). unfold quote.
    destruct (List.filter _ chain) as [|x rest] eqn:F; [|eauto].
    exfalso.
    assert (In row (List.filter
                      (fun row => strike_is strike row && type_is option_type row
                                  && dte_is dte row) chain)) as Hf.
    { apply filter_In. split; [now apply list_elem_of_In | now apply contract_mask_true]. }
    rewrite F in Hf. destruct Hf.
Qed.

(** X8.  A strike returned by [_find_strike_by_delta] can be priced
    at the DTE asked for when the chain has a contract of the type at
    that DTE.  When it has none, the selector has fallen back to other
    expirations and [_get_option_cost] at the DTE asked for raises
    "Option not found". *)
Theorem selected_strike_quoted_iff_same_expiry
    (s : Store) (r : ref) (chain : DataFrame)
    (target_delta : Q) (option_type : OptionType) (dte : Z)
    (strike : Q) (s1 : Store) :
  frames s !! r = Some chain ->
  _find_strike_by_delta r target_delta option_type dte s = (Ok strike, s1) ->
  exists ask_res s2,
    _get_option_cost r strike option_type dte s1 = (ask_res, s2)
    /\ ((exists row, row ∈ chain /\ Col.type row = option_type /\ Col.dte row = dte) ->
        exists cost, ask_res = Ok cost)
    /\ ((forall row, row ∈ chain -> Col.type row = option_type -> Col.dte row <> dte) ->
        ask_res = Raise (ValueError (OptionNotFound option_type strike dte))).
Proof.
  intros Hr Hrun.
  destruct (run_find_strike_by_delta s r chain target_delta option_type dte Hr)
    as (s1' & E & X).
  rewrite Hrun in E. injection E as Hsel <-.
  pose proof (extends_lookup _ _ _ _ X Hr) as Hr1.
  destruct (run_get_option_cost s1 r chain strike option_type dte Hr1) as (s2 & E2 & _).
  exists (quote Col.ask chain strike option_type dte), s2.
  split; [exact E2|]. split.
  - intros (row & Hin & Hty & Hdte).
    apply quote_is_Some_iff.
    assert (matching chain option_type dte <> []) as Hne.
    { intros Hnil. assert (row ∈ matching chain option_type dte) as Hm
        by now apply matching_elem.
      rewrite Hnil in Hm. now apply elem_of_nil in Hm. }
    symmetry in Hsel. unfold strike_by_delta in Hsel.
    rewrite (candidates_matching _ _ _ Hne) in Hsel.
    apply nearest_is_candidate in Hsel as (best & Hbest & <-).
    apply matching_elem in Hbest as (Hb1 & Hb2 & Hb3).
    exists best. split; [exact Hb1|]. split; [reflexivity|]. split; [exact Hb2 | exact Hb3].
  - intros Hnone. apply quote_none.
    intros y Hy (_ & Hty & Hdte). now apply (Hnone y).
Qed.

Lemma selected_strike_quoted_iff_same_expiry_witness :
  frames Examples.store !! Examples.option_chain = Some Examples.chain
  /\ exists s1 ask_res s2,
      _find_strike_by_delta Examples.option_chain (-0.5) put 30 Examples.store
      = (Ok 100, s1)
      /\ _get_option_cost Examples.option_chain 100 put 30 s1 = (ask_res, s2)
      /\ ask_res = Raise (ValueError (OptionNotFound put 100 30)).
Proof.
  assert (frames Examples.store !! Examples.option_chain = Some Examples.chain) as H
    by reflexivity.
  split; [exact H|].
  destruct (_find_strike_by_delta Examples.option_chain (-0.5) put 30 Examples.store)
    as [res s1] eqn:Hrun.
  assert (res = Ok 100) as -> by (vm_compute in Hrun; now injection Hrun as <- _).
  destruct (selected_strike_quoted_iff_same_expiry Examples.store Examples.option_chain
              Examples.chain (-0.5) put 30 100 s1 H Hrun)
    as (ask_res & s2 & E & _ & Hfall).
  exists s1, ask_res, s2. split; [reflexivity|]. split; [exact E|].
  apply Hfall. intros row Hrow _. unfold Examples.chain in Hrow.
  rewrite !elem_of_cons, elem_of_nil in Hrow.
  destruct Hrow as [-> | [-> | [-> | []]]]; discriminate.
Defined.

(** X9.  [_find_strike_by_price] raises "No options available"
    exactly when the chain has no row of the type; otherwise it returns
    the strike of the first candidate row nearest in price to the
    target, and the target itself when a candidate has it as strike.
    The frames alive before the call are unchanged. *)
Theorem find_strike_by_price_spec
    (s : Store) (r : ref) (chain : DataFrame)
    (target_price : Q) (option_type : OptionType) (dte : Z) :
  frames s !! r = Some chain ->
  exists res s',
    _find_strike_by_price r target_price option_type dte s = (res, s')
    /\ (forall r' f, frames s !! r' = Some f -> frames s' !! r' = Some f)
    /\ (res = Raise (ValueError (NoOptionsAvailable option_type))
        <-> forall row, row ∈ chain -> Col.type row <> option_type)
    /\ ((exists row, row ∈ chain /\ Col.type row = option_type) ->
        exists before best after,
          candidates chain option_type dte = before ++ best :: after
          /\ res = Ok (Col.strike best)
          /\ (forall x, x ∈ before ->
                Qabs (Col.strike best - target_price)
                < Qabs (Col.strike x - target_price))
          /\ (forall x, x ∈ after ->
                Qabs (Col.strike best - target_price)
                <= Qabs (Col.strike x - target_price))
          /\ ((exists x, x ∈ candidates chain option_type dte
                         /\ Col.strike x == target_price) ->
              Col.strike best == target_price)).
Proof.
  intros Hr.
  destruct (run_find_strike_by_price s r chain target_price option_type dte Hr)
    as (s' & Hrun & Hext).
  exists (strike_by_price chain target_price option_type dte), s'.
  split; [exact Hrun|].
  split; [intros r' f; apply extends_lookup; exact Hext|].
  split.
  - unfold strike_by_price. now rewrite nearest_raise, candidates_nil, of_type_nil.
  - intros (row & Hin & Hty).
    assert (candidates chain option_type dte <> []) as Hne.
    { rewrite candidates_nil, of_type_nil. intros Hnone. now apply (Hnone row). }
    destruct (nearest_first_least (price_diff target_price) option_type _ Hne)
      as (before & best & after & Hsplit & Hbest & Hb & Ha).
    exists before, best, after. split; [exact Hsplit|]. split; [exact Hbest|].
    split; [exact Hb|]. split; [exact Ha|].
    intros (x & Hx & Hhit).
    apply RoundTrip.price_diff_zero.
    assert (price_diff target_price x == 0) as Hzero.
    { unfold price_diff. rewrite Hhit.
      assert (target_price - target_price == 0) as -> by ring. reflexivity. }
    rewrite Hsplit in Hx. apply elem_of_app in Hx as [Hx | Hx].
    + apply Hb in Hx. lra.
    + apply elem_of_cons in Hx as [-> | Hx]; [lra|].
      apply Ha in Hx. lra.
Qed.

Lemma find_strike_by_price_spec_witness :
  frames Examples.store !! Examples.option_chain = Some Examples.chain
  /\ exists res s',
      _find_strike_by_price Examples.option_chain 104 call 21 Examples.store = (res, s')
      /\ frames s' !! Examples.option_chain = Some Examples.chain.
Proof.
  assert (frames Examples.store !! Examples.option_chain = Some Examples.chain) as H
    by reflexivity.
  split; [exact H|].
  destruct (find_strike_by_price_spec Examples.store Examples.option_chain
              Examples.chain 104 call 21 H) as (res & s' & E & Hkeep & _).
  exists res, s'. split; [exact E | exact (Hkeep _ _ H)].
Defined.

End LookupFacts.

(** ** What a label says about the snapshot *)

Module LabelFacts.

Import StrategySelector ParameterGenerator Reading StrategySelectorFacts.
Local Open Scope string_scope.
Local Open Scope list_scope.

(** Decide every test of a rule block and keep the branch that
    returned. *)
Ltac rule_cases :=
  repeat match goal with
    | |- context [if ?c then _ else _] => destruct c eqn:?
    end;
  try discriminate; intros [= <-];
  repeat match goal with
    | H : _ && _ = true |- _ => apply andb_true_iff in H as [? ?]
    end;
  reflect_cmp; tauto.

Lemma rule_1_inv iv adx trend pvs l :
  rule_1 iv adx trend pvs = Some l ->
  l = "DIAGONAL_SPREAD" /\ 45 < iv < 60 /\ trend == 2
  /\ 0.005 < Qabs pvs < 0.012 /\ adx < 15.
Proof.
  unfold rule_1. rule_cases.
Qed.

Lemma rule_2_inv iv adx rsi l :
  rule_2 iv adx rsi = Some l ->
  l = "IRON_CONDOR" /\ 52 < iv < 75 /\ adx < 25 /\ 45 < rsi < 55.
Proof.
  unfold rule_2. rule_cases.
Qed.

Lemma rule_3_inv iv adx l :
  rule_3 iv adx = Some l -> l = "IRON_BUTTERFLY" /\ 68 < iv /\ adx < 20.
Proof.
  unfold rule_3. rule_cases.
Qed.

Lemma rule_4_inv iv adx trend rsi l :
  rule_4 iv adx trend rsi = Some l ->
  l = "LONG_CALL" /\ iv < 46 /\ 21 < adx /\ 3 <= trend /\ 54 < rsi.
Proof.
  unfold rule_4. rule_cases.
Qed.

Lemma rule_5_inv iv adx trend rsi pvs l :
  rule_5 iv adx trend rsi pvs = Some l ->
  l = "LONG_PUT" /\ iv < 48
  /\ ((20 < adx /\ (trend <= 1 \/ rsi < 42 \/ pvs < -0.025))
      \/ (15 <= adx /\ (rsi < 38 \/ pvs < -0.035))
      \/ rsi < 33).
Proof.
  unfold rule_5. destruct (Num.ltb iv 48) eqn:E; [|discriminate]. reflect_cmp.
  destruct (Num.ltb 20 adx && _) eqn:E1.
  { intros [= <-]. apply andb_true_iff in E1 as [A B].
    rewrite !orb_true_iff in B. reflect_cmp.
    split; [reflexivity|]. split; [exact E|]. left. split; [exact A|].
    destruct B as [[B|B]|B]; reflect_cmp; tauto. }
  destruct (Num.leb 15 adx && _) eqn:E2.
  { intros [= <-]. apply andb_true_iff in E2 as [A B].
    rewrite !orb_true_iff in B. reflect_cmp.
    split; [reflexivity|]. split; [exact E|]. right. left. split; [exact A|].
    destruct B as [B|B]; reflect_cmp; tauto. }
  destruct (Num.ltb rsi 33) eqn:E3; [|discriminate]. intros [= <-]. reflect_cmp.
  tauto.
Qed.

Lemma rule_6_inv iv adx trend rsi l :
  rule_6 iv adx trend rsi = Some l ->
  l = "BULL_CALL_SPREAD" /\ 56 <= iv <= 63 /\ 3 <= trend /\ 26 < adx /\ 62 < rsi.
Proof.
  unfold rule_6. rule_cases.
Qed.

Lemma rule_7_inv iv adx trend rsi l :
  rule_7 iv adx trend rsi = Some l ->
  l = "BEAR_PUT_SPREAD" /\ 54 <= iv <= 65 /\ trend <= 1 /\ 22 < adx /\ rsi < 45.
Proof.
  unfold rule_7. rule_cases.
Qed.

Lemma rule_8_inv iv adx rsi l :
  rule_8 iv adx rsi = Some l ->
  l = "LONG_STRADDLE" /\ iv < 35 /\ 45 < rsi < 58 /\ adx < 17.
Proof.
  unfold rule_8. rule_cases.
Qed.

Lemma rule_9_inv iv adx rsi l :
  rule_9 iv adx rsi = Some l ->
  l = "LONG_STRANGLE" /\ iv < 36 /\ 44 < rsi < 59 /\ adx < 25.
Proof.
  unfold rule_9. rule_cases.
Qed.

Lemma rule_10_inv iv adx rsi pvs l :
  rule_10 iv adx rsi pvs = Some l ->
  l = "CALENDAR_SPREAD" /\ iv < 42 /\ adx < 20 /\ 42 < rsi < 58 /\ Qabs pvs < 0.022.
Proof.
  unfold rule_10. rule_cases.
Qed.

Lemma fallback_inv iv adx rsi l :
  fallback iv adx rsi = l ->
  (l = "IRON_CONDOR" /\ 55 < iv)
  \/ (l = "LONG_CALL" /\ iv < 35 /\ 50 <= rsi)
  \/ (l = "LONG_PUT" /\ iv < 35 /\ rsi < 50)
  \/ (l = "BULL_CALL_SPREAD" /\ 35 <= iv <= 55 /\ 58 < rsi /\ 18 < adx)
  \/ (l = "BEAR_PUT_SPREAD" /\ 35 <= iv <= 55 /\ rsi < 42 /\ 18 < adx)
  \/ (l = "IRON_CONDOR" /\ 35 <= iv <= 55).
Proof.
  unfold fallback. intros <-.
  destruct (Num.ltb 55 iv) eqn:E1; reflect_cmp; [tauto|].
  destruct (Num.ltb iv 35) eqn:E2; reflect_cmp.
  { destruct (Num.leb 50 rsi) eqn:E3; reflect_cmp; tauto. }
  destruct (Num.ltb 58 rsi && _) eqn:E3.
  { apply andb_true_iff in E3 as [? ?]. reflect_cmp. tauto. }
  destruct (Num.ltb rsi 42 && _) eqn:E4.
  { apply andb_true_iff in E4 as [? ?]. reflect_cmp. tauto. }
  tauto.
Qed.

Lemma fold_inv (rs : list (option string)) fb l :
  foldr or_else fb rs = l -> Some l ∈ rs \/ fb = l.
Proof.
  induction rs as [|[x|] rs IH]; cbn; intros H.
  - now right.
  - left. subst. apply list_elem_of_here.
  - destruct (IH H) as [Hin|Hfb]; [left; now apply list_elem_of_further | now right].
Qed.

(** Why a label was chosen: a rule block returned it, or the fallback. *)
Lemma select_causes features l :
  select_strategy_from_features features = l ->
  let iv := features_get features "iv_rank" 50 in
  let adx := features_get features "adx_14" 20 in
  let trend := features_get features "trend_regime" 2 in
  let rsi := features_get features "rsi_14" 50 in
  let pvs := features_get features "price_vs_sma_20" 0 in
  (l = "DIAGONAL_SPREAD" /\ 45 < iv < 60 /\ trend == 2
     /\ 0.005 < Qabs pvs < 0.012 /\ adx < 15)
  \/ (l = "IRON_CONDOR" /\ 52 < iv < 75 /\ adx < 25 /\ 45 < rsi < 55)
  \/ (l = "IRON_BUTTERFLY" /\ 68 < iv /\ adx < 20)
  \/ (l = "LONG_CALL" /\ iv < 46 /\ 21 < adx /\ 3 <= trend /\ 54 < rsi)
  \/ (l = "LONG_PUT" /\ iv < 48
      /\ ((20 < adx /\ (trend <= 1 \/ rsi < 42 \/ pvs < -0.025))
          \/ (15 <= adx /\ (rsi < 38 \/ pvs < -0.035))
          \/ rsi < 33))
  \/ (l = "BULL_CALL_SPREAD" /\ 56 <= iv <= 63 /\ 3 <= trend /\ 26 < adx /\ 62 < rsi)
  \/ (l = "BEAR_PUT_SPREAD" /\ 54 <= iv <= 65 /\ trend <= 1 /\ 22 < adx /\ rsi < 45)
  \/ (l = "LONG_STRADDLE" /\ iv < 35 /\ 45 < rsi < 58 /\ adx < 17)
  \/ (l = "LONG_STRANGLE" /\ iv < 36 /\ 44 < rsi < 59 /\ adx < 25)
  \/ (l = "CALENDAR_SPREAD" /\ iv < 42 /\ adx < 20 /\ 42 < rsi < 58
      /\ Qabs pvs < 0.022)
  \/ (l = "IRON_CONDOR" /\ 55 < iv)
  \/ (l = "LONG_CALL" /\ iv < 35 /\ 50 <= rsi)
  \/ (l = "LONG_PUT" /\ iv < 35 /\ rsi < 50)
  \/ (l = "BULL_CALL_SPREAD" /\ 35 <= iv <= 55 /\ 58 < rsi /\ 18 < adx)
  \/ (l = "BEAR_PUT_SPREAD" /\ 35 <= iv <= 55 /\ rsi < 42 /\ 18 < adx)
  \/ (l = "IRON_CONDOR" /\ 35 <= iv <= 55).
Proof.
  rewrite select_as_fold. intros H iv adx trend rsi pvs.
  apply fold_inv in H as [Hin | Hfb].
  - unfold rule_table in Hin. cbv zeta in Hin. fold iv adx trend rsi pvs in Hin.
    rewrite !elem_of_cons, elem_of_nil in Hin.
    destruct Hin as [H|[H|[H|[H|[H|[H|[H|[H|[H|[H|[]]]]]]]]]]]; symmetry in H.
    + apply rule_1_inv in H. tauto.
    + apply rule_2_inv in H. tauto.
    + apply rule_3_inv in H. tauto.
    + apply rule_4_inv in H. tauto.
    + apply rule_5_inv in H. tauto.
    + apply rule_6_inv in H. tauto.
    + apply rule_7_inv in H. tauto.
    + apply rule_8_inv in H. tauto.
    + apply rule_9_inv in H. tauto.
    + apply rule_10_inv in H. tauto.
  - fold iv adx rsi in Hfb. apply fallback_inv in Hfb. tauto.
Qed.

Ltac by_cause features :=
  let Hl := fresh "Hl" in
  intros Hl;
  let C := fresh "C" in
  pose proof (select_causes features _ Hl) as C; cbv zeta in C;
  destruct_or!; destruct_and!;
  try discriminate; repeat split; try lra; try assumption.

(** X10.  What a label says about [iv_rank] (50 when absent): each
    label is returned only inside its band of implied volatility.  With
    [iv_rank] below 35 only long-premium strategies are returned, with
    [iv_rank] of 48 or more only spreads, condors and butterflies. *)
Theorem label_implies_iv_band (features : Features) :
  let iv := features_get features "iv_rank" 50 in
  let label := select_strategy_from_features features in
  (label = "DIAGONAL_SPREAD" -> 45 < iv < 60)
  /\ (label = "IRON_CONDOR" -> 35 <= iv)
  /\ (label = "IRON_BUTTERFLY" -> 68 < iv)
  /\ (label = "LONG_CALL" -> iv < 46)
  /\ (label = "LONG_PUT" -> iv < 48)
  /\ (label = "BULL_CALL_SPREAD" -> 35 <= iv <= 63)
  /\ (label = "BEAR_PUT_SPREAD" -> 35 <= iv <= 65)
  /\ (label = "LONG_STRADDLE" -> iv < 35)
  /\ (label = "LONG_STRANGLE" -> iv < 36)
  /\ (label = "CALENDAR_SPREAD" -> iv < 42)
  /\ (iv < 35 ->
      label ∈ ["LONG_CALL"; "LONG_PUT"; "LONG_STRADDLE"; "LONG_STRANGLE";
               "CALENDAR_SPREAD"])
  /\ (48 <= iv ->
      label ∈ ["DIAGONAL_SPREAD"; "IRON_CONDOR"; "IRON_BUTTERFLY";
               "BULL_CALL_SPREAD"; "BEAR_PUT_SPREAD"]).
Proof.
  intros iv label. unfold label, iv.
  do 10 (split; [by_cause features|]).
  split.
  - intros Hiv.
    pose proof (select_causes features _ eq_refl) as C. cbv zeta in C.
    destruct_or!; destruct_and!; try lra;
      match goal with H : select_strategy_from_features _ = _ |- _ => rewrite H end;
      repeat first [apply list_elem_of_here | apply list_elem_of_further].
  - intros Hiv.
    pose proof (select_causes features _ eq_refl) as C. cbv zeta in C.
    destruct_or!; destruct_and!; try lra;
      match goal with H : select_strategy_from_features _ = _ |- _ => rewrite H end;
      repeat first [apply list_elem_of_here | apply list_elem_of_further].
Qed.

Lemma label_implies_iv_band_witness :
  features_get Examples.trending_low_iv "iv_rank" 50 < 35
  /\ select_strategy_from_features Examples.trending_low_iv
     ∈ ["LONG_CALL"; "LONG_PUT"; "LONG_STRADDLE"; "LONG_STRANGLE"; "CALENDAR_SPREAD"].
Proof.
  assert (features_get Examples.trending_low_iv "iv_rank" 50 < 35) as H by reflexivity.
  split; [exact H|].
  exact (proj1 (proj2 (proj2 (proj2 (proj2 (proj2 (proj2 (proj2 (proj2 (proj2 (proj2
           (label_implies_iv_band Examples.trending_low_iv))))))))))) H).
Defined.

(** X11.  What a label says about momentum and trend: the conditions
    on [rsi_14], [adx_14], [trend_regime] and [price_vs_sma_20] that
    hold whenever [select_strategy_from_features] returns the label,
    through a rule block or through the fallback. *)
Theorem label_implies_momentum (features : Features) :
  let adx := features_get features "adx_14" 20 in
  let trend := features_get features "trend_regime" 2 in
  let rsi := features_get features "rsi_14" 50 in
  let pvs := features_get features "price_vs_sma_20" 0 in
  let label := select_strategy_from_features features in
  (label = "LONG_CALL" -> 50 <= rsi)
  /\ (label = "BULL_CALL_SPREAD" -> 58 < rsi /\ 18 < adx)
  /\ (label = "BEAR_PUT_SPREAD" -> rsi < 45 /\ 18 < adx)
  /\ (label = "IRON_BUTTERFLY" -> adx < 20)
  /\ (label = "LONG_STRADDLE" -> adx < 17 /\ 45 < rsi < 58)
  /\ (label = "LONG_STRANGLE" -> adx < 25 /\ 44 < rsi < 59)
  /\ (label = "CALENDAR_SPREAD" -> adx < 20 /\ 42 < rsi < 58 /\ Qabs pvs < 0.022)
  /\ (label = "DIAGONAL_SPREAD" ->
      adx < 15 /\ trend == 2 /\ 0.005 < Qabs pvs < 0.012).
Proof.
  intros adx trend rsi pvs label. unfold label, adx, trend, rsi, pvs.
  do 7 (split; [by_cause features|]). by_cause features.
Qed.

Lemma label_implies_momentum_witness :
  select_strategy_from_features Examples.trending_low_iv = "LONG_CALL"
  /\ 50 <= features_get Examples.trending_low_iv "rsi_14" 50.
Proof.
  assert (select_strategy_from_features Examples.trending_low_iv = "LONG_CALL") as H
    by reflexivity.
  split; [exact H|].
  exact (proj1 (label_implies_momentum Examples.trending_low_iv) H).
Defined.

(** X12.  No label is dead: for each of the ten strategy labels there
    is a snapshot for which [select_strategy_from_features] returns
    it. *)
Theorem every_label_is_reachable (label : string) :
  label ∈ strategy_labels ->
  exists features : Features, select_strategy_from_features features = label.
Proof.
  unfold strategy_labels. rewrite !elem_of_cons, elem_of_nil.
  intros H. destruct_or!; subst; try contradiction.
  - exists Examples.ranging_high_iv. reflexivity.
  - exists {[ "iv_rank" := 80; "adx_14" := 10 ]}. reflexivity.
  - exists Examples.trending_low_iv. reflexivity.
  - exists {[ "iv_rank" := 30; "adx_14" := 25; "trend_regime" := 0 ]}. reflexivity.
  - exists {[ "iv_rank" := 60; "adx_14" := 30; "trend_regime" := 4; "rsi_14" := 65 ]}.
    reflexivity.
  - exists {[ "iv_rank" := 60; "adx_14" := 30; "trend_regime" := 0; "rsi_14" := 40 ]}.
    reflexivity.
  - exists {[ "iv_rank" := 30; "adx_14" := 10 ]}. reflexivity.
  - exists {[ "iv_rank" := 30; "adx_14" := 18 ]}. reflexivity.
  - exists {[ "iv_rank" := 38; "adx_14" := 10 ]}. reflexivity.
  - exists {[ "iv_rank" := 50; "adx_14" := 10; "price_vs_sma_20" := 0.01 ]}. reflexivity.
Qed.

Lemma every_label_is_reachable_witness :
  "CALENDAR_SPREAD" ∈ strategy_labels
  /\ exists features : Features,
      select_strategy_from_features features = "CALENDAR_SPREAD".
Proof.
  assert ("CALENDAR_SPREAD" ∈ strategy_labels) as H
    by (unfold strategy_labels; do 8 apply list_elem_of_further; apply list_elem_of_here).
  split; [exact H|]. exact (every_label_is_reachable "CALENDAR_SPREAD" H).
Defined.

End LabelFacts.

(** ** Trend strength *)

Module TrendFacts.

Import ParameterGenerator.
Local Open Scope string_scope.
Local Open Scope Q_scope.

(** X13.  [_classify_trend_strength] returns one of four classes.  It
    returns "WEAK" exactly when [adx_14] is at most 20 and
    "VERY_STRONG" exactly when [adx_14] is above 30 with RSI and trend
    regime both at the same extreme; "STRONG" needs [adx_14] above 25
    with RSI and regime on the same side.  A neutral regime or an RSI
    between 40 and 60 gives "MODERATE" or "WEAK". *)
Theorem trend_strength_classes (features : Features) :
  let rsi := features_get features "rsi_14" 50 in
  let adx := features_get features "adx_14" 20 in
  let trend_regime := features_get features "trend_regime" 2 in
  let strength := _classify_trend_strength features in
  strength ∈ ["VERY_STRONG"; "STRONG"; "MODERATE"; "WEAK"]
  /\ (strength = "WEAK" <-> adx <= 20)
  /\ (strength = "VERY_STRONG" <->
      30 < adx /\ ((65 < rsi /\ 4 <= trend_regime) \/ (rsi < 35 /\ trend_regime <= 0)))
  /\ (strength = "STRONG" ->
      25 < adx /\ ((60 < rsi /\ 3 <= trend_regime) \/ (rsi < 40 /\ trend_regime <= 1)))
  /\ (1 < trend_regime < 3 -> strength = "MODERATE" \/ strength = "WEAK")
  /\ (40 <= rsi <= 60 -> strength = "MODERATE" \/ strength = "WEAK").
Proof.
  intros rsi adx trend_regime strength.
  unfold strength, _classify_trend_strength.
  fold rsi adx trend_regime.
  repeat split_cmp.
  all: split; [set_solver|].
  all: repeat split; try discriminate; intros; try lra; try (exfalso; lra);
       try tauto; try (left; split; lra); try (right; split; lra).
Qed.

End TrendFacts.

(** ** What the builders return *)

Module PayoffFacts.

Import Builtins DF ParameterGenerator Reading Outcome.
Import RiskManagerFacts StoreFacts SelectorFacts BuilderFacts OutcomeFacts GenerateFacts.
Import SizingFacts LookupFacts.
Local Open Scope string_scope.
Local Open Scope Q_scope.

Lemma py_max_ge a b : a <= py_max a b /\ b <= py_max a b.
Proof.
  unfold py_max. destruct (Num.ltb a b) eqn:E; reflect_cmp; lra.
Qed.

Lemma guarded_ratio_mult a x :
  (0 < x -> (if Num.ltb 0 x then a / x else 0) * x == a)
  /\ (x <= 0 -> (if Num.ltb 0 x then a / x else 0) = 0).
Proof.
  destruct (Num.ltb 0 x) eqn:E; reflect_cmp; split; intros; try lra; try reflexivity.
  field. lra.
Qed.

(** Reduce a statement about the dictionary of a run that returned to
    the outcome of the builder. *)
Ltac from_outcome Hr Hrun :=
  match type of Hrun with
  | ?m ?s = (Ok ?d, ?s') =>
      pattern d;
      match goal with
      | |- ?P d =>
          match type of Hr with
          | frames s !! ?r = Some ?chain =>
              apply (fun H => proj1 (runs_returned (risk_manager s) chain r m P s d s'
                                       H eq_refl Hr Hrun));
              clear Hrun Hr; clear d s'
          end
      end
  end.

(** X14.  Whenever [_generate_iron_condor] returns, the four strikes
    were selected by delta at the chosen DTE (0.20 and 0.10 when
    [iv_rank] is above 70, else 0.25 and 0.15), the short legs are
    priced at their bid and the long legs at their ask, the maximum
    profit is the net credit, and net credit plus maximum loss is the
    wider of the two wings.  The totals are the per-contract figures
    times the contracts, the contracts are sized on the maximum loss,
    and [risk_reward_ratio * max_loss] is the net credit when the loss
    is positive (the ratio is 0 and one contract is traded when it is
    not). *)
Theorem iron_condor_payoff
    (s : Store) (r : ref) (chain : DataFrame) (features : Features)
    (current_price : Q) (d : PyDict) (s' : Store) :
  frames s !! r = Some chain ->
  _generate_iron_condor r features current_price s = (Ok d, s') ->
  let iv_rank := features_get features "iv_rank" 50 in
  let short_delta := if Num.ltb 70 iv_rank then 0.20 else 0.25 in
  let long_delta := if Num.ltb 70 iv_rank then 0.10 else 0.15 in
  exists (dte contracts : Z)
         (put_short put_long call_short call_long : Q)
         (put_short_bid put_long_ask call_short_bid call_long_ask : Q)
         (net_credit max_loss risk_reward breakeven_down breakeven_up : Q),
    nearest_dte chain (target_dte "IRON_CONDOR" iv_rank "WEAK") = Ok dte
    /\ strike_by_delta chain (- short_delta) put dte = Ok put_short
    /\ strike_by_delta chain (- long_delta) put dte = Ok put_long
    /\ strike_by_delta chain short_delta call dte = Ok call_short
    /\ strike_by_delta chain long_delta call dte = Ok call_long
    /\ quote Col.bid chain put_short put dte = Ok put_short_bid
    /\ quote Col.ask chain put_long put dte = Ok put_long_ask
    /\ quote Col.bid chain call_short call dte = Ok call_short_bid
    /\ quote Col.ask chain call_long call dte = Ok call_long_ask
    /\ dict_get d "dte" = Some (VInt dte)
    /\ dict_get d "contracts" = Some (VInt contracts)
    /\ field d "put_short_strike" = Some put_short
    /\ field d "put_long_strike" = Some put_long
    /\ field d "call_short_strike" = Some call_short
    /\ field d "call_long_strike" = Some call_long
    /\ field d "net_credit" = Some net_credit
    /\ field d "max_profit" = Some net_credit
    /\ field d "max_loss" = Some max_loss
    /\ field d "total_credit" = Some (net_credit * inject_Z contracts)
    /\ field d "total_max_profit" = Some (net_credit * inject_Z contracts)
    /\ field d "total_max_loss" = Some (max_loss * inject_Z contracts)
    /\ field d "risk_reward_ratio" = Some risk_reward
    /\ field d "breakeven_down" = Some breakeven_down
    /\ field d "breakeven_up" = Some breakeven_up
    /\ net_credit
       = (put_short_bid + call_short_bid - put_long_ask - call_long_ask) * 100
    /\ contracts = position_size (risk_manager s) max_loss
    /\ (put_short - put_long) * 100 <= net_credit + max_loss
    /\ (call_long - call_short) * 100 <= net_credit + max_loss
    /\ (net_credit + max_loss == (put_short - put_long) * 100
        \/ net_credit + max_loss == (call_long - call_short) * 100)
    /\ (0 < max_loss -> risk_reward * max_loss == net_credit)
    /\ (max_loss <= 0 -> risk_reward = 0 /\ contracts = 1%Z)
    /\ breakeven_down == put_short - net_credit / 100
    /\ breakeven_up == call_short + net_credit / 100.
Proof.
  intros Hr Hrun iv_rank short_delta long_delta.
  unfold short_delta, long_delta. clear short_delta long_delta.
  from_outcome Hr Hrun. unfold _generate_iron_condor. fold iv_rank.
  destruct (Num.ltb 70 iv_rank) eqn:Eiv; run_calls; apply runs_ret; subst.
  all: do 15 eexists.
  all: repeat (split; [first [eassumption | reflexivity]|]).
  all: match goal with
       | |- context [py_max ?a ?b] =>
           pose proof (py_max_ge a b) as [Ha Hb];
           assert (py_max a b = a \/ py_max a b = b) as Hor
             by (unfold py_max; destruct (Num.ltb a b); auto)
       end.
  all: match goal with
       | |- context [if Num.ltb 0 ?x then ?a / ?x else 0] =>
           pose proof (guarded_ratio_mult a x) as [Hpos Hneg]
       end.
  all: split; [lra|]. all: split; [lra|].
  all: split; [destruct Hor as [-> | ->]; [left | right]; ring|].
  all: split; [exact Hpos|].
  all: split; [intros Hle; split; [now apply Hneg|];
               unfold position_size;
               match goal with |- context [Num.leb ?x 0] =>
                 destruct (Num.leb x 0) eqn:E; reflect_cmp; [reflexivity | lra] end|].
  all: split; reflexivity.
Qed.


Lemma iron_condor_payoff_witness :
  frames Examples.store !! Examples.option_chain = Some Examples.chain
  /\ exists d s' net_credit max_loss,
      _generate_iron_condor Examples.option_chain Examples.no_features 105
        Examples.store = (Ok d, s')
      /\ field d "max_profit" = Some net_credit
      /\ field d "max_loss" = Some max_loss
      /\ (0 <= net_credit + max_loss).
Proof.
  assert (frames Examples.store !! Examples.option_chain = Some Examples.chain) as H
    by reflexivity.
  split; [exact H|].
  destruct (_generate_iron_condor Examples.option_chain Examples.no_features 105
              Examples.store) as [[d|e] s'] eqn:Hrun; [|vm_compute in Hrun; discriminate Hrun].
  destruct (iron_condor_payoff _ _ _ _ _ _ _ H Hrun)
    as (dte & n & ps & pl & cs & cl & psb & pla & csb & cla & nc & ml & rr & bd & bu
        & Hdte & Hps & Hpl & _ & _ & _ & _ & _ & _ & _ & _ & _ & _ & _ & _ & _ & Hmp & Hml
        & _ & _ & _ & _ & _ & _ & _ & _ & Hw & _).
  exists d, s', nc, ml. split; [reflexivity|]. split; [exact Hmp|]. split; [exact Hml|].
  vm_compute in Hdte. injection Hdte as <-.
  vm_compute in Hps. injection Hps as <-.
  vm_compute in Hpl. injection Hpl as <-.
  revert Hw. generalize (nc + ml). intros q Hq. lra.
Defined.

(** The row behind a quote. *)
Lemma quote_row col chain strike option_type dte c :
  quote col chain strike option_type dte = Ok c ->
  exists row, row ∈ chain /\ Col.strike row == strike /\ Col.type row = option_type
              /\ Col.dte row = dte /\ col row = c.
Proof.
  unfold quote. intros Hq.
  destruct (List.filter _ chain) as [|x rest] eqn:E; [discriminate|].
  injection Hq as <-.
  apply filter_head in E as (before & after & -> & Hx & _).
  apply contract_mask_true in Hx. exists x.
  split; [apply elem_of_app; right; apply list_elem_of_here|].
  tauto.
Qed.

(** X15.  Whenever [_generate_long_call] or [_generate_long_put]
    returns, the trade buys a contract that is in the chain at the
    chosen DTE: its strike was selected by delta (0.50, 0.40 or 0.30 by
    [iv_rank]), its cost is that row's ask, the breakeven is the strike
    plus (call) or minus (put) the cost, and [max_loss] is the total
    cost.  When a contract fits the risk budget the total cost stays
    within it; when it does not, one contract is bought. *)
Theorem long_option_trade
    (s : Store) (r : ref) (chain : DataFrame) (features : Features)
    (current_price : Q) (option_type : OptionType) (d : PyDict) (s' : Store) :
  frames s !! r = Some chain ->
  0 < max_risk_amount (risk_manager s) ->
  (1 <= max_contracts (risk_manager s))%Z ->
  match option_type with
  | call => _generate_long_call
  | put => _generate_long_put
  end r features current_price s = (Ok d, s') ->
  let iv_rank := features_get features "iv_rank" 50 in
  let strategy := match option_type with call => "LONG_CALL" | put => "LONG_PUT" end in
  let magnitude :=
    if Num.ltb iv_rank 30 then 0.50 else if Num.ltb iv_rank 40 then 0.40 else 0.30 in
  let target_delta := match option_type with call => magnitude | put => - magnitude end in
  exists (dte contracts : Z) (strike cost : Q) (row : Row),
    nearest_dte chain (target_dte strategy iv_rank (_classify_trend_strength features))
    = Ok dte
    /\ strike_by_delta chain target_delta option_type dte = Ok strike
    /\ quote Col.ask chain strike option_type dte = Ok cost
    /\ row ∈ chain /\ Col.strike row == strike /\ Col.type row = option_type
    /\ Col.dte row = dte /\ Col.ask row = cost
    /\ dict_get d "strategy" = Some (VStr strategy)
    /\ dict_get d "action" = Some (VStr "BUY")
    /\ dict_get d "option_type" = Some (VStr (upper option_type))
    /\ dict_get d "dte" = Some (VInt dte)
    /\ dict_get d "contracts" = Some (VInt contracts)
    /\ dict_get d "max_profit" = Some (VStr "Unlimited")
    /\ field d "strike" = Some strike
    /\ field d "target_delta" = Some target_delta
    /\ field d "cost_per_contract" = Some (cost * 100)
    /\ field d "total_cost" = Some (cost * 100 * inject_Z contracts)
    /\ field d "max_loss" = Some (cost * 100 * inject_Z contracts)
    /\ field d "breakeven"
       = Some (match option_type with call => strike + cost | put => strike - cost end)
    /\ contracts = position_size (risk_manager s) (cost * 100)
    /\ (0 < cost -> cost * 100 <= max_risk_amount (risk_manager s) ->
        cost * 100 * inject_Z contracts <= max_risk_amount (risk_manager s))
    /\ (max_risk_amount (risk_manager s) < cost * 100 -> contracts = 1%Z).
Proof.
  intros Hr Hb Hm Hrun iv_rank strategy magnitude target_delta.
  unfold target_delta, magnitude, strategy.
  clear target_delta magnitude strategy.
  destruct option_type; from_outcome Hr Hrun;
    unfold _generate_long_call, _generate_long_put; fold iv_rank.
  all: destruct (Num.ltb iv_rank 30) eqn:E30; [|destruct (Num.ltb iv_rank 40) eqn:E40].
  all: run_calls; apply runs_ret; subst.
  all: match goal with
       | H : quote Col.ask _ _ _ _ = Ok _ |- _ =>
           destruct (quote_row _ _ _ _ _ _ H) as (row & Hin & Hk & Ht & Hd & Hc)
       end.
  all: do 4 eexists; exists row.
  all: repeat (split; [first [eassumption | reflexivity]|]).
  all: match goal with
       | |- context [position_size ?rm ?loss] =>
           pose proof (position_size_budget rm loss Hb Hm) as Hbudget;
           cbv zeta in Hbudget;
           pose proof (position_size_bounds rm loss Hm) as Hbounds
       end.
  all: split; [intros Hpos Hfit; destruct Hbudget as [Hin' _]; [lra|];
               destruct (Hin' Hfit) as [Hle _]; lra
              |intros Hover].
  all: match goal with
       | |- position_size ?rm ?loss = 1%Z =>
           destruct (Qlt_le_dec 0 loss) as [Hpos|Hneg];
           [destruct Hbudget as [_ Hout]; [exact Hpos|]; exact (proj1 (Hout Hover))
           |unfold position_size; destruct (Num.leb loss 0) eqn:E; reflect_cmp;
            [reflexivity | lra]]
       end.
Qed.

Lemma long_option_trade_witness :
  frames Examples.store !! Examples.option_chain = Some Examples.chain
  /\ 0 < max_risk_amount (risk_manager Examples.store)
  /\ (1 <= max_contracts (risk_manager Examples.store))%Z
  /\ exists d s' row,
      _generate_long_call Examples.option_chain Examples.no_features 105
        Examples.store = (Ok d, s')
      /\ row ∈ Examples.chain
      /\ field d "cost_per_contract" = Some (Col.ask row * 100).
Proof.
  assert (frames Examples.store !! Examples.option_chain = Some Examples.chain) as H
    by reflexivity.
  assert (0 < max_risk_amount (risk_manager Examples.store)) as Hb by reflexivity.
  assert (1 <= max_contracts (risk_manager Examples.store))%Z as Hm by discriminate.
  split; [exact H|]. split; [exact Hb|]. split; [exact Hm|].
  destruct (_generate_long_call Examples.option_chain Examples.no_features 105
              Examples.store) as [[d|e] s'] eqn:Hrun; [|vm_compute in Hrun; discriminate Hrun].
  destruct (long_option_trade Examples.store Examples.option_chain Examples.chain
              Examples.no_features 105 call d s' H Hb Hm Hrun)
    as (dte & n & strike & cost & row & _ & _ & _ & Hin & _ & _ & _ & Hc & _ & _ & _ & _
        & _ & _ & _ & _ & Hcpc & _).
  exists d, s', row. split; [reflexivity|]. split; [exact Hin|].
  rewrite Hc. exact Hcpc.
Defined.


Lemma position_size_nonpositive rm loss : loss <= 0 -> position_size rm loss = 1%Z.
Proof.
  intros H. unfold position_size.
  destruct (Num.leb loss 0) eqn:E; reflect_cmp; [reflexivity | lra].
Qed.

(** X16.  Whenever [_generate_bear_put_spread] returns, both put
    strikes were selected by delta at the chosen DTE, the net debit is
    the long ask minus the short bid times 100, maximum profit plus net
    debit is the spread width times 100, the breakeven is the long
    strike minus the debit per share, and the totals are the
    per-contract figures times the contracts sized on the net debit.
    [risk_reward_ratio * net_debit] is the maximum profit when the
    debit is positive; otherwise the ratio is 0 and one contract is
    traded. *)
Theorem bear_put_spread_payoff
    (s : Store) (r : ref) (chain : DataFrame) (features : Features)
    (current_price : Q) (d : PyDict) (s' : Store) :
  frames s !! r = Some chain ->
  _generate_bear_put_spread r features current_price s = (Ok d, s') ->
  let iv_rank := features_get features "iv_rank" 50 in
  let long_delta := if Num.ltb iv_rank 50 then -0.50 else -0.60 in
  let short_delta := if Num.ltb iv_rank 50 then -0.30 else -0.25 in
  exists (dte contracts : Z)
         (long_strike short_strike long_ask short_bid : Q)
         (net_debit max_profit breakeven spread_width risk_reward : Q),
    nearest_dte chain
      (target_dte "BEAR_PUT_SPREAD" iv_rank (_classify_trend_strength features))
    = Ok dte
    /\ strike_by_delta chain long_delta put dte = Ok long_strike
    /\ strike_by_delta chain short_delta put dte = Ok short_strike
    /\ quote Col.ask chain long_strike put dte = Ok long_ask
    /\ quote Col.bid chain short_strike put dte = Ok short_bid
    /\ dict_get d "dte" = Some (VInt dte)
    /\ dict_get d "contracts" = Some (VInt contracts)
    /\ field d "long_strike" = Some long_strike
    /\ field d "short_strike" = Some short_strike
    /\ field d "net_debit" = Some net_debit
    /\ field d "max_loss" = Some net_debit
    /\ field d "max_profit" = Some max_profit
    /\ field d "total_debit" = Some (net_debit * inject_Z contracts)
    /\ field d "total_max_loss" = Some (net_debit * inject_Z contracts)
    /\ field d "total_max_profit" = Some (max_profit * inject_Z contracts)
    /\ field d "breakeven" = Some breakeven
    /\ field d "spread_width" = Some spread_width
    /\ field d "risk_reward_ratio" = Some risk_reward
    /\ net_debit = (long_ask - short_bid) * 100
    /\ max_profit = (long_strike - short_strike) * 100 - net_debit
    /\ contracts = position_size (risk_manager s) net_debit
    /\ breakeven == long_strike - (long_ask - short_bid)
    /\ spread_width == long_strike - short_strike
    /\ max_profit + net_debit == spread_width * 100
    /\ (0 < net_debit -> risk_reward * net_debit == max_profit)
    /\ (net_debit <= 0 -> risk_reward = 0 /\ contracts = 1%Z).
Proof.
  intros Hr Hrun iv_rank long_delta short_delta.
  unfold long_delta, short_delta. clear long_delta short_delta.
  from_outcome Hr Hrun. unfold _generate_bear_put_spread. fold iv_rank.
  destruct (Num.ltb iv_rank 50) eqn:Eiv; run_calls; apply runs_ret; subst.
  all: do 11 eexists.
  all: repeat (split; [first [eassumption | reflexivity]|]).
  all: match goal with
       | |- context [if Num.ltb 0 ?x then ?a / ?x else 0] =>
           pose proof (guarded_ratio_mult a x) as [Hpos Hneg]
       end.
  all: split; [field|]. all: split; [field|]. all: split; [field|].
  all: split; [exact Hpos|].
  all: intros Hle; split; [now apply Hneg | now apply position_size_nonpositive].
Qed.

Lemma bear_put_spread_payoff_witness :
  frames Examples.store !! Examples.option_chain = Some Examples.chain
  /\ exists d s' net_debit max_profit spread_width,
      _generate_bear_put_spread Examples.option_chain Examples.no_features 105
        Examples.store = (Ok d, s')
      /\ field d "max_loss" = Some net_debit
      /\ field d "max_profit" = Some max_profit
      /\ field d "spread_width" = Some spread_width
      /\ max_profit + net_debit == spread_width * 100.
Proof.
  assert (frames Examples.store !! Examples.option_chain = Some Examples.chain) as H
    by reflexivity.
  split; [exact H|].
  destruct (_generate_bear_put_spread Examples.option_chain Examples.no_features 105
              Examples.store) as [[d|e] s'] eqn:Hrun; [|vm_compute in Hrun; discriminate Hrun].
  destruct (bear_put_spread_payoff _ _ _ _ _ _ _ H Hrun)
    as (dte & n & ls & ss & la & sb & nd & mp & be & sw & rr
        & _ & _ & _ & _ & _ & _ & _ & _ & _ & _ & Hml & Hmp & _ & _ & _ & _ & Hsw & _
        & _ & _ & _ & _ & _ & Hsum & _).
  exists d, s', nd, mp, sw. split; [reflexivity|].
  split; [exact Hml|]. split; [exact Hmp|]. split; [exact Hsw | exact Hsum].
Defined.

(** X17.  Whenever [_generate_long_straddle] returns, the strike is
    the call strike nearest the mean of the delta-selected call and put
    strikes, both legs are priced at that strike, the breakevens lie
    symmetrically around it at a distance of the combined premium, and
    [max_loss] is the combined premium times 100 times the
    contracts. *)
Theorem long_straddle_payoff
    (s : Store) (r : ref) (chain : DataFrame) (features : Features)
    (current_price : Q) (d : PyDict) (s' : Store) :
  frames s !! r = Some chain ->
  _generate_long_straddle r features current_price s = (Ok d, s') ->
  exists (dte contracts : Z)
         (call_strike put_strike strike call_ask put_ask : Q)
         (breakeven_up breakeven_down breakeven_range : Q),
    nearest_dte chain 30 = Ok dte
    /\ strike_by_delta chain 0.50 call dte = Ok call_strike
    /\ strike_by_delta chain (-0.50) put dte = Ok put_strike
    /\ strike_by_price chain ((call_strike + put_strike) / 2) call dte = Ok strike
    /\ quote Col.ask chain strike call dte = Ok call_ask
    /\ quote Col.ask chain strike put dte = Ok put_ask
    /\ dict_get d "dte" = Some (VInt dte)
    /\ dict_get d "contracts" = Some (VInt contracts)
    /\ dict_get d "max_profit" = Some (VStr "Unlimited")
    /\ field d "strike" = Some strike
    /\ field d "call_cost" = Some (call_ask * 100)
    /\ field d "put_cost" = Some (put_ask * 100)
    /\ field d "cost_per_contract" = Some ((call_ask + put_ask) * 100)
    /\ field d "total_cost" = Some ((call_ask + put_ask) * 100 * inject_Z contracts)
    /\ field d "max_loss" = Some ((call_ask + put_ask) * 100 * inject_Z contracts)
    /\ field d "breakeven_up" = Some breakeven_up
    /\ field d "breakeven_down" = Some breakeven_down
    /\ field d "breakeven_range" = Some breakeven_range
    /\ contracts = position_size (risk_manager s) ((call_ask + put_ask) * 100)
    /\ breakeven_up - strike == call_ask + put_ask
    /\ strike - breakeven_down == call_ask + put_ask
    /\ breakeven_range == 2 * (call_ask + put_ask).
Proof.
  intros Hr Hrun. from_outcome Hr Hrun. unfold _generate_long_straddle.
  run_calls; apply runs_ret; subst.
  do 10 eexists.
  repeat (split; [first [eassumption | reflexivity]|]).
  split; [ring|]. split; ring.
Qed.

Lemma long_straddle_payoff_witness :
  frames Examples.store !! Examples.option_chain = Some Examples.chain
  /\ exists d s' strike up down,
      _generate_long_straddle Examples.option_chain Examples.no_features 105
        Examples.store = (Ok d, s')
      /\ field d "strike" = Some strike
      /\ field d "breakeven_up" = Some up
      /\ field d "breakeven_down" = Some down
      /\ up - strike == strike - down.
Proof.
  assert (frames Examples.store !! Examples.option_chain = Some Examples.chain) as H
    by reflexivity.
  split; [exact H|].
  destruct (_generate_long_straddle Examples.option_chain Examples.no_features 105
              Examples.store) as [[d|e] s'] eqn:Hrun; [|vm_compute in Hrun; discriminate Hrun].
  destruct (long_straddle_payoff _ _ _ _ _ _ _ H Hrun)
    as (dte & n & cs & ps & k & ca & pa & up & down & range
        & _ & _ & _ & _ & _ & _ & _ & _ & _ & Hk & _ & _ & _ & _ & _ & Hup & Hdown & _
        & _ & Hu & Hd & _).
  exists d, s', k, up, down. split; [reflexivity|].
  split; [exact Hk|]. split; [exact Hup|]. split; [exact Hdown|].
  now rewrite Hu, Hd.
Defined.

(** X18.  Whenever [_generate_long_strangle] returns, the call and
    the put strike were selected by delta (0.35 when [iv_rank] is below
    30, else 0.25), the breakevens are the call strike plus and the put
    strike minus the combined premium, and the breakeven range is the
    strike width plus twice the premium. *)
Theorem long_strangle_payoff
    (s : Store) (r : ref) (chain : DataFrame) (features : Features)
    (current_price : Q) (d : PyDict) (s' : Store) :
  frames s !! r = Some chain ->
  _generate_long_strangle r features current_price s = (Ok d, s') ->
  let iv_rank := features_get features "iv_rank" 50 in
  let magnitude := if Num.ltb iv_rank 30 then 0.35 else 0.25 in
  exists (dte contracts : Z)
         (call_strike put_strike call_ask put_ask : Q)
         (breakeven_up breakeven_down breakeven_range strike_width : Q),
    nearest_dte chain 30 = Ok dte
    /\ strike_by_delta chain magnitude call dte = Ok call_strike
    /\ strike_by_delta chain (- magnitude) put dte = Ok put_strike
    /\ quote Col.ask chain call_strike call dte = Ok call_ask
    /\ quote Col.ask chain put_strike put dte = Ok put_ask
    /\ dict_get d "dte" = Some (VInt dte)
    /\ dict_get d "contracts" = Some (VInt contracts)
    /\ dict_get d "max_profit" = Some (VStr "Unlimited")
    /\ field d "call_strike" = Some call_strike
    /\ field d "put_strike" = Some put_strike
    /\ field d "call_cost" = Some (call_ask * 100)
    /\ field d "put_cost" = Some (put_ask * 100)
    /\ field d "cost_per_contract" = Some ((call_ask + put_ask) * 100)
    /\ field d "total_cost" = Some ((call_ask + put_ask) * 100 * inject_Z contracts)
    /\ field d "max_loss" = Some ((call_ask + put_ask) * 100 * inject_Z contracts)
    /\ field d "breakeven_up" = Some breakeven_up
    /\ field d "breakeven_down" = Some breakeven_down
    /\ field d "breakeven_range" = Some breakeven_range
    /\ field d "strike_width" = Some strike_width
    /\ contracts = position_size (risk_manager s) ((call_ask + put_ask) * 100)
    /\ breakeven_up == call_strike + (call_ask + put_ask)
    /\ breakeven_down == put_strike - (call_ask + put_ask)
    /\ strike_width == call_strike - put_strike
    /\ breakeven_range == strike_width + 2 * (call_ask + put_ask).
Proof.
  intros Hr Hrun iv_rank magnitude. unfold magnitude. clear magnitude.
  from_outcome Hr Hrun. unfold _generate_long_strangle. fold iv_rank.
  destruct (Num.ltb iv_rank 30) eqn:Eiv; run_calls; apply runs_ret; subst.
  all: do 10 eexists.
  all: repeat (split; [first [eassumption | reflexivity]|]).
  all: ring.
Qed.

Lemma long_strangle_payoff_witness :
  frames Examples.store !! Examples.option_chain = Some Examples.chain
  /\ exists d s' width range,
      _generate_long_strangle Examples.option_chain Examples.no_features 105
        Examples.store = (Ok d, s')
      /\ field d "strike_width" = Some width
      /\ field d "breakeven_range" = Some range
      /\ exists ca pa, range == width + 2 * (ca + pa).
Proof.
  assert (frames Examples.store !! Examples.option_chain = Some Examples.chain) as H
    by reflexivity.
  split; [exact H|].
  destruct (_generate_long_strangle Examples.option_chain Examples.no_features 105
              Examples.store) as [[d|e] s'] eqn:Hrun; [|vm_compute in Hrun; discriminate Hrun].
  destruct (long_strangle_payoff _ _ _ _ _ _ _ H Hrun)
    as (dte & n & cs & ps & ca & pa & up & down & range & width
        & _ & _ & _ & _ & _ & _ & _ & _ & _ & _ & _ & _ & _ & _ & _ & _ & _ & Hrange
        & Hwidth & _ & _ & _ & _ & Hsum).
  exists d, s', width, range. split; [reflexivity|].
  split; [exact Hwidth|]. split; [exact Hrange|]. exists ca, pa. exact Hsum.
Defined.

(** X19.  Whenever [_generate_iron_butterfly] returns, both short
    legs sit at the strike selected by call delta 0.50, the wings were
    selected by price at 5% (7% when [iv_rank] is above 75) from it,
    net credit plus maximum loss is the wider wing, the breakevens lie
    symmetrically around the centre and span the profit zone, and the
    ratio and the contracts follow the maximum loss as for the
    condor. *)
Theorem iron_butterfly_payoff
    (s : Store) (r : ref) (chain : DataFrame) (features : Features)
    (current_price : Q) (d : PyDict) (s' : Store) :
  frames s !! r = Some chain ->
  _generate_iron_butterfly r features current_price s = (Ok d, s') ->
  let iv_rank := features_get features "iv_rank" 50 in
  let wing_pct := if Num.ltb 75 iv_rank then 0.07 else 0.05 in
  exists (dte contracts : Z)
         (center long_put long_call : Q)
         (put_bid call_bid put_ask call_ask : Q)
         (net_credit max_loss wing_width risk_reward : Q)
         (breakeven_down breakeven_up profit_zone_width : Q),
    nearest_dte chain (target_dte "IRON_BUTTERFLY" iv_rank "WEAK") = Ok dte
    /\ strike_by_delta chain 0.50 call dte = Ok center
    /\ strike_by_price chain (center * (1 - wing_pct)) put dte = Ok long_put
    /\ strike_by_price chain (center * (1 + wing_pct)) call dte = Ok long_call
    /\ quote Col.bid chain center put dte = Ok put_bid
    /\ quote Col.bid chain center call dte = Ok call_bid
    /\ quote Col.ask chain long_put put dte = Ok put_ask
    /\ quote Col.ask chain long_call call dte = Ok call_ask
    /\ dict_get d "dte" = Some (VInt dte)
    /\ dict_get d "contracts" = Some (VInt contracts)
    /\ field d "center_strike" = Some center
    /\ field d "long_put_strike" = Some long_put
    /\ field d "long_call_strike" = Some long_call
    /\ field d "net_credit" = Some net_credit
    /\ field d "max_profit" = Some net_credit
    /\ field d "max_loss" = Some max_loss
    /\ field d "total_credit" = Some (net_credit * inject_Z contracts)
    /\ field d "total_max_profit" = Some (net_credit * inject_Z contracts)
    /\ field d "total_max_loss" = Some (max_loss * inject_Z contracts)
    /\ field d "wing_width" = Some wing_width
    /\ field d "risk_reward_ratio" = Some risk_reward
    /\ field d "breakeven_down" = Some breakeven_down
    /\ field d "breakeven_up" = Some breakeven_up
    /\ field d "profit_zone_width" = Some profit_zone_width
    /\ net_credit = (put_bid + call_bid - put_ask - call_ask) * 100
    /\ contracts = position_size (risk_manager s) max_loss
    /\ center - long_put <= wing_width
    /\ long_call - center <= wing_width
    /\ (wing_width == center - long_put \/ wing_width == long_call - center)
    /\ net_credit + max_loss == wing_width * 100
    /\ breakeven_up - breakeven_down == profit_zone_width
    /\ breakeven_up + breakeven_down == 2 * center
    /\ (0 < max_loss -> risk_reward * max_loss == net_credit)
    /\ (max_loss <= 0 -> risk_reward = 0 /\ contracts = 1%Z).
Proof.
  intros Hr Hrun iv_rank wing_pct. unfold wing_pct. clear wing_pct.
  from_outcome Hr Hrun. unfold _generate_iron_butterfly. fold iv_rank.
  destruct (Num.ltb 75 iv_rank) eqn:Eiv; run_calls; apply runs_ret; subst.
  all: do 16 eexists.
  all: repeat (split; [first [eassumption | reflexivity]|]).
  all: match goal with
       | |- context [py_max ?a ?b] =>
           pose proof (py_max_ge a b) as [Ha Hb];
           assert (py_max a b = a \/ py_max a b = b) as Hor
             by (unfold py_max; destruct (Num.ltb a b); auto);
           set (w := py_max a b) in *
       end.
  all: match goal with
       | |- context [if Num.ltb 0 ?x then ?a / ?x else 0] =>
           pose proof (guarded_ratio_mult a x) as [Hpos Hneg]
       end.
  all: split; [apply Qle_shift_div_l; lra|].
  all: split; [apply Qle_shift_div_l; lra|].
  all: split; [destruct Hor as [Hw | Hw]; rewrite Hw; [left | right]; field|].
  all: split; [field|]. all: split; [field|]. all: split; [field|].
  all: split; [exact Hpos|].
  all: intros Hle; split; [now apply Hneg | now apply position_size_nonpositive].
Qed.

Lemma iron_butterfly_payoff_witness :
  frames Examples.store !! Examples.option_chain = Some Examples.chain
  /\ exists d s' net_credit max_loss wing_width,
      _generate_iron_butterfly Examples.option_chain Examples.no_features 105
        Examples.store = (Ok d, s')
      /\ field d "max_profit" = Some net_credit
      /\ field d "max_loss" = Some max_loss
      /\ field d "wing_width" = Some wing_width
      /\ net_credit + max_loss == wing_width * 100.
Proof.
  assert (frames Examples.store !! Examples.option_chain = Some Examples.chain) as H
    by reflexivity.
  split; [exact H|].
  destruct (_generate_iron_butterfly Examples.option_chain Examples.no_features 105
              Examples.store) as [[d|e] s'] eqn:Hrun; [|vm_compute in Hrun; discriminate Hrun].
  destruct (iron_butterfly_payoff _ _ _ _ _ _ _ H Hrun)
    as (dte & n & c & lp & lc & pb & cb & pa & ca & nc & ml & ww & rr & bd & bu & pz
        & _ & _ & _ & _ & _ & _ & _ & _ & _ & _ & _ & _ & _ & _ & Hmp & Hml & _ & _ & _
        & Hww & _ & _ & _ & _ & _ & _ & _ & _ & _ & Hsum & _).
  exists d, s', nc, ml, ww. split; [reflexivity|].
  split; [exact Hmp|]. split; [exact Hml|]. split; [exact Hww | exact Hsum].
Defined.

End PayoffFacts.

(** ** Calendar and diagonal spreads *)

Module TimeSpreadFacts.

Import Builtins DF ParameterGenerator Reading Outcome.
Import RiskManagerFacts StoreFacts SelectorFacts BuilderFacts OutcomeFacts GenerateFacts.
Import SizingFacts LookupFacts PayoffFacts.
Local Open Scope string_scope.
Local Open Scope Q_scope.

Lemma select_far_dte_beyond avail near :
  (near + 14 < select_far_dte avail near)%Z.
Proof.
  unfold select_far_dte.
  destruct (List.filter _ avail) as [|y l] eqn:E; cbn [py_min_default]; [lia|].
  destruct (FirstMin.first_min_dtes (fun x => Z.abs (x - 45)) y l) as [Hin _].
  rewrite <- E in Hin. apply filter_elem in Hin as [_ Hgt].
  apply Z.gtb_lt in Hgt. lia.
Qed.

Lemma quote_dte_available col chain strike option_type dte c :
  quote col chain strike option_type dte = Ok c -> dte ∈ available_dtes chain.
Proof.
  intros H. apply quote_row in H as (row & Hin & _ & _ & Hd & _).
  apply available_dtes_elem. now exists row.
Qed.

(** X20.  Whenever [_generate_calendar_spread] returns, both legs
    have the strike selected by call delta 0.50 at the near expiration,
    whatever the option type (calls when [rsi_14] is above 50, else
    puts); the net debit is the far ask minus the near bid times 100;
    both expirations are in the chain and more than 14 days apart; and
    [max_profit] is a text, with no [total_max_profit]. *)
Theorem calendar_spread_trade
    (s : Store) (r : ref) (chain : DataFrame) (features : Features)
    (current_price : Q) (d : PyDict) (s' : Store) :
  frames s !! r = Some chain ->
  _generate_calendar_spread r features current_price s = (Ok d, s') ->
  let option_type :=
    if Num.ltb 50 (features_get features "rsi_14" 50) then call else put in
  exists (near far contracts : Z) (strike near_bid far_ask net_debit : Q),
    nearest_dte chain 21 = Ok near
    /\ far = select_far_dte (available_dtes chain) near
    /\ strike_by_delta chain 0.50 call near = Ok strike
    /\ quote Col.bid chain strike option_type near = Ok near_bid
    /\ quote Col.ask chain strike option_type far = Ok far_ask
    /\ dict_get d "option_type" = Some (VStr (upper option_type))
    /\ dict_get d "near_dte" = Some (VInt near)
    /\ dict_get d "far_dte" = Some (VInt far)
    /\ dict_get d "contracts" = Some (VInt contracts)
    /\ dict_get d "max_profit" = Some (VStr "Variable (depends on IV expansion)")
    /\ dict_get d "total_max_profit" = None
    /\ field d "strike" = Some strike
    /\ field d "net_debit" = Some net_debit
    /\ field d "max_loss" = Some net_debit
    /\ field d "total_debit" = Some (net_debit * inject_Z contracts)
    /\ field d "total_max_loss" = Some (net_debit * inject_Z contracts)
    /\ net_debit = (far_ask - near_bid) * 100
    /\ contracts = position_size (risk_manager s) net_debit
    /\ near ∈ available_dtes chain
    /\ far ∈ available_dtes chain
    /\ (near + 14 < far)%Z.
Proof.
  intros Hr Hrun option_type. unfold option_type. clear option_type.
  from_outcome Hr Hrun. unfold _generate_calendar_spread.
  destruct (Num.ltb 50 (features_get features "rsi_14" 50)) eqn:Ersi;
    run_calls; apply runs_ret; subst.
  all: do 7 eexists.
  all: repeat (split; [first [eassumption | reflexivity]|]).
  all: split; [eapply nearest_dte_least; eassumption|].
  all: split; [eapply quote_dte_available; eassumption | apply select_far_dte_beyond].
Qed.

Lemma calendar_spread_trade_witness :
  frames TwoExpirations.store !! Examples.option_chain = Some TwoExpirations.chain
  /\ exists d s' near far,
      _generate_calendar_spread Examples.option_chain Examples.no_features 105
        TwoExpirations.store = (Ok d, s')
      /\ dict_get d "near_dte" = Some (VInt near)
      /\ dict_get d "far_dte" = Some (VInt far)
      /\ (near + 14 < far)%Z.
Proof.
  assert (frames TwoExpirations.store !! Examples.option_chain
          = Some TwoExpirations.chain) as H by reflexivity.
  split; [exact H|].
  destruct (_generate_calendar_spread Examples.option_chain Examples.no_features 105
              TwoExpirations.store) as [[d|e] s'] eqn:Hrun;
    [|vm_compute in Hrun; discriminate Hrun].
  destruct (calendar_spread_trade _ _ _ _ _ _ _ H Hrun)
    as (near & far & n & k & nb & fa & nd
        & _ & _ & _ & _ & _ & _ & Hnear & Hfar & _ & _ & _ & _ & _ & _ & _ & _ & _ & _
        & _ & _ & Hgap).
  exists d, s', near, far. split; [reflexivity|].
  split; [exact Hnear|]. split; [exact Hfar | exact Hgap].
Defined.

(** X21.  Whenever [_generate_diagonal_spread] returns, the long leg
    was selected by delta 0.50 at the far and the short leg by delta
    0.30 at the near expiration (calls and "Bullish" when [rsi_14] is
    above 55, else puts and "Bearish"); the net debit is the long ask
    minus the short bid times 100; both expirations are in the chain
    and more than 14 days apart. *)
Theorem diagonal_spread_trade
    (s : Store) (r : ref) (chain : DataFrame) (features : Features)
    (current_price : Q) (d : PyDict) (s' : Store) :
  frames s !! r = Some chain ->
  _generate_diagonal_spread r features current_price s = (Ok d, s') ->
  let bullish := Num.ltb 55 (features_get features "rsi_14" 50) in
  let option_type := if bullish then call else put in
  let long_delta := if bullish then 0.50 else -0.50 in
  let short_delta := if bullish then 0.30 else -0.30 in
  exists (near far contracts : Z)
         (long_strike short_strike long_ask short_bid net_debit : Q),
    nearest_dte chain 21 = Ok near
    /\ far = select_far_dte (available_dtes chain) near
    /\ strike_by_delta chain long_delta option_type far = Ok long_strike
    /\ strike_by_delta chain short_delta option_type near = Ok short_strike
    /\ quote Col.ask chain long_strike option_type far = Ok long_ask
    /\ quote Col.bid chain short_strike option_type near = Ok short_bid
    /\ dict_get d "option_type" = Some (VStr (upper option_type))
    /\ dict_get d "bias" = Some (VStr (if bullish then "Bullish" else "Bearish"))
    /\ dict_get d "near_dte" = Some (VInt near)
    /\ dict_get d "far_dte" = Some (VInt far)
    /\ dict_get d "contracts" = Some (VInt contracts)
    /\ dict_get d "max_profit"
       = Some (VStr "Variable (depends on price movement and IV)")
    /\ dict_get d "total_max_profit" = None
    /\ field d "long_strike" = Some long_strike
    /\ field d "short_strike" = Some short_strike
    /\ field d "net_debit" = Some net_debit
    /\ field d "max_loss" = Some net_debit
    /\ field d "total_debit" = Some (net_debit * inject_Z contracts)
    /\ field d "total_max_loss" = Some (net_debit * inject_Z contracts)
    /\ net_debit = (long_ask - short_bid) * 100
    /\ contracts = position_size (risk_manager s) net_debit
    /\ near ∈ available_dtes chain
    /\ far ∈ available_dtes chain
    /\ (near + 14 < far)%Z.
Proof.
  intros Hr Hrun bullish option_type long_delta short_delta.
  unfold option_type, long_delta, short_delta, bullish.
  clear option_type long_delta short_delta bullish.
  from_outcome Hr Hrun. unfold _generate_diagonal_spread.
  destruct (Num.ltb 55 (features_get features "rsi_14" 50)) eqn:Ersi;
    run_calls; apply runs_ret; subst.
  all: do 8 eexists.
  all: repeat (split; [first [eassumption | reflexivity]|]).
  all: split; [eapply nearest_dte_least; eassumption|].
  all: split; [eapply quote_dte_available; eassumption | apply select_far_dte_beyond].
Qed.

Lemma diagonal_spread_trade_witness :
  frames TwoExpirations.store !! Examples.option_chain = Some TwoExpirations.chain
  /\ exists d s' near far,
      _generate_diagonal_spread Examples.option_chain Examples.no_features 105
        TwoExpirations.store = (Ok d, s')
      /\ dict_get d "near_dte" = Some (VInt near)
      /\ dict_get d "far_dte" = Some (VInt far)
      /\ far ∈ available_dtes TwoExpirations.chain.
Proof.
  assert (frames TwoExpirations.store !! Examples.option_chain
          = Some TwoExpirations.chain) as H by reflexivity.
  split; [exact H|].
  destruct (_generate_diagonal_spread Examples.option_chain Examples.no_features 105
              TwoExpirations.store) as [[d|e] s'] eqn:Hrun;
    [|vm_compute in Hrun; discriminate Hrun].
  destruct (diagonal_spread_trade _ _ _ _ _ _ _ H Hrun)
    as (near & far & n & ls & ss & la & sb & nd
        & _ & _ & _ & _ & _ & _ & _ & _ & Hnear & Hfar & _ & _ & _ & _ & _ & _ & _ & _
        & _ & _ & _ & _ & Hin & _).
  exists d, s', near, far. split; [reflexivity|].
  split; [exact Hnear|]. split; [exact Hfar | exact Hin].
Defined.

End TimeSpreadFacts.

(** ** The agent's risk validation of a generated trade *)

Module AgentFacts.

Import Builtins DF ParameterGenerator Reading Outcome RecommendationAgent.
Import RiskManagerM.
Import RiskManagerFacts StoreFacts SelectorFacts BuilderFacts OutcomeFacts GenerateFacts.
Import SizingFacts LookupFacts PayoffFacts.
Local Open Scope string_scope.
Local Open Scope Q_scope.

Lemma Qabs_eq_zero a : Qabs a == 0 <-> a == 0.
Proof.
  apply Qabs_case; intros; lra.
Qed.

Lemma Qabs_Qabs a : Qabs (Qabs a) == Qabs a.
Proof. apply Qabs_pos, Qabs_nonneg. Qed.

Lemma position_size_ge_1 rm loss : (1 <= position_size rm loss)%Z.
Proof. unfold position_size. destruct (Num.leb loss 0); lia. Qed.

Lemma validate_trade_number s a p :
  ~ a == 0 -> ~ account_size (risk_manager s) == 0 ->
  validate_trade a (VNum p) s
  = (Ok {| approved :=
             Num.leb (Qabs a / account_size (risk_manager s))
                     (risk_per_trade (risk_manager s))
             && Num.ltb 0.5 (p / Qabs a);
           risk_reward_ratio := p / Qabs a;
           risk_percentage := Qabs a / account_size (risk_manager s);
           v_max_risk_amount := max_risk_amount (risk_manager s);
           warnings := [] |}, s).
Proof.
  intros Ha Hacc. unfold validate_trade. rewrite run_bind. cbn [get_store].
  rewrite run_bind.
  assert (Num.neb a 0 = true) as -> by now apply NumFacts.neb_true.
  rewrite run_bind. cbn [as_number mret Py_ret].
  rewrite truediv_ok by now rewrite Qabs_eq_zero.
  now rewrite run_bind, truediv_ok.
Qed.

Lemma validate_trade_text s a text :
  ~ a == 0 -> validate_trade a (VStr text) s = (Raise TypeError, s).
Proof.
  intros Ha. unfold validate_trade. rewrite run_bind. cbn [get_store].
  rewrite run_bind.
  assert (Num.neb a 0 = true) as -> by now apply NumFacts.neb_true.
  reflexivity.
Qed.

Lemma validate_trade_zero s a p :
  a == 0 -> ~ account_size (risk_manager s) == 0 ->
  exists v, validate_trade a p s = (Ok v, s)
            /\ approved v = false /\ risk_reward_ratio v = 0
            /\ risk_percentage v = Qabs a / account_size (risk_manager s).
Proof.
  intros Ha Hacc. unfold validate_trade. rewrite run_bind. cbn [get_store].
  rewrite run_bind.
  assert (Num.neb a 0 = false) as -> by now apply NumFacts.neb_false.
  cbn [mret Py_ret]. rewrite run_bind, truediv_ok by exact Hacc.
  eexists. split; [reflexivity|]. cbn.
  split; [apply andb_false_r|]. split; reflexivity.
Qed.

Lemma both_keys d x y :
  dict_get d "max_loss" = Some x -> dict_get d "max_profit" = Some y ->
  bool_decide (is_Some (dict_get d "max_loss"))
  && bool_decide (is_Some (dict_get d "max_profit")) = true.
Proof.
  intros -> ->. rewrite !bool_decide_eq_true_2 by (eexists; reflexivity). reflexivity.
Qed.

(** The validation block on a trade whose profit is a text other than
    "unlimited". *)
Lemma add_risk_validation_text d x text total s :
  dict_get d "max_loss" = Some x ->
  dict_get d "max_profit" = Some (VStr text) ->
  contains "unlimited" (lower text) = false ->
  dict_get d "total_max_profit" = None ->
  dict_get d "total_max_loss" = Some (VNum total) ->
  (~ total == 0 -> add_risk_validation d s = (Raise TypeError, s))
  /\ (total == 0 -> ~ account_size (risk_manager s) == 0 ->
      exists v, add_risk_validation d s = (Ok (d, Some v), s)
                /\ approved v = false /\ risk_reward_ratio v = 0).
Proof.
  intros Hl Hp Htext Htp Htl. unfold add_risk_validation.
  rewrite (both_keys d _ _ Hl Hp). unfold get_or. rewrite Htl, Htp, Hp, Htext.
  rewrite run_bind. cbn [mret Py_ret]. rewrite run_bind.
  unfold py_abs. rewrite run_bind. cbn [as_number mret Py_ret]. rewrite run_bind.
  split.
  - intros Hnz. rewrite validate_trade_text by now rewrite Qabs_eq_zero.
    reflexivity.
  - intros Hz Hacc.
    destruct (validate_trade_zero s (Qabs total) (VStr text))
      as (v & -> & Hv1 & Hv2 & _); [now rewrite Qabs_eq_zero | exact Hacc |].
    now exists v.
Qed.

(** The validation block on a trade with unlimited profit. *)
Lemma add_risk_validation_unlimited d total s :
  dict_get d "max_loss" = Some (VNum total) ->
  dict_get d "max_profit" = Some (VStr "Unlimited") ->
  dict_get d "total_max_profit" = None ->
  dict_get d "total_max_loss" = None ->
  ~ account_size (risk_manager s) == 0 ->
  exists v, add_risk_validation d s = (Ok (d, Some v), s)
    /\ risk_percentage v == Qabs total / account_size (risk_manager s)
    /\ (~ total == 0 ->
        risk_reward_ratio v == 3
        /\ (approved v = true <-> risk_percentage v <= risk_per_trade (risk_manager s)))
    /\ (total == 0 -> risk_reward_ratio v = 0 /\ approved v = false).
Proof.
  intros Hl Hp Htp Htl Hacc. unfold add_risk_validation.
  rewrite (both_keys d _ _ Hl Hp). unfold get_or. rewrite Htl, Htp, Hp, Hl.
  change (contains "unlimited" (lower "Unlimited")) with true. cbv iota.
  rewrite run_bind. unfold py_abs at 1. rewrite !run_bind.
  cbn [as_number mret Py_ret]. rewrite run_bind.
  unfold py_abs. rewrite run_bind. cbn [as_number mret Py_ret]. rewrite run_bind.
  destruct (Qeq_dec total 0) as [Hz | Hnz].
  - destruct (validate_trade_zero s (Qabs total) (VNum (Qabs total * 3)))
      as (v & -> & Hv1 & Hv2 & Hv3); [now rewrite Qabs_eq_zero | exact Hacc |].
    exists v. split; [reflexivity|].
    split; [now rewrite Hv3, Qabs_Qabs|].
    split; [intros Hn; now destruct Hn | now intros _].
  - rewrite validate_trade_number by (rewrite ?Qabs_eq_zero; assumption).
    eexists. split; [reflexivity|]. cbn.
    assert (~ Qabs total == 0) as Hq by now rewrite Qabs_eq_zero.
    split; [now rewrite Qabs_Qabs|].
    split; [|intros Hz; now destruct Hnz].
    intros _.
    assert (Qabs total * 3 / Qabs (Qabs total) == 3) as H3
      by (rewrite Qabs_Qabs; field; exact Hq).
    split; [exact H3|].
    rewrite andb_true_iff, NumFacts.leb_true, NumFacts.ltb_true, H3.
    split; [tauto | intros H; split; [exact H | reflexivity]].
Qed.

(** The validation block on a trade with numeric totals. *)
Lemma add_risk_validation_totals d x y total_loss total_profit s :
  dict_get d "max_loss" = Some x ->
  dict_get d "max_profit" = Some y ->
  dict_get d "total_max_loss" = Some (VNum total_loss) ->
  dict_get d "total_max_profit" = Some (VNum total_profit) ->
  ~ account_size (risk_manager s) == 0 ->
  exists v, add_risk_validation d s = (Ok (d, Some v), s)
    /\ risk_percentage v == Qabs total_loss / account_size (risk_manager s)
    /\ (~ total_loss == 0 ->
        risk_reward_ratio v == total_profit / Qabs total_loss
        /\ (approved v = true
            <-> risk_percentage v <= risk_per_trade (risk_manager s)
                /\ 0.5 < risk_reward_ratio v))
    /\ (total_loss == 0 -> risk_reward_ratio v = 0 /\ approved v = false).
Proof.
  intros Hl Hp Htl Htp Hacc. unfold add_risk_validation.
  rewrite (both_keys d _ _ Hl Hp). unfold get_or. rewrite Htl, Htp.
  rewrite run_bind. cbn [mret Py_ret]. rewrite run_bind.
  unfold py_abs. rewrite run_bind. cbn [as_number mret Py_ret]. rewrite run_bind.
  destruct (Qeq_dec total_loss 0) as [Hz | Hnz].
  - destruct (validate_trade_zero s (Qabs total_loss) (VNum total_profit))
      as (v & -> & Hv1 & Hv2 & Hv3); [now rewrite Qabs_eq_zero | exact Hacc |].
    exists v. split; [reflexivity|].
    split; [now rewrite Hv3, Qabs_Qabs|].
    split; [intros Hn; now destruct Hn | now intros _].
  - rewrite validate_trade_number by (rewrite ?Qabs_eq_zero; assumption).
    eexists. split; [reflexivity|]. cbn.
    split; [now rewrite Qabs_Qabs|].
    split; [|intros Hz; now destruct Hnz].
    intros _. split; [now rewrite Qabs_Qabs|].
    now rewrite andb_true_iff, NumFacts.leb_true, NumFacts.ltb_true.
Qed.

Ltac unfold_builders :=
  unfold _generate_long_call, _generate_long_put, _generate_bull_call_spread,
    _generate_bear_put_spread, _generate_long_straddle, _generate_long_strangle,
    _generate_iron_condor, _generate_iron_butterfly, _generate_calendar_spread,
    _generate_diagonal_spread.

Lemma time_spread_fields rm chain r strategy features current_price :
  strategy = "CALENDAR_SPREAD" \/ strategy = "DIAGONAL_SPREAD" ->
  runs rm chain r (generate strategy r features current_price)
    (fun d => exists net_debit text,
       dict_get d "max_loss" = Some (VNum net_debit)
       /\ dict_get d "max_profit" = Some (VStr text)
       /\ contains "unlimited" (lower text) = false
       /\ dict_get d "total_max_profit" = None
       /\ dict_get d "total_max_loss"
          = Some (VNum (net_debit * inject_Z (position_size rm net_debit)))).
Proof.
  intros [-> | ->].
  - change (generate "CALENDAR_SPREAD" r features current_price)
      with (_generate_calendar_spread r features current_price).
    unfold_builders. run_calls; apply runs_ret; subst.
    all: do 2 eexists; repeat split; reflexivity.
  - change (generate "DIAGONAL_SPREAD" r features current_price)
      with (_generate_diagonal_spread r features current_price).
    unfold_builders. run_calls; apply runs_ret; subst.
    all: do 2 eexists; repeat split; reflexivity.
Qed.

Lemma unlimited_fields rm chain r strategy features current_price :
  strategy ∈ ["LONG_CALL"; "LONG_PUT"; "LONG_STRADDLE"; "LONG_STRANGLE"] ->
  runs rm chain r (generate strategy r features current_price)
    (fun d => exists cost,
       field d "cost_per_contract" = Some cost
       /\ dict_get d "contracts" = Some (VInt (position_size rm cost))
       /\ dict_get d "max_loss"
          = Some (VNum (cost * inject_Z (position_size rm cost)))
       /\ dict_get d "max_profit" = Some (VStr "Unlimited")
       /\ dict_get d "total_max_profit" = None
       /\ dict_get d "total_max_loss" = None).
Proof.
  rewrite !elem_of_cons, elem_of_nil. intros [-> | [-> | [-> | [-> | []]]]].
  - change (generate "LONG_CALL" r features current_price)
      with (_generate_long_call r features current_price).
    unfold_builders. run_calls; apply runs_ret; subst.
    all: eexists; repeat split; reflexivity.
  - change (generate "LONG_PUT" r features current_price)
      with (_generate_long_put r features current_price).
    unfold_builders. run_calls; apply runs_ret; subst.
    all: eexists; repeat split; reflexivity.
  - change (generate "LONG_STRADDLE" r features current_price)
      with (_generate_long_straddle r features current_price).
    unfold_builders. run_calls; apply runs_ret; subst.
    all: eexists; repeat split; reflexivity.
  - change (generate "LONG_STRANGLE" r features current_price)
      with (_generate_long_strangle r features current_price).
    unfold_builders. run_calls; apply runs_ret; subst.
    all: eexists; repeat split; reflexivity.
Qed.

Lemma defined_risk_fields rm chain r strategy features current_price :
  strategy ∈ ["BULL_CALL_SPREAD"; "BEAR_PUT_SPREAD"; "IRON_CONDOR"; "IRON_BUTTERFLY"] ->
  runs rm chain r (generate strategy r features current_price)
    (fun d => exists max_loss max_profit,
       dict_get d "max_loss" = Some (VNum max_loss)
       /\ dict_get d "max_profit" = Some (VNum max_profit)
       /\ dict_get d "contracts" = Some (VInt (position_size rm max_loss))
       /\ dict_get d "total_max_loss"
          = Some (VNum (max_loss * inject_Z (position_size rm max_loss)))
       /\ dict_get d "total_max_profit"
          = Some (VNum (max_profit * inject_Z (position_size rm max_loss)))
       /\ dict_get d "risk_reward_ratio"
          = Some (VNum (if Num.ltb 0 max_loss then max_profit / max_loss else 0))).
Proof.
  rewrite !elem_of_cons, elem_of_nil. intros [-> | [-> | [-> | [-> | []]]]].
  - change (generate "BULL_CALL_SPREAD" r features current_price)
      with (_generate_bull_call_spread r features current_price).
    unfold_builders. run_calls; apply runs_ret; subst.
    all: do 2 eexists; repeat split; reflexivity.
  - change (generate "BEAR_PUT_SPREAD" r features current_price)
      with (_generate_bear_put_spread r features current_price).
    unfold_builders. run_calls; apply runs_ret; subst.
    all: do 2 eexists; repeat split; reflexivity.
  - change (generate "IRON_CONDOR" r features current_price)
      with (_generate_iron_condor r features current_price).
    unfold_builders. run_calls; apply runs_ret; subst.
    all: do 2 eexists; repeat split; reflexivity.
  - change (generate "IRON_BUTTERFLY" r features current_price)
      with (_generate_iron_butterfly r features current_price).
    unfold_builders. run_calls; apply runs_ret; subst.
    all: do 2 eexists; repeat split; reflexivity.
Qed.

Lemma generate_parameters_after strategy r features current_price s d s' :
  generate strategy r features current_price s = (Ok d, s') ->
  generate_parameters strategy r features current_price s = add_risk_validation d s'.
Proof.
  intros Hrun. unfold generate_parameters. now rewrite run_bind, Hrun.
Qed.

(** X22.  The agent's [generate_parameters] on a calendar or diagonal
    spread: when the generator returns a trade with a total debit other
    than 0, the risk validation divides the text in [max_profit] by the
    loss and the call ends in a [TypeError]; with a total debit of 0 it
    returns the trade with a validation that is not approved. *)
Theorem time_spread_validation_fails
    (s : Store) (r : ref) (chain : DataFrame) (strategy : string)
    (features : Features) (current_price : Q) (d : PyDict) (s' : Store) :
  frames s !! r = Some chain ->
  strategy = "CALENDAR_SPREAD" \/ strategy = "DIAGONAL_SPREAD" ->
  generate strategy r features current_price s = (Ok d, s') ->
  exists total_debit : Q,
    field d "total_max_loss" = Some total_debit
    /\ (~ total_debit == 0 ->
        generate_parameters strategy r features current_price s
        = (Raise TypeError, s'))
    /\ (total_debit == 0 -> ~ account_size (risk_manager s) == 0 ->
        exists v,
          generate_parameters strategy r features current_price s
          = (Ok (d, Some v), s')
          /\ approved v = false /\ risk_reward_ratio v = 0).
Proof.
  intros Hr Hs Hrun.
  destruct (runs_returned _ _ _ _ _ _ _ _
              (time_spread_fields (risk_manager s) chain r strategy features
                 current_price Hs) eq_refl Hr Hrun)
    as ((net_debit & text & Hl & Hp & Htext & Htp & Htl) & [Hrm _]).
  rewrite (generate_parameters_after _ _ _ _ _ _ _ Hrun).
  destruct (add_risk_validation_text d _ text _ s' Hl Hp Htext Htp Htl) as [Hbad Hzero].
  eexists. split; [unfold field; rewrite Htl; reflexivity|].
  split; [exact Hbad|]. intros Hz Hacc. apply Hzero; [exact Hz | now rewrite Hrm].
Qed.

Lemma time_spread_validation_fails_witness :
  frames TwoExpirations.store !! Examples.option_chain = Some TwoExpirations.chain
  /\ ("CALENDAR_SPREAD" = "CALENDAR_SPREAD" \/ "CALENDAR_SPREAD" = "DIAGONAL_SPREAD")
  /\ exists d s',
      generate "CALENDAR_SPREAD" Examples.option_chain Examples.no_features 105
        TwoExpirations.store = (Ok d, s')
      /\ generate_parameters "CALENDAR_SPREAD" Examples.option_chain
           Examples.no_features 105 TwoExpirations.store
         = (Raise TypeError, s').
Proof.
  assert (frames TwoExpirations.store !! Examples.option_chain
          = Some TwoExpirations.chain) as H by reflexivity.
  assert ("CALENDAR_SPREAD" = "CALENDAR_SPREAD" \/ "CALENDAR_SPREAD" = "DIAGONAL_SPREAD")
    as Hs by (left; reflexivity).
  split; [exact H|]. split; [exact Hs|].
  destruct (generate "CALENDAR_SPREAD" Examples.option_chain Examples.no_features 105
              TwoExpirations.store) as [[d|e] s'] eqn:Hrun;
    [|vm_compute in Hrun; discriminate Hrun].
  exists d, s'. split; [reflexivity|].
  destruct (time_spread_validation_fails _ _ _ _ _ _ _ _ H Hs Hrun)
    as (total & Htotal & Hbad & _).
  apply Hbad. vm_compute in Hrun. injection Hrun as <- _.
  vm_compute in Htotal. injection Htotal as <-. discriminate.
Defined.

(** X23.  The agent's [generate_parameters] on a long call, put,
    straddle or strangle: the trade comes back with a validation whose
    risk percentage is the total cost over the account size; for a
    nonzero cost the reward-to-risk ratio is always 3, so the trade is
    approved exactly when the risk percentage is within
    [risk_per_trade]; for a zero cost the ratio is 0 and the trade is
    not approved. *)
Theorem unlimited_profit_validation
    (s : Store) (r : ref) (chain : DataFrame) (strategy : string)
    (features : Features) (current_price : Q) (d : PyDict) (s' : Store) :
  frames s !! r = Some chain ->
  strategy ∈ ["LONG_CALL"; "LONG_PUT"; "LONG_STRADDLE"; "LONG_STRANGLE"] ->
  ~ account_size (risk_manager s) == 0 ->
  generate strategy r features current_price s = (Ok d, s') ->
  exists (cost : Q) (contracts : Z) (v : Validation),
    field d "cost_per_contract" = Some cost
    /\ dict_get d "contracts" = Some (VInt contracts)
    /\ field d "max_loss" = Some (cost * inject_Z contracts)
    /\ generate_parameters strategy r features current_price s = (Ok (d, Some v), s')
    /\ risk_percentage v
       == Qabs (cost * inject_Z contracts) / account_size (risk_manager s)
    /\ (~ cost == 0 ->
        risk_reward_ratio v == 3
        /\ (approved v = true
            <-> risk_percentage v <= risk_per_trade (risk_manager s)))
    /\ (cost == 0 -> risk_reward_ratio v = 0 /\ approved v = false).
Proof.
  intros Hr Hs Hacc Hrun.
  destruct (runs_returned _ _ _ _ _ _ _ _
              (unlimited_fields (risk_manager s) chain r strategy features
                 current_price Hs) eq_refl Hr Hrun)
    as ((cost & Hc & Hn & Hl & Hp & Htp & Htl) & [Hrm _]).
  rewrite (generate_parameters_after _ _ _ _ _ _ _ Hrun).
  destruct (add_risk_validation_unlimited d _ s' Hl Hp Htp Htl)
    as (v & Hv & Hpct & Hnz & Hz); [now rewrite Hrm|].
  rewrite Hrm in *.
  pose proof (position_size_ge_1 (risk_manager s) cost) as Hge.
  set (n := position_size (risk_manager s) cost) in *.
  assert (1 <= inject_Z n) as Hq by (change 1 with (inject_Z 1); now rewrite <- Zle_Qle).
  assert (cost * inject_Z n == 0 <-> cost == 0) as Hiff by (split; intros; nra).
  exists cost, n, v. split; [exact Hc|]. split; [exact Hn|].
  split; [unfold field; now rewrite Hl|]. split; [exact Hv|]. split; [exact Hpct|].
  split; [intros H; apply Hnz; now rewrite Hiff | intros H; apply Hz; now rewrite Hiff].
Qed.

Lemma unlimited_profit_validation_witness :
  frames Examples.store !! Examples.option_chain = Some Examples.chain
  /\ "LONG_STRADDLE" ∈ ["LONG_CALL"; "LONG_PUT"; "LONG_STRADDLE"; "LONG_STRANGLE"]
  /\ ~ account_size (risk_manager Examples.store) == 0
  /\ exists d s' v,
      generate_parameters "LONG_STRADDLE" Examples.option_chain Examples.no_features 105
        Examples.store = (Ok (d, Some v), s')
      /\ risk_reward_ratio v == 3.
Proof.
  assert (frames Examples.store !! Examples.option_chain = Some Examples.chain) as H
    by reflexivity.
  assert ("LONG_STRADDLE" ∈ ["LONG_CALL"; "LONG_PUT"; "LONG_STRADDLE"; "LONG_STRANGLE"])
    as Hs by (do 2 apply list_elem_of_further; apply list_elem_of_here).
  assert (~ account_size (risk_manager Examples.store) == 0) as Hacc by discriminate.
  split; [exact H|]. split; [exact Hs|]. split; [exact Hacc|].
  destruct (generate "LONG_STRADDLE" Examples.option_chain Examples.no_features 105
              Examples.store) as [[d|e] s'] eqn:Hrun;
    [|vm_compute in Hrun; discriminate Hrun].
  destruct (unlimited_profit_validation _ _ _ _ _ _ _ _ H Hs Hacc Hrun)
    as (cost & n & v & Hc & _ & _ & Hv & _ & Hnz & _).
  exists d, s', v. split; [exact Hv|].
  apply Hnz. vm_compute in Hrun. injection Hrun as <- _.
  vm_compute in Hc. injection Hc as <-. discriminate.
Defined.

(** X24.  The agent's [generate_parameters] on a vertical spread, an
    iron condor or an iron butterfly validates the totals: for a
    positive maximum loss the validation's ratio is the trade's own
    [risk_reward_ratio], and the trade is approved exactly when the
    total loss over the account size is within [risk_per_trade] and the
    ratio exceeds 0.5.  For a zero loss it is not approved; for a
    negative one the trade reports a ratio of 0 while the validation
    uses the profit over the absolute loss. *)
Theorem defined_risk_validation
    (s : Store) (r : ref) (chain : DataFrame) (strategy : string)
    (features : Features) (current_price : Q) (d : PyDict) (s' : Store) :
  frames s !! r = Some chain ->
  strategy ∈ ["BULL_CALL_SPREAD"; "BEAR_PUT_SPREAD"; "IRON_CONDOR"; "IRON_BUTTERFLY"] ->
  ~ account_size (risk_manager s) == 0 ->
  generate strategy r features current_price s = (Ok d, s') ->
  exists (max_loss max_profit ratio : Q) (contracts : Z) (v : Validation),
    field d "max_loss" = Some max_loss
    /\ field d "max_profit" = Some max_profit
    /\ field d "risk_reward_ratio" = Some ratio
    /\ dict_get d "contracts" = Some (VInt contracts)
    /\ generate_parameters strategy r features current_price s = (Ok (d, Some v), s')
    /\ risk_percentage v
       == Qabs (max_loss * inject_Z contracts) / account_size (risk_manager s)
    /\ (0 < max_loss ->
        risk_reward_ratio v == ratio
        /\ (approved v = true
            <-> max_loss * inject_Z contracts / account_size (risk_manager s)
                <= risk_per_trade (risk_manager s)
                /\ 0.5 < ratio))
    /\ (max_loss == 0 -> risk_reward_ratio v = 0 /\ approved v = false)
    /\ (max_loss < 0 ->
        contracts = 1%Z /\ ratio = 0
        /\ risk_reward_ratio v == max_profit / - max_loss).
Proof.
  intros Hr Hs Hacc Hrun.
  destruct (runs_returned _ _ _ _ _ _ _ _
              (defined_risk_fields (risk_manager s) chain r strategy features
                 current_price Hs) eq_refl Hr Hrun)
    as ((ml & mp & Hl & Hp & Hn & Htl & Htp & Hrr) & [Hrm _]).
  rewrite (generate_parameters_after _ _ _ _ _ _ _ Hrun).
  destruct (add_risk_validation_totals d _ _ _ _ s' Hl Hp Htl Htp)
    as (v & Hv & Hpct & Hnz & Hz); [now rewrite Hrm|].
  rewrite Hrm in *.
  pose proof (position_size_ge_1 (risk_manager s) ml) as Hge.
  pose proof (position_size_nonpositive (risk_manager s) ml) as Hone.
  set (n := position_size (risk_manager s) ml) in *.
  assert (1 <= inject_Z n) as Hq by (change 1 with (inject_Z 1); now rewrite <- Zle_Qle).
  assert (ml * inject_Z n == 0 <-> ml == 0) as Hiff by (split; intros; nra).
  exists ml, mp, (if Num.ltb 0 ml then mp / ml else 0), n, v.
  split; [unfold field; now rewrite Hl|]. split; [unfold field; now rewrite Hp|].
  split; [unfold field; now rewrite Hrr|]. split; [exact Hn|].
  split; [exact Hv|]. split; [exact Hpct|].
  split; [|split].
  - intros Hpos.
    assert (~ ml * inject_Z n == 0) as Hne by (rewrite Hiff; lra).
    destruct (Hnz Hne) as [Hratio Happ].
    assert (Num.ltb 0 ml = true) as -> by now apply NumFacts.ltb_true.
    assert (Qabs (ml * inject_Z n) == ml * inject_Z n) as Habs
      by (apply Qabs_pos; nra).
    assert (risk_reward_ratio v == mp / ml) as Hr1.
    { rewrite Hratio, Habs. field. split; lra. }
    split; [exact Hr1|].
    rewrite Happ, Hpct, Habs, Hr1. reflexivity.
  - intros H0. apply Hz. now rewrite Hiff.
  - intros Hneg.
    assert (n = 1%Z) as Hn1 by (apply Hone; lra).
    split; [exact Hn1|].
    assert (Num.ltb 0 ml = false) as -> by (apply NumFacts.ltb_false; lra).
    split; [reflexivity|].
    assert (~ ml * inject_Z n == 0) as Hne by (rewrite Hiff; lra).
    destruct (Hnz Hne) as [Hratio _]. rewrite Hratio.
    assert (Qabs (ml * inject_Z n) == - ml) as ->.
    { rewrite Hn1. change (inject_Z 1) with 1.
      rewrite Qabs_neg by lra. ring. }
    rewrite Hn1. change (inject_Z 1) with 1. field. lra.
Qed.

Lemma defined_risk_validation_witness :
  frames Examples.store !! Examples.option_chain = Some Examples.chain
  /\ "BULL_CALL_SPREAD"
     ∈ ["BULL_CALL_SPREAD"; "BEAR_PUT_SPREAD"; "IRON_CONDOR"; "IRON_BUTTERFLY"]
  /\ ~ account_size (risk_manager Examples.store) == 0
  /\ exists d s' v ratio,
      generate_parameters "BULL_CALL_SPREAD" Examples.option_chain Examples.no_features
        105 Examples.store = (Ok (d, Some v), s')
      /\ field d "risk_reward_ratio" = Some ratio
      /\ risk_reward_ratio v == ratio.
Proof.
  assert (frames Examples.store !! Examples.option_chain = Some Examples.chain) as H
    by reflexivity.
  assert ("BULL_CALL_SPREAD"
          ∈ ["BULL_CALL_SPREAD"; "BEAR_PUT_SPREAD"; "IRON_CONDOR"; "IRON_BUTTERFLY"])
    as Hs by apply list_elem_of_here.
  assert (~ account_size (risk_manager Examples.store) == 0) as Hacc by discriminate.
  split; [exact H|]. split; [exact Hs|]. split; [exact Hacc|].
  destruct (generate "BULL_CALL_SPREAD" Examples.option_chain Examples.no_features 105
              Examples.store) as [[d|e] s'] eqn:Hrun;
    [|vm_compute in Hrun; discriminate Hrun].
  destruct (defined_risk_validation _ _ _ _ _ _ _ _ H Hs Hacc Hrun)
    as (ml & mp & ratio & n & v & Hml & _ & Hratio & _ & Hv & _ & Hpos & _).
  exists d, s', v, ratio. split; [exact Hv|]. split; [exact Hratio|].
  apply Hpos. vm_compute in Hrun. injection Hrun as <- _.
  vm_compute in Hml. injection Hml as <-. reflexivity.
Defined.

End AgentFacts.

(** ** The distribution check *)

Module DistributionFacts.

Import StrategyDistribution.
Local Open Scope string_scope.
Local Open Scope list_scope.
Local Open Scope Q_scope.

Lemma count_of_cons label x column :
  count_of label (x :: column)
  = ((if String.eqb label x then 1 else 0) + count_of label column)%nat.
Proof.
  unfold count_of. cbn [List.filter]. now destruct (String.eqb label x).
Qed.

Lemma count_of_pos label column :
  (0 < count_of label column)%nat <-> label ∈ column.
Proof.
  induction column as [|x column IH].
  - cbn. rewrite elem_of_nil. lia.
  - rewrite count_of_cons, elem_of_cons, <- IH.
    destruct (String.eqb_spec label x); [|intuition lia].
    split; [now left | lia].
Qed.

Lemma index_elem label column : label ∈ index column <-> label ∈ column.
Proof. unfold index. apply elem_of_list_to_set. Qed.

(** A share that is within its range, in whole numbers. *)
Lemma check_range_passed column strategy min_pct max_pct :
  (0 < min_pct)%Z ->
  check_range column (strategy, (min_pct, max_pct)) = [] ->
  strategy ∈ column
  /\ (min_pct * Z.of_nat (length column)
      <= 100 * Z.of_nat (count_of strategy column)
      <= max_pct * Z.of_nat (length column))%Z.
Proof.
  intros Hmin. unfold check_range, strategy_pct.
  destruct (Num.ltb _ _ || Num.ltb _ _) eqn:E; [discriminate|]. intros _.
  apply orb_false_iff in E as [E1 E2]. reflect_cmp.
  assert (0 < inject_Z min_pct) as Hq
    by (change 0 with (inject_Z 0); now rewrite <- Zlt_Qlt).
  destruct (bool_decide (strategy ∈ index column)) eqn:Hin; [|lra].
  apply bool_decide_eq_true_1, index_elem in Hin.
  split; [exact Hin|].
  assert (0 < length column)%nat as Hlen.
  { destruct column; [now apply elem_of_nil in Hin | cbn; lia]. }
  assert (0 < inject_Z (Z.of_nat (length column))) as Hn
    by (change 0 with (inject_Z 0); rewrite <- Zlt_Qlt; lia).
  set (c := Z.of_nat (count_of strategy column)) in *.
  set (n := Z.of_nat (length column)) in *.
  assert (inject_Z c / inject_Z n * 100 * inject_Z n == 100 * inject_Z c) as Hmul
    by (field; lra).
  assert (inject_Z min_pct * inject_Z n <= 100 * inject_Z c) as H1.
  { rewrite <- Hmul. apply Qmult_le_compat_r; lra. }
  assert (100 * inject_Z c <= inject_Z max_pct * inject_Z n) as H2.
  { rewrite <- Hmul. apply Qmult_le_compat_r; lra. }
  change 100 with (inject_Z 100) in H1, H2.
  rewrite <- !inject_Z_mult, <- Zle_Qle in H1, H2. lia.
Qed.

Lemma check_range_absent column strategy min_pct max_pct :
  (0 < min_pct)%Z -> strategy ∉ column ->
  check_range column (strategy, (min_pct, max_pct))
  = [OutOfRange strategy min_pct max_pct 0].
Proof.
  intros Hmin Hout. unfold check_range, strategy_pct.
  rewrite bool_decide_eq_false_2 by now rewrite index_elem.
  assert (Num.ltb 0 (inject_Z min_pct) = true) as ->; [|reflexivity].
  apply NumFacts.ltb_true. change 0 with (inject_Z 0). now rewrite <- Zlt_Qlt.
Qed.

Lemma range_failures_shape column f :
  f ∈ flat_map (check_range column) expected_ranges ->
  exists strategy min_pct max_pct actual, f = OutOfRange strategy min_pct max_pct actual.
Proof.
  intros Hf. apply list_elem_of_In, in_flat_map in Hf as ([k [lo hi]] & _ & Hf).
  unfold check_range in Hf. destruct (_ || _); [|destruct Hf].
  destruct Hf as [<- | []]. eauto.
Qed.

Lemma labels_size : size (list_to_set (map fst expected_ranges) : gset string) = 10%nat.
Proof.
  rewrite size_list_to_set; [reflexivity|].
  cbn. repeat (apply NoDup_cons;
               split; [rewrite ?elem_of_cons, elem_of_nil; intuition discriminate|]).
  apply NoDup_nil_2.
Qed.

(** Fewer than ten labels in the column: one of the ten is absent. *)
Lemma some_label_absent column :
  (size (index column) < 10)%nat ->
  exists entry, entry ∈ expected_ranges /\ entry.1 ∉ column.
Proof.
  intros Hsize.
  destruct (decide (Forall (fun entry : string * (Z * Z) => entry.1 ∈ column)
                      expected_ranges)) as [Hall | Hnot].
  - exfalso.
    assert ((list_to_set (map fst expected_ranges) : gset string) ⊆ index column) as Hsub.
    { intros l Hl. apply elem_of_list_to_set, list_elem_of_fmap in Hl as (e & -> & He).
      apply index_elem. rewrite Forall_forall in Hall. now apply Hall. }
    apply subseteq_size in Hsub. rewrite labels_size in Hsub. lia.
  - apply not_Forall_Exists in Hnot; [|intros e; apply _].
    apply Exists_exists in Hnot as (e & He & Hout). now exists e.
Qed.

Lemma expected_minimum_positive strategy min_pct max_pct :
  (strategy, (min_pct, max_pct)) ∈ expected_ranges -> (0 < min_pct)%Z.
Proof.
  unfold expected_ranges. rewrite !elem_of_cons, elem_of_nil.
  intros H. destruct_or!; try contradiction; simplify_eq; lia.
Qed.

(** Every row carries one of the ten labels or none of them. *)
Lemma rows_by_label column :
  (Z.of_nat (length column)
   = Z.of_nat (count_of "IRON_CONDOR" column)
     + Z.of_nat (count_of "LONG_CALL" column)
     + Z.of_nat (count_of "LONG_PUT" column)
     + Z.of_nat (count_of "IRON_BUTTERFLY" column)
     + Z.of_nat (count_of "BULL_CALL_SPREAD" column)
     + Z.of_nat (count_of "BEAR_PUT_SPREAD" column)
     + Z.of_nat (count_of "LONG_STRADDLE" column)
     + Z.of_nat (count_of "LONG_STRANGLE" column)
     + Z.of_nat (count_of "CALENDAR_SPREAD" column)
     + Z.of_nat (count_of "DIAGONAL_SPREAD" column)
     + Z.of_nat (length (List.filter
                           (fun label => bool_decide (label ∉ map fst expected_ranges))
                           column)))%Z.
Proof.
  induction column as [|x column IH]; [reflexivity|].
  rewrite !count_of_cons. cbn [List.filter length].
  destruct (decide (x ∈ map fst expected_ranges)) as [Hin | Hout].
  - rewrite bool_decide_eq_false_2 by (intros H; now apply H).
    cbn in Hin. rewrite !elem_of_cons, elem_of_nil in Hin.
    destruct_or!; try contradiction; subst x; cbn [String.eqb Ascii.eqb Bool.eqb]; lia.
  - rewrite bool_decide_eq_true_2 by exact Hout.
    cbn in Hout. rewrite !elem_of_cons, elem_of_nil in Hout.
    repeat match goal with
      | |- context [String.eqb ?l x] =>
          destruct (String.eqb_spec l x) as [<- | ?]; [exfalso; apply Hout; tauto|]
      end.
    cbn [length]. lia.
Qed.

(** X25.  When [validate_strategy_distribution] accepts a column, the
    failure list is empty, the column is not empty, each of the ten
    labels occurs with a share inside its expected range, and at most
    4% of the rows carry any other label. *)
Theorem valid_distribution_covers_labels (column : Column) (failures : list Failure) :
  validate_strategy_distribution column = (true, failures) ->
  failures = []
  /\ column <> []
  /\ (forall strategy min_pct max_pct,
        (strategy, (min_pct, max_pct)) ∈ expected_ranges ->
        strategy ∈ column
        /\ (min_pct * Z.of_nat (length column)
            <= 100 * Z.of_nat (count_of strategy column)
            <= max_pct * Z.of_nat (length column))%Z)
  /\ (100 * Z.of_nat (length (List.filter
                                (fun label => bool_decide (label ∉ map fst expected_ranges))
                                column))
      <= 4 * Z.of_nat (length column))%Z.
Proof.
  unfold validate_strategy_distribution.
  set (range_failures := flat_map (check_range column) expected_ranges).
  intros Hrun.
  pose proof (f_equal fst Hrun) as Hlen. pose proof (f_equal snd Hrun) as Hfs.
  cbn [fst snd] in Hlen, Hfs. clear Hrun. subst failures.
  apply Nat.eqb_eq, length_zero_iff_nil in Hlen.
  destruct (size (index column) <? 10)%nat;
    [now apply app_eq_nil in Hlen as [_ ?]|].
  assert (forall strategy min_pct max_pct,
             (strategy, (min_pct, max_pct)) ∈ expected_ranges ->
             strategy ∈ column
             /\ (min_pct * Z.of_nat (length column)
                 <= 100 * Z.of_nat (count_of strategy column)
                 <= max_pct * Z.of_nat (length column))%Z) as Hranges.
  { intros strategy lo hi Hentry.
    apply check_range_passed; [eapply expected_minimum_positive; eassumption|].
    destruct (check_range column (strategy, (lo, hi))) as [|f fs] eqn:E; [reflexivity|].
    exfalso.
    assert (f ∈ range_failures) as Hf.
    { apply list_elem_of_In, in_flat_map. exists (strategy, (lo, hi)).
      split; [now apply list_elem_of_In | rewrite E; now left]. }
    rewrite Hlen in Hf. now apply elem_of_nil in Hf. }
  split; [exact Hlen|].
  split.
  { intros ->. destruct (Hranges "IRON_CONDOR" 20%Z 30%Z) as [Hin _];
      [apply list_elem_of_here | now apply elem_of_nil in Hin]. }
  split; [exact Hranges|].
  pose proof (rows_by_label column) as Hrows.
  assert (forall strategy lo hi, (strategy, (lo, hi)) ∈ expected_ranges ->
            (lo * Z.of_nat (length column)
             <= 100 * Z.of_nat (count_of strategy column))%Z) as Hmin
    by (intros ? ? ? H; apply (Hranges _ _ _ H)).
  pose proof (Hmin "IRON_CONDOR" 20%Z 30%Z).
  pose proof (Hmin "LONG_CALL" 15%Z 20%Z).
  pose proof (Hmin "LONG_PUT" 15%Z 20%Z).
  pose proof (Hmin "IRON_BUTTERFLY" 10%Z 15%Z).
  pose proof (Hmin "BULL_CALL_SPREAD" 10%Z 15%Z).
  pose proof (Hmin "BEAR_PUT_SPREAD" 10%Z 15%Z).
  pose proof (Hmin "LONG_STRADDLE" 5%Z 10%Z).
  pose proof (Hmin "LONG_STRANGLE" 5%Z 10%Z).
  pose proof (Hmin "CALENDAR_SPREAD" 3%Z 5%Z).
  pose proof (Hmin "DIAGONAL_SPREAD" 3%Z 5%Z).
  assert (forall e, e ∈ expected_ranges -> e ∈ expected_ranges) as Hid by auto.
  repeat match goal with
    | H : (?e ∈ expected_ranges) -> _ |- _ =>
        specialize (H ltac:(unfold expected_ranges; rewrite !elem_of_cons; tauto))
    end.
  lia.
Qed.


Lemma valid_distribution_covers_labels_witness :
  validate_strategy_distribution balanced = (true, [])
  /\ balanced <> []
  /\ "CALENDAR_SPREAD" ∈ balanced.
Proof.
  assert (validate_strategy_distribution balanced = (true, [])) as H
    by (vm_compute; reflexivity).
  split; [exact H|].
  destruct (valid_distribution_covers_labels balanced [] H) as (_ & Hne & Hranges & _).
  split; [exact Hne|].
  apply (Hranges "CALENDAR_SPREAD" 3%Z 5%Z).
  unfold expected_ranges. do 8 apply list_elem_of_further. apply list_elem_of_here.
Defined.

(** X26.  When [validate_strategy_distribution] reports "Missing
    strategies", fewer than ten labels occur in the column, the entry
    lists exactly the expected labels absent from it, and it does not
    come alone: one of the labels it lists is also reported out of
    range with a share of 0, and the column is rejected. *)
Theorem missing_strategies_never_alone
    (column : Column) (present : nat) (missing : gset string) :
  MissingStrategies present missing ∈ (validate_strategy_distribution column).2 ->
  present = size (index column)
  /\ (present < 10)%nat
  /\ (forall label,
        label ∈ missing <-> label ∈ map fst expected_ranges /\ label ∉ column)
  /\ (validate_strategy_distribution column).1 = false
  /\ exists strategy min_pct max_pct,
       strategy ∈ missing
       /\ OutOfRange strategy min_pct max_pct 0
          ∈ (validate_strategy_distribution column).2.
Proof.
  unfold validate_strategy_distribution.
  set (range_failures := flat_map (check_range column) expected_ranges).
  cbn [fst snd].
  destruct (size (index column) <? 10)%nat eqn:Hsize.
  - intros Hin. apply elem_of_app in Hin as [Hin | Hin].
    { apply range_failures_shape in Hin as (? & ? & ? & ? & ?). discriminate. }
    apply list_elem_of_singleton in Hin. injection Hin as -> ->.
    apply Nat.ltb_lt in Hsize.
    split; [reflexivity|]. split; [exact Hsize|].
    assert (forall label,
               label ∈ (list_to_set (map fst expected_ranges) : gset string) ∖ index column
               <-> label ∈ map fst expected_ranges /\ label ∉ column) as Hmissing.
    { intros label. now rewrite elem_of_difference, elem_of_list_to_set, index_elem. }
    split; [exact Hmissing|].
    split.
    { rewrite length_app. cbn [length]. apply Nat.eqb_neq. lia. }
    destruct (some_label_absent column Hsize) as ([strategy [lo hi]] & Hentry & Hout).
    cbn [fst] in Hout.
    exists strategy, lo, hi. split.
    + apply Hmissing. split; [|exact Hout].
      apply list_elem_of_fmap. now exists (strategy, (lo, hi)).
    + apply elem_of_app. left. unfold range_failures.
      apply list_elem_of_In, in_flat_map. exists (strategy, (lo, hi)).
      split; [now apply list_elem_of_In|].
      rewrite check_range_absent;
        [now left | eapply expected_minimum_positive; eassumption | exact Hout].
  - intros Hin. apply range_failures_shape in Hin as (? & ? & ? & ? & ?). discriminate.
Qed.

Lemma missing_strategies_never_alone_witness :
  MissingStrategies 0 ((list_to_set (map fst expected_ranges) : gset string) ∖ index [])
    ∈ (validate_strategy_distribution []).2
  /\ (validate_strategy_distribution []).1 = false.
Proof.
  assert (MissingStrategies 0
            ((list_to_set (map fst expected_ranges) : gset string) ∖ index [])
            ∈ (validate_strategy_distribution []).2) as H.
  { unfold validate_strategy_distribution. cbn [snd].
    change (size (index []) <? 10)%nat with true. cbv iota.
    apply elem_of_app. right. apply list_elem_of_here. }
  split; [exact H|].
  exact (proj1 (proj2 (proj2 (proj2 (missing_strategies_never_alone [] _ _ H))))).
Defined.

End DistributionFacts.

(** ** Candidate parameters *)

Module CandidateFacts.

Import CreateLabels.
Local Open Scope string_scope.
Local Open Scope list_scope.
Local Open Scope Q_scope.

(** Rounding moves a number by at most one half. *)
Lemma py_round_near x :
  inject_Z (py_round x) - 1 / 2 <= x <= inject_Z (py_round x) + 1 / 2.
Proof.
  unfold py_round. cbv zeta. change (1 / 2) with (1 # 2).
  pose proof (Qfloor_le x) as Hl. pose proof (Qlt_floor x) as Hu.
  rewrite inject_Z_plus in Hu. change (inject_Z 1) with 1 in Hu.
  destruct (Num.ltb (x - inject_Z (Qfloor x)) (1 # 2)) eqn:E1; reflect_cmp; [lra|].
  destruct (Num.ltb (1 # 2) (x - inject_Z (Qfloor x))) eqn:E2; reflect_cmp.
  - rewrite inject_Z_plus. change (inject_Z 1) with 1. lra.
  - destruct (Z.even (Qfloor x)); [lra|].
    rewrite inject_Z_plus. change (inject_Z 1) with 1. lra.
Qed.

Lemma py_round_lt x y : x + 1 < y -> (py_round x < py_round y)%Z.
Proof.
  intros H. pose proof (py_round_near x) as Hx. pose proof (py_round_near y) as Hy.
  change (1 / 2) with (1 # 2) in Hx, Hy. rewrite Zlt_Qlt. lra.
Qed.

(** Two prices more than one grid step apart land on different strikes. *)
Lemma to_grid_lt x y : x + 2.5 < y -> to_grid x < to_grid y.
Proof.
  intros H. unfold to_grid.
  assert (py_round (x / 2.5) < py_round (y / 2.5))%Z as Hlt.
  { apply py_round_lt.
    assert (x / 2.5 == x * (2 # 5)) as -> by (field; discriminate).
    assert (y / 2.5 == y * (2 # 5)) as -> by (field; discriminate).
    lra. }
  rewrite Zlt_Qlt in Hlt. lra.
Qed.

Lemma to_grid_ltb x y : x + 2.5 < y -> Num.ltb (to_grid x) (to_grid y) = true.
Proof. intros H. now apply NumFacts.ltb_true, to_grid_lt. Qed.

Lemma to_grid_neb_up x y : x + 2.5 < y -> Num.neb (to_grid x) (to_grid y) = true.
Proof.
  intros H. apply NumFacts.neb_true. pose proof (to_grid_lt x y H). lra.
Qed.

Lemma to_grid_neb_down x y : y + 2.5 < x -> Num.neb (to_grid x) (to_grid y) = true.
Proof.
  intros H. apply NumFacts.neb_true. pose proof (to_grid_lt y x H). lra.
Qed.

(** X27.  The cut-off of the candidate lists removes whole
    expirations, whatever the price: the long-option candidates are
    five at 7 and five at 14 days (never 21), the straddle candidates
    keep one at 30 days, the strangle candidates none, the calendar
    candidates pair the near date 21 only with the far date 35, and the
    iron butterfly list has nine symmetric entries.  Diagonal
    candidates are at most 15, each with the short strike above the
    long strike. *)
Theorem candidate_lists_cut_expirations (current_price : Q) :
  (forall option_type,
     map Single.dte (generate_long_option_params current_price option_type)
     = (replicate 5 7 ++ replicate 5 14)%Z)
  /\ map Single.dte (generate_straddle_params current_price)
     = (replicate 3 7 ++ replicate 3 14 ++ replicate 3 21 ++ [30])%Z
  /\ map Strangle.dte (generate_strangle_params current_price)
     = (replicate 9 14 ++ replicate 6 21)%Z
  /\ map (fun p => (Calendar.near_dte p, Calendar.far_dte p))
       (generate_calendar_spread_params current_price)
     = (replicate 3 (14, 35) ++ replicate 3 (14, 45) ++ replicate 3 (14, 60)
        ++ replicate 3 (21, 35))%Z
  /\ map IronButterfly.dte (generate_iron_butterfly_params current_price)
     = (replicate 3 21 ++ replicate 3 30 ++ replicate 3 45)%Z
  /\ (forall p, p ∈ generate_iron_butterfly_params current_price ->
        IronButterfly.short_put p = IronButterfly.center_strike p
        /\ IronButterfly.short_call p = IronButterfly.center_strike p
        /\ IronButterfly.long_call p - IronButterfly.center_strike p
           == IronButterfly.center_strike p - IronButterfly.long_put p)
  /\ (length (generate_diagonal_spread_params current_price) <= 15)%nat
  /\ (forall p, p ∈ generate_diagonal_spread_params current_price ->
        Diagonal.long_strike p < Diagonal.short_strike p
        /\ (Diagonal.near_dte p < Diagonal.far_dte p)%Z).
Proof.
  split; [intros option_type; reflexivity|].
  split; [reflexivity|]. split; [reflexivity|]. split; [reflexivity|].
  split; [reflexivity|].
  split; [|split].
  - intros p Hp. unfold generate_iron_butterfly_params in Hp.
    cbn [for_each flat_map app take] in Hp.
    rewrite !elem_of_cons, elem_of_nil in Hp.
    destruct_or!; try contradiction; subst p; cbn;
      (split; [reflexivity|]; split; [reflexivity|]; ring).
  - unfold generate_diagonal_spread_params. rewrite length_take. lia.
  - intros p Hp. unfold generate_diagonal_spread_params in Hp.
    apply subseteq_take, list_elem_of_In in Hp. unfold for_each in Hp.
    apply in_flat_map in Hp as (near & _ & Hp).
    apply in_flat_map in Hp as (far & _ & Hp).
    apply in_flat_map in Hp as (long_m & _ & Hp).
    apply in_flat_map in Hp as (short_m & _ & Hp).
    cbv zeta in Hp.
    destruct ((far >? near)%Z && _) eqn:E; [|destruct Hp].
    destruct Hp as [<- | []]. cbn.
    apply andb_true_iff in E as [E1 E2]. apply Z.gtb_lt in E1. reflect_cmp.
    now split.
Qed.

Ltac decide_guards :=
  repeat match goal with
    | |- context [Num.ltb (to_grid ?a) (to_grid ?b)] =>
        rewrite (to_grid_ltb a b) by lra
    | |- context [Num.neb (to_grid ?a) (to_grid ?b)] =>
        first [ rewrite (to_grid_neb_up a b) by lra
              | rewrite (to_grid_neb_down a b) by lra ]
    end.

(** X28.  For a price above 125 every iron condor combination passes
    the guard, so [generate_iron_condor_params] returns 18 candidates
    at 14 days and 2 at 21 days, none at 30; in each the strikes are
    strictly ordered: long put, short put, short call, long call. *)
Theorem iron_condor_candidates (current_price : Q) :
  125 < current_price ->
  let candidates := generate_iron_condor_params current_price in
  map IronCondor.dte candidates = (replicate 18 14 ++ replicate 2 21)%Z
  /\ forall p, p ∈ candidates ->
       IronCondor.long_put p < IronCondor.short_put p
       /\ IronCondor.short_put p < IronCondor.short_call p
       /\ IronCondor.short_call p < IronCondor.long_call p.
Proof.
  intros Hprice candidates. unfold candidates, generate_iron_condor_params.
  cbn [for_each flat_map app]. decide_guards. cbn [andb app take].
  split; [reflexivity|].
  intros p Hp. rewrite !elem_of_cons, elem_of_nil in Hp.
  destruct_or!; try contradiction; subst p; cbn [IronCondor.long_put
    IronCondor.short_put IronCondor.short_call IronCondor.long_call];
    (split; [apply to_grid_lt; lra|]; split; apply to_grid_lt; lra).
Qed.

Lemma iron_condor_candidates_witness :
  125 < 240
  /\ map IronCondor.dte (generate_iron_condor_params 240)
     = (replicate 18 14 ++ replicate 2 21)%Z.
Proof.
  assert (125 < 240) as H by reflexivity.
  split; [exact H|]. exact (proj1 (iron_condor_candidates 240 H)).
Defined.

(** X29.  For a price above 128 [generate_spread_params] returns nine
    candidates at 14 and six at 21 days, none at 30; a bull call spread
    has its short strike above the long strike, any other spread type
    below it. *)
Theorem spread_candidates (current_price : Q) (spread_type : string) :
  128 < current_price ->
  let candidates := generate_spread_params current_price spread_type in
  map Spread.dte candidates = (replicate 9 14 ++ replicate 6 21)%Z
  /\ forall p, p ∈ candidates ->
       if String.eqb spread_type "BULL_CALL_SPREAD"
       then Spread.long_strike p < Spread.short_strike p
       else Spread.short_strike p < Spread.long_strike p.
Proof.
  intros Hprice candidates. unfold candidates, generate_spread_params.
  cbn [for_each flat_map app].
  destruct (String.eqb spread_type "BULL_CALL_SPREAD").
  - decide_guards. cbn [app take].
    split; [reflexivity|].
    intros p Hp. rewrite !elem_of_cons, elem_of_nil in Hp.
    destruct_or!; try contradiction; subst p; cbn [Spread.long_strike Spread.short_strike];
      apply to_grid_lt; lra.
  - decide_guards. cbn [app take].
    split; [reflexivity|].
    intros p Hp. rewrite !elem_of_cons, elem_of_nil in Hp.
    destruct_or!; try contradiction; subst p; cbn [Spread.long_strike Spread.short_strike];
      apply to_grid_lt; lra.
Qed.

Lemma spread_candidates_witness :
  128 < 240
  /\ map Spread.dte (generate_spread_params 240 "BEAR_PUT_SPREAD")
     = (replicate 9 14 ++ replicate 6 21)%Z.
Proof.
  assert (128 < 240) as H by reflexivity.
  split; [exact H|]. exact (proj1 (spread_candidates 240 "BEAR_PUT_SPREAD" H)).
Defined.

End CandidateFacts.
